(** * The course notebooks of EECE 7398, embedded in Rocq

    The repository is a packet of Jupyter notebooks.  Every code cell is a
    straight-line Python script that calls into external libraries (torch,
    torchvision, wandb, matplotlib, platform) and prints.  The embedding
    below is shallow: each Python function and each cell is a Rocq function
    that returns the sequence of external interactions it performs (imports,
    prints, IPython shell escapes, library calls) together with its outcome,
    a returned value or a raised exception.  Whatever the libraries answer is
    an input, collected in the record [world]. *)

From Stdlib Require Import ZArith QArith List String Lia.
From stdpp Require Import base decidable option list strings gmap.

Local Open Scope string_scope.
Local Open Scope Z_scope.
Local Open Scope list_scope.

(** ** Python values and exceptions *)

(** Python's [float].  The notebooks add losses, divide by an [int] and
    compare with zero; nothing below depends on a law of float arithmetic,
    so the operations are kept abstract. *)
Class PyFloat : Type := {
  pyfloat : Type;
  fzero : pyfloat;                          (* 0.0 *)
  fnan : pyfloat;                           (* float('nan') *)
  fadd : pyfloat -> pyfloat -> pyfloat;     (* x + y *)
  fdiv_int : pyfloat -> Z -> pyfloat;       (* x / n, n an int literal *)
  fdiv : pyfloat -> pyfloat -> pyfloat;     (* x / y *)
  fpos : pyfloat -> bool                    (* x > 0 *)
}.

(** The exceptions the notebooks can meet.  [ModuleNotFoundError] is the
    subclass of [ImportError] that a missing module raises. *)
Inductive exn : Type :=
| ImportError
| ModuleNotFoundError
| NameError (name : string)
| ZeroDivisionError
| IndexError
| LibraryError (what : string).

(** [isinstance(e, ImportError)]: what [except ImportError] catches. *)
Definition is_ImportError (e : exn) : bool :=
  match e with
  | ImportError | ModuleNotFoundError => true
  | _ => false
  end.

Declare Scope py_scope.
Delimit Scope py_scope with py.

Section Python.
Context `{PyFloat}.

Inductive value : Type :=
| VNone
| VBool (b : bool)
| VInt (z : Z)
| VStr (s : string)
| VFloat (x : pyfloat)
| VRat (q : Q)            (* the exact quotient of an int (or whole float) division *)
| VExpr (src : string).   (* a value the model does not look into, as the source writes it *)

(** An f-string: literal text and formatted fields with their format spec. *)
Inductive piece : Type :=
| Lit (s : string)
| Fmt (v : value) (spec : string).

(** An argument of a call: a value, a dict literal or a list literal,
    passed by position or by keyword. *)
Inductive data : Type :=
| Atom (v : value)
| Dict (items : list (string * value))
| ListOf (items : list value).

Inductive arg : Type :=
| Pos (d : data)
| Kw (name : string) (d : data).

(** The interactions of repository code with the outside.  A call is
    recorded for every call expression that enters library code: a library
    function or constructor, a method of a library object, [iter] and
    [next] on a loader.  Python's builtins on its own values ([range],
    [len], [enumerate], [zip], [str], [float], [hasattr], the methods of
    [str], [list] and [dict]), operators, indexing and attribute reads are
    not recorded.  A library call is one interaction, whatever the library
    does inside; the code a library calls back ([forward] through
    [model(x)], the sweep's [train_model] through [wandb.agent]) is a
    function of its own.  Strings are written as in the source, escape
    sequences included; the multi-line instruction texts are cut after
    their first line, marked by [[...]].

    An exception that an import or a library call raises belongs to that
    interaction.  An exception that an operation of the code itself raises
    (an unbound name, a division by zero, an index out of range, a tensor
    shape that a layer refuses) is recorded where it is raised, as
    [ERaise], so that a trace shows every exception of a run, also one that
    a handler would swallow. *)
Inductive event : Type :=
| EImport (module : string)                (* import module *)
| EPrint (text : list piece)               (* print(...) *)
| EShell (cmd : string)                    (* IPython's !cmd *)
| ECall (callee : string) (args : list arg) (* a call into a library *)
| ERaise (e : exn).                        (* an exception raised in repository code *)

(** One batch as a loop body sees it: for every sample the class the model
    predicts ([torch.max(outputs.data, 1)]) and its label, and the batch's
    loss ([loss.item()], training only). *)
Record batch : Type := {
  samples : list (Z * Z);
  loss : pyfloat
}.

(** What the environment and the libraries answer. *)
Record world : Type := {
  environ : list (string * string);          (* os.environ *)
  argv : list string;                        (* sys.argv *)
  import_outcome : string -> option exn;     (* None: the module imports *)
  lib_raises : string -> list arg -> option exn; (* an exception a library call raises *)
  cuda_is_available : bool;                  (* torch.cuda.is_available() *)
  device_count : Z;                          (* torch.cuda.device_count() *)
  platform_system : string;                  (* platform.system() *)
  has_linux_distribution : bool;             (* hasattr(platform, 'linux_distribution') *)
  config_epochs : Z;                         (* wandb.config.epochs *)
  train_pass : nat -> list batch;            (* epoch e's pass over trainloader *)
  test_pass : nat -> list batch;             (* the pass over testloader after epoch e *)
  final_test_pass : list batch;              (* the pass over testloader of the evaluation cell *)
  first_train_labels : list Z;               (* the labels of next(iter(trainloader)) *)
  first_test_batch : list (Z * Z);           (* next(iter(testloader)) with the model's predictions *)
  cpu_time : Z -> pyfloat;                   (* time.time() - start_time, CPU matmul of a size *)
  gpu_time : Z -> pyfloat                    (* the same on the GPU *)
}.

(** ** The monad of a cell: a trace and an outcome *)

Definition M (A : Type) : Type := list event * (exn + A).

Definition ret {A} (a : A) : M A := ([], inr a).

Definition bind {A B} (m : M A) (k : A -> M B) : M B :=
  match m with
  | (t, inl e) => (t, inl e)
  | (t, inr a) => let '(t', o) := k a in (t ++ t', o)
  end.

(** [raise e], and every operation of the code that fails with [e]. *)
Definition raise {A} (e : exn) : M A := ([ERaise e], inl e).

Definition emit (ev : event) : M unit := ([ev], inr tt).

Definition trace {A} (m : M A) : list event := fst m.
Definition outcome {A} (m : M A) : exn + A := snd m.

Notation "x ← m ; k" := (bind m (fun x => k))
  (at level 20, m at level 100, k at level 200, only parsing) : py_scope.
Notation "m ;; k" := (bind m (fun _ => k))
  (at level 100, k at level 200, only parsing, right associativity) : py_scope.
Local Open Scope py_scope.

(** [try: body / except ImportError as e: handler].  The handler runs only
    for an instance of [ImportError]; any other exception leaves the [try]
    statement as it entered. *)
Definition try_except_ImportError {A} (body : M A) (handler : exn -> M A) : M A :=
  match body with
  | (t, inl e) =>
      if is_ImportError e then let '(t', o) := handler e in (t ++ t', o)
      else (t, inl e)
  | (t, inr a) => (t, inr a)
  end.

(** [for x in xs: body x]. *)
Fixpoint for_each {A} (xs : list A) (body : A -> M unit) : M unit :=
  match xs with
  | [] => ret tt
  | x :: xs' => body x;; for_each xs' body
  end.

(** A [for] loop that updates local variables, collected in [s]. *)
Fixpoint for_fold {A S} (xs : list A) (s : S) (body : S -> A -> M S) : M S :=
  match xs with
  | [] => ret s
  | x :: xs' => s' ← body s x; for_fold xs' s' body
  end.

(** [range(n)]: empty for [n <= 0]. *)
Definition range (n : Z) : list Z := map Z.of_nat (seq 0 (Z.to_nat n)).

(** [enumerate(xs, 0)]. *)
Definition enumerate {A} (xs : list A) : list (Z * A) :=
  combine (map Z.of_nat (seq 0 (length xs))) xs.

(** [a / b] on two ints, or on two floats that hold whole numbers: the exact
    quotient, [ZeroDivisionError] for a zero divisor. *)
Definition truediv (a b : Z) : M Q :=
  if b =? 0 then raise ZeroDivisionError
  else ret (Qmake (Z.sgn b * a) (Z.to_pos (Z.abs b))).

(** [xs[i]] on a Python list: negative indices count from the end, an index
    out of range raises [IndexError]. *)
Definition py_index {A} (xs : list A) (i : Z) : M A :=
  let n := Z.of_nat (length xs) in
  let j := if i <? 0 then i + n else i in
  if (j <? 0) || (n <=? j) then raise IndexError
  else match xs !! Z.to_nat j with
       | Some x => ret x
       | None => raise IndexError
       end.

(** [xs[i] = x] on a Python list. *)
Definition py_setitem {A} (xs : list A) (i : Z) (x : A) : M (list A) :=
  let n := Z.of_nat (length xs) in
  let j := if i <? 0 then i + n else i in
  if (j <? 0) || (n <=? j) then raise IndexError
  else ret (<[Z.to_nat j := x]> xs).

(** The kernel's global names bound by [def] and [class] statements; a name
    is looked up when the call runs. *)
Definition globals : Type := gset string.

Definition call_global {A} (g : globals) (name : string) (body : M A) : M A :=
  if decide (name ∈ g) then body else raise (NameError name).

(** A notebook cell is a sequence of top-level statements: [def] and [class]
    statements bind a name, the statements in between run. *)
Inductive stmt : Type :=
| Def (name : string)
| Class (name : string)
| Run (body : globals -> M unit).

Definition cell : Type := list stmt.

(** Running a cell in a kernel whose [def]/[class] bindings are [g]: the
    bindings afterwards, what the cell did, and the exception that stopped
    it, if any. *)
Fixpoint exec_cell (g : globals) (c : cell) : globals * list event * option exn :=
  match c with
  | [] => (g, [], None)
  | Def name :: c' => exec_cell ({[name]} ∪ g) c'
  | Class name :: c' => exec_cell ({[name]} ∪ g) c'
  | Run body :: c' =>
      match body g with
      | (t, inl e) => (g, t, Some e)
      | (t, inr _) => let '(g', t', o) := exec_cell g c' in (g', t ++ t', o)
      end
  end.

(** Running the cells of a notebook top to bottom ("Run All"): execution
    stops at the first cell that raises. *)
Fixpoint run_all (g : globals) (cells : list cell) : globals * list event * option exn :=
  match cells with
  | [] => (g, [], None)
  | c :: cells' =>
      match exec_cell g c with
      | (g', t, Some e) => (g', t, Some e)
      | (g', t, None) => let '(g'', t', o) := run_all g' cells' in (g'', t ++ t', o)
      end
  end.

Variable w : world.

(** [import module]. *)
Definition import_ (module : string) : M unit :=
  ([EImport module],
   match import_outcome w module with Some e => inl e | None => inr tt end).

(** A call into a library; the callee is written as in the source. *)
Definition call (callee : string) (args : list arg) : M unit :=
  ([ECall callee args],
   match lib_raises w callee args with Some e => inl e | None => inr tt end).

Definition print (text : list piece) : M unit := emit (EPrint text).

(** IPython's [!cmd]: the command runs in a subprocess of the kernel; its
    exit status is not looked at. *)
Definition shell (cmd : string) : M unit := emit (EShell cmd).

(** [torch.cuda.is_available()]. *)
Definition is_available : M bool :=
  call "torch.cuda.is_available" [];; ret (cuda_is_available w).

(** Shorthands for arguments. *)
Definition int_ (z : Z) : data := Atom (VInt z).
Definition str_ (s : string) : data := Atom (VStr s).
Definition bool_ (b : bool) : data := Atom (VBool b).
Definition expr_ (src : string) : data := Atom (VExpr src).

(** [print(s)] for a string literal. *)
Definition print_str (s : string) : M unit := print [Lit s].

End Python.

Notation "x ← m ; k" := (bind m (fun x => k))
  (at level 20, m at level 100, k at level 200, only parsing) : py_scope.
Notation "m ;; k" := (bind m (fun _ => k))
  (at level 100, k at level 200, only parsing, right associativity) : py_scope.
Local Open Scope py_scope.

(** ** interactive_wandb_tutorial.ipynb *)

Module WandbTutorial.
Section Notebook.
Context `{PyFloat} (w : world).

(** Cell 1. *)
Definition check_wandb_installation : M bool :=
  try_except_ImportError
    (import_ w "wandb";;
     print [Lit "✅ W&B is installed (version "; Fmt (VExpr "wandb.__version__") ""; Lit ")"];;
     ret true)
    (fun _ =>
     print_str "❌ W&B is not installed. Installing now...";;
     shell "pip install wandb -q";;
     ret false).

Definition cell1 (g : globals) : M unit :=
  call_global g "check_wandb_installation" check_wandb_installation;;
  ret tt.

(** Cell 2. *)
Definition cell2 : M unit :=
  import_ w "wandb";;
  call w "wandb.login" [].

(** Cell 3: a linear regression logged to W&B. *)
Definition cell3 : M unit :=
  import_ w "numpy";;
  import_ w "torch";;
  import_ w "torch.nn";;
  import_ w "torch.optim";;
  call w "torch.randn" [Pos (int_ 100); Pos (int_ 1)];;
  call w "torch.randn" [Pos (int_ 100); Pos (int_ 1)];;
  call w "nn.Linear" [Pos (int_ 1); Pos (int_ 1)];;
  call w "nn.MSELoss" [];;
  call w "model.parameters" [];;
  call w "optim.SGD" [Pos (expr_ "model.parameters()"); Kw "lr" (expr_ "0.01")];;
  call w "wandb.init"
    [Kw "project" (str_ "interactive-tutorial");
     Kw "config" (Dict [("learning_rate", VExpr "0.01"); ("epochs", VInt 100);
                        ("batch_size", VInt 32)])];;
  for_each (range (config_epochs w)) (fun epoch =>
    call w "optimizer.zero_grad" [];;
    call w "model" [Pos (expr_ "X")];;
    call w "criterion" [Pos (expr_ "outputs"); Pos (expr_ "y")];;
    call w "loss.backward" [];;
    call w "optimizer.step" [];;
    call w "loss.item" [];;
    call w "model.weight.item" [];;
    call w "model.bias.item" [];;
    call w "wandb.log"
      [Pos (Dict [("loss", VExpr "loss.item()"); ("weight", VExpr "model.weight.item()");
                  ("bias", VExpr "model.bias.item()")])]);;
  call w "wandb.finish" [].

(** Cell 4: a plot and a table logged to W&B. *)
Definition cell4 : M unit :=
  import_ w "matplotlib.pyplot";;
  call w "wandb.init"
    [Kw "project" (str_ "interactive-tutorial");
     Kw "name" (str_ "advanced-tracking");
     Kw "config" (Dict [("architecture", VStr "LinearRegression"); ("dataset", VStr "synthetic");
                        ("learning_rate", VExpr "0.01")])];;
  call w "plt.figure" [Kw "figsize" (expr_ "(10, 6)")];;
  call w "X.numpy" [];;
  call w "y.numpy" [];;
  call w "plt.scatter" [Pos (expr_ "X.numpy()"); Pos (expr_ "y.numpy()"); Kw "label" (str_ "True Data")];;
  call w "X.numpy" [];;
  call w "model" [Pos (expr_ "X")];;
  call w "model(X).detach" [];;
  call w "model(X).detach().numpy" [];;
  call w "plt.plot" [Pos (expr_ "X.numpy()"); Pos (expr_ "model(X).detach().numpy()");
                     Pos (str_ "r"); Kw "label" (str_ "Prediction")];;
  call w "plt.legend" [];;
  call w "plt.title" [Pos (str_ "Regression Results")];;
  call w "wandb.Image" [Pos (expr_ "plt")];;
  call w "wandb.log" [Pos (Dict [("regression_plot", VExpr "wandb.Image(plt)")])];;
  call w "wandb.watch" [Pos (expr_ "model")];;
  call w "model" [Pos (expr_ "X[:5]")];;
  for_each (range 5) (fun _ =>
    call w "x.item" [];;
    call w "y_.item" [];;
    call w "pred.item" []);;
  call w "wandb.Table" [Kw "data" (expr_ "data");
                        Kw "columns" (ListOf [VStr "input"; VStr "true"; VStr "predicted"])];;
  call w "wandb.log" [Pos (Dict [("predictions", VExpr "table")])];;
  call w "wandb.finish" [].

(** Cell 5: [train_model], the function handed to the sweep agent. *)
Definition train_model : M unit :=
  call w "wandb.init" [];;
  call w "nn.Linear" [Pos (int_ 1); Pos (int_ 1)];;
  call w "nn.MSELoss" [];;
  call w "model.parameters" [];;
  call w "optim.SGD" [Pos (expr_ "model.parameters()"); Kw "lr" (expr_ "wandb.config.learning_rate")];;
  for_each (range (config_epochs w)) (fun epoch =>
    call w "optimizer.zero_grad" [];;
    call w "model" [Pos (expr_ "X")];;
    call w "criterion" [Pos (expr_ "outputs"); Pos (expr_ "y")];;
    call w "loss.backward" [];;
    call w "optimizer.step" [];;
    call w "loss.item" [];;
    call w "wandb.log" [Pos (Dict [("loss", VExpr "loss.item()")])]).

(** The agent runs [train_model] inside the library: in the cell below the
    call [wandb.agent] is one event, and [train_model] is a function of its
    own. *)
Definition notebook : list cell :=
  [ [Def "check_wandb_installation"; Run cell1];
    [Run (fun _ => cell2)];
    [Run (fun _ => cell3)];
    [Run (fun _ => cell4)];
    [Run (fun _ => call w "wandb.sweep" [Pos (expr_ "sweep_configuration");
                                         Kw "project" (str_ "interactive-tutorial")]);
     Def "train_model";
     Run (fun _ => call w "wandb.agent" [Pos (expr_ "sweep_id"); Kw "function" (expr_ "train_model");
                                         Kw "count" (int_ 5)])] ].

End Notebook.
End WandbTutorial.

(** ** interactive_pytorch_gpu.ipynb *)

Module PytorchGpu.
Section Notebook.
Context `{PyFloat} (w : world).

(** [x/1024**2] of a library number, printed with two decimals. *)
Definition mb (src : string) : piece := Fmt (VExpr (src +:+ "/1024**2")) ".2f".

(** Cell 1. *)
Definition check_gpu_availability : M unit :=
  print [Lit "PyTorch version: "; Fmt (VExpr "torch.__version__") ""];;
  print [Lit "Python version: "; Fmt (VExpr "sys.version.split()[0]") ""];;
  call w "platform.system" [];;
  call w "platform.version" [];;
  print [Lit "Operating System: "; Fmt (VStr (platform_system w)) ""; Lit " ";
         Fmt (VExpr "platform.version()") ""];;
  cuda ← is_available w;
  if cuda : bool then
    print_str "\n✅ CUDA is available!";;
    print [Lit "CUDA version: "; Fmt (VExpr "torch.version.cuda") ""];;
    call w "torch.cuda.get_device_name" [Pos (int_ 0)];;
    print [Lit "GPU device: "; Fmt (VExpr "torch.cuda.get_device_name(0)") ""];;
    call w "torch.cuda.device_count" [];;
    print [Lit "Number of GPUs: "; Fmt (VInt (device_count w)) ""];;
    call w "torch.cuda.memory_allocated" [Pos (int_ 0)];;
    call w "torch.cuda.memory_reserved" [Pos (int_ 0)];;
    print_str "\nGPU Memory:";;
    print [Lit "- Allocated: "; mb "memory_allocated"; Lit " MB"];;
    print [Lit "- Reserved:  "; mb "memory_reserved"; Lit " MB"]
  else
    print_str "\n❌ CUDA is not available. Running on CPU only.".

Definition imports1 : M unit :=
  import_ w "torch";;
  import_ w "sys";;
  import_ w "platform".

Definition cell1 (g : globals) : M unit :=
  call_global g "check_gpu_availability" check_gpu_availability.

(** Cell 2. *)
Definition demonstrate_gpu_operations : M unit :=
  call w "torch.randn" [Pos (int_ 1000); Pos (int_ 1000)];;
  print_str "1. Creating tensors:";;
  print [Lit "CPU tensor device: "; Fmt (VExpr "cpu_tensor.device") ""];;
  cuda ← is_available w;
  if cuda : bool then
    call w "cpu_tensor.cuda" [];;
    print [Lit "GPU tensor device: "; Fmt (VExpr "gpu_tensor.device") ""];;
    call w "torch.randn" [Pos (int_ 1000); Pos (int_ 1000); Kw "device" (str_ "cuda")];;
    print [Lit "Direct GPU tensor device: "; Fmt (VExpr "direct_gpu_tensor.device") ""];;
    print_str "\n2. Basic operations on GPU:";;
    print [Lit "Matrix multiplication result device: "; Fmt (VExpr "result.device") ""];;
    print_str "\n3. Moving back to CPU:";;
    call w "result.cpu" [];;
    print [Lit "Result moved back to CPU device: "; Fmt (VExpr "cpu_result.device") ""]
  else
    print_str "GPU operations not available".

Definition cell2 (g : globals) : M unit :=
  call_global g "demonstrate_gpu_operations" demonstrate_gpu_operations.

(** Cell 3.  One entry of [results]. *)
Record timing : Type := {
  size : Z;
  cpu_time_ : pyfloat;
  gpu_time_ : pyfloat;
  speedup : pyfloat
}.

Definition sizes : list Z := [1000; 2000; 4000].

(** ["-" * 60]. *)
Definition dashes (n : nat) : string := String.concat "" (repeat "-" n).

Definition benchmark_operations : M unit :=
  results ← for_fold sizes [] (fun results size =>
    call w "torch.randn" [Pos (int_ size); Pos (int_ size)];;
    call w "torch.randn" [Pos (int_ size); Pos (int_ size)];;
    call w "time.time" [];;
    call w "torch.matmul" [Pos (expr_ "a_cpu"); Pos (expr_ "b_cpu")];;
    call w "time.time" [];;
    let cpu := cpu_time w size in
    cuda ← is_available w;
    gpu ← (if cuda : bool then
             call w "a_cpu.cuda" [];;
             call w "b_cpu.cuda" [];;
             call w "torch.matmul" [Pos (expr_ "a_gpu"); Pos (expr_ "b_gpu")];;
             call w "torch.cuda.synchronize" [];;
             call w "time.time" [];;
             call w "torch.matmul" [Pos (expr_ "a_gpu"); Pos (expr_ "b_gpu")];;
             call w "torch.cuda.synchronize" [];;
             call w "time.time" [];;
             ret (gpu_time w size)
           else ret fnan);
    ret (results ++ [{| size := size; cpu_time_ := cpu; gpu_time_ := gpu;
                        speedup := if fpos gpu then fdiv cpu gpu else fnan |}]));
  print_str "Matrix Multiplication Performance Comparison:";;
  print_str "\nSize\t\tCPU (s)\t\tGPU (s)\t\tSpeedup";;
  print_str (dashes 60);;
  for_each results (fun r =>
    print [Fmt (VInt (size r)) ""; Lit "x"; Fmt (VInt (size r)) ""; Lit "\t";
           Fmt (VFloat (cpu_time_ r)) ".4f"; Lit "\t\t";
           Fmt (VFloat (gpu_time_ r)) ".4f"; Lit "\t\t";
           Fmt (VFloat (speedup r)) ".2f"; Lit "x"]).

Definition imports3 : M unit :=
  import_ w "time";;
  import_ w "numpy".

Definition cell3 (g : globals) : M unit :=
  call_global g "benchmark_operations" benchmark_operations.

(** Cell 4.  [print_memory_usage] is the pair of prints that the source
    writes out three times. *)
Definition print_memory_usage : M unit :=
  call w "torch.cuda.memory_allocated" [];;
  print [Lit "Allocated: "; mb "torch.cuda.memory_allocated()"; Lit " MB"];;
  call w "torch.cuda.memory_reserved" [];;
  print [Lit "Cached:    "; mb "torch.cuda.memory_reserved()"; Lit " MB"].

Definition demonstrate_memory_management : M unit :=
  cuda ← is_available w;
  if negb cuda then print_str "GPU not available"
  else
    print_str "Initial GPU Memory Usage:";;
    print_memory_usage;;
    for_each (range 5) (fun i =>
      call w "torch.randn" [Pos (int_ 1000); Pos (int_ 1000); Kw "device" (str_ "cuda")];;
      print [Lit "\nAfter creating tensor "; Fmt (VInt (i + 1)) ""; Lit ":"];;
      print_memory_usage);;
    print_str "\nClearing tensors...";;
    call w "torch.cuda.empty_cache" [];;
    print_str "\nFinal GPU Memory Usage:";;
    print_memory_usage.

Definition cell4 (g : globals) : M unit :=
  call_global g "demonstrate_memory_management" demonstrate_memory_management.

(** Cell 5. *)
Definition check_multi_gpu : M unit :=
  cuda ← is_available w;
  if negb cuda then print_str "GPU not available"
  else
    call w "torch.cuda.device_count" [];;
    let num_gpus := device_count w in
    print [Lit "Number of GPUs available: "; Fmt (VInt num_gpus) ""];;
    if 1 <? num_gpus then
      print_str "\nGPU Details:";;
      for_each (range num_gpus) (fun i =>
        print [Lit "\nGPU "; Fmt (VInt i) ""; Lit ":"];;
        call w "torch.cuda.get_device_name" [Pos (int_ i)];;
        print [Lit "Name: "; Fmt (VExpr "torch.cuda.get_device_name(i)") ""];;
        call w "torch.cuda.memory_allocated" [Pos (int_ i)];;
        print [Lit "Memory Allocated: "; mb "torch.cuda.memory_allocated(i)"; Lit " MB"];;
        call w "torch.cuda.memory_reserved" [Pos (int_ i)];;
        print [Lit "Memory Cached: "; mb "torch.cuda.memory_reserved(i)"; Lit " MB"]);;
      call w "torch.nn.Linear" [Pos (int_ 100); Pos (int_ 10)];;
      call w "torch.nn.DataParallel" [Pos (expr_ "model")];;
      print [Lit "\nModel using DataParallel: "; Fmt (VExpr "model.device_ids") ""]
    else
      print_str "Multi-GPU training not available (only one GPU detected)".

Definition cell5 (g : globals) : M unit :=
  call_global g "check_multi_gpu" check_multi_gpu.

Definition notebook : list cell :=
  [ [Run (fun _ => imports1); Def "check_gpu_availability"; Run cell1];
    [Def "demonstrate_gpu_operations"; Run cell2];
    [Run (fun _ => imports3); Def "benchmark_operations"; Run cell3];
    [Def "demonstrate_memory_management"; Run cell4];
    [Def "check_multi_gpu"; Run cell5] ].

End Notebook.
End PytorchGpu.

(** ** interactive_local_setup.ipynb

    The multi-line instruction texts are cut after their first line. *)

Module LocalSetup.
Section Notebook.
Context `{PyFloat} (w : world).

(** Cell 1. *)
Definition get_os_info : M (string * value) :=
  call w "platform.system" [];;
  let os_name := platform_system w in
  if String.eqb os_name "Darwin" then
    call w "platform.mac_ver" [];;
    ret ("MacOS", VExpr "platform.mac_ver()[0]")
  else if String.eqb os_name "Windows" then
    call w "platform.win32_ver" [];;
    ret ("Windows", VExpr "platform.win32_ver()[0]")
  else if String.eqb os_name "Linux" then
    if has_linux_distribution w then
      call w "platform.linux_distribution" [];;
      ret ("Linux", VExpr "platform.linux_distribution()[0]")
    else ret ("Linux", VStr "Unknown")
  else ret ("Unknown", VStr "Unknown").

Definition imports1 : M unit :=
  import_ w "platform";;
  import_ w "sys".

Definition cell1 (g : globals) : M unit :=
  info ← call_global g "get_os_info" get_os_info;
  print [Lit "Detected Operating System: "; Fmt (VStr (fst info)) "";
         Lit " (Version: "; Fmt (snd info) ""; Lit ")"];;
  print [Lit "Python Version: "; Fmt (VExpr "sys.version") ""].

(** Cell 2. *)
Definition instructions : gmap string string :=
  {[ "Windows" := "Windows Installation Steps: [...]";
     "MacOS" := "MacOS Installation Steps: [...]";
     "Linux" := "Linux Installation Steps: [...]" ]}.

Definition show_conda_instructions (g : globals) : M string :=
  info ← call_global g "get_os_info" get_os_info;
  ret (default
         "Operating system not detected. Please refer to https://docs.conda.io/en/latest/miniconda.html"
         (instructions !! fst info)).

Definition cell2 (g : globals) : M unit :=
  text ← call_global g "show_conda_instructions" (show_conda_instructions g);
  print_str text.

(** Cell 3. *)
Definition show_environment_setup : M unit :=
  print_str "Run these commands in your terminal/command prompt: [...]".

Definition cell3 (g : globals) : M unit :=
  call_global g "show_environment_setup" show_environment_setup.

(** Cell 4. *)
Definition show_package_installation (g : globals) : M unit :=
  info ← call_global g "get_os_info" get_os_info;
  print_str "First, let's check if you have a NVIDIA GPU available...";;
  (if String.eqb (fst info) "Windows" then
     print_str "To check for NVIDIA GPU on Windows: [...]"
   else
     print_str "To check for NVIDIA GPU on Linux/MacOS: [...]");;
  print_str "Based on whether you have a GPU or not, use one of these installation commands: [...]".

Definition cell4 (g : globals) : M unit :=
  call_global g "show_package_installation" (show_package_installation g).

(** Cell 5. *)
Definition verify_setup : M unit :=
  try_except_ImportError
    (import_ w "torch";;
     import_ w "torchvision";;
     import_ w "matplotlib";;
     import_ w "pandas";;
     import_ w "sklearn";;
     import_ w "wandb";;
     print_str "✅ All required packages are installed!";;
     print [Lit "PyTorch version: "; Fmt (VExpr "torch.__version__") ""];;
     cuda ← is_available w;
     print [Lit "CUDA available: "; Fmt (VBool cuda) ""];;
     cuda' ← is_available w;
     if cuda' : bool then
       print [Lit "CUDA version: "; Fmt (VExpr "torch.version.cuda") ""];;
       call w "torch.cuda.get_device_name" [Pos (int_ 0)];;
       print [Lit "GPU device: "; Fmt (VExpr "torch.cuda.get_device_name(0)") ""]
     else ret tt)
    (fun e =>
     print [Lit "❌ Some packages are missing: "; Fmt (VExpr "str(e)") ""];;
     print_str "Please follow the installation instructions above.").

Definition cell5 (g : globals) : M unit :=
  call_global g "verify_setup" verify_setup.

(** Cell 6. *)
Definition common_issues : gmap string string :=
  {[ "Windows" := "Common Windows Issues: [...]";
     "MacOS" := "Common MacOS Issues: [...]";
     "Linux" := "Common Linux Issues: [...]" ]}.

Definition show_troubleshooting (g : globals) : M unit :=
  info ← call_global g "get_os_info" get_os_info;
  print_str (default "Please refer to the Conda documentation for troubleshooting."
               (common_issues !! fst info));;
  print_str "General Troubleshooting: [...]".

Definition cell6 (g : globals) : M unit :=
  call_global g "show_troubleshooting" (show_troubleshooting g).

Definition notebook : list cell :=
  [ [Run (fun _ => imports1); Def "get_os_info"; Run cell1];
    [Def "show_conda_instructions"; Run cell2];
    [Def "show_environment_setup"; Run cell3];
    [Def "show_package_installation"; Run cell4];
    [Def "verify_setup"; Run cell5];
    [Def "show_troubleshooting"; Run cell6] ].

End Notebook.
End LocalSetup.

(** ** interactive_cifar10.ipynb *)

Module Cifar10.

(** *** Tensor shapes of the layers [CIFAR10Net] is built from

    The size rules are those of the torch.nn documentation, for the
    arguments the notebook passes (stride and dilation of a convolution at
    their default 1, no padding in the pooling). *)

Definition shape : Type := list Z.

Record Conv2d : Type := {
  in_channels : Z; out_channels : Z; kernel_size : Z; padding : Z
}.
Record MaxPool2d : Type := { pool_kernel : Z; pool_stride : Z }.
Record Linear : Type := { in_features : Z; out_features : Z }.
Record BatchNorm2d : Type := { num_features : Z }.

Definition conv_out (l : Conv2d) (h : Z) : Z := h + 2 * padding l - kernel_size l + 1.

Definition conv2d_shape (l : Conv2d) (x : shape) : option shape :=
  match x with
  | [n; c; h; w] =>
      if (c =? in_channels l) && (1 <=? conv_out l h) && (1 <=? conv_out l w)
      then Some [n; out_channels l; conv_out l h; conv_out l w]
      else None
  | _ => None
  end.

(** In training mode batch normalisation refuses a single value per
    channel. *)
Definition batch_norm2d_shape (training : bool) (l : BatchNorm2d) (x : shape) : option shape :=
  match x with
  | [n; c; h; w] =>
      if (c =? num_features l) && negb (training && (n * h * w =? 1))
      then Some x else None
  | _ => None
  end.

Definition pool_out (l : MaxPool2d) (h : Z) : Z := (h - pool_kernel l) / pool_stride l + 1.

Definition max_pool2d_shape (l : MaxPool2d) (x : shape) : option shape :=
  match x with
  | [n; c; h; w] =>
      if (1 <=? pool_out l h) && (1 <=? pool_out l w)
      then Some [n; c; pool_out l h; pool_out l w]
      else None
  | _ => None
  end.

Definition numel (x : shape) : Z := fold_right Z.mul 1 x.

(** [x.view(-1, k)]: the first size is inferred from the number of
    elements, which [k] must divide. *)
Definition view_shape (k : Z) (x : shape) : option shape :=
  if (0 <? k) && (numel x mod k =? 0) then Some [numel x / k; k] else None.

(** A linear layer maps the last size. *)
Fixpoint linear_shape (l : Linear) (x : shape) : option shape :=
  match x with
  | [] => None
  | [d] => if d =? in_features l then Some [out_features l] else None
  | n :: x' => option_map (cons n) (linear_shape l x')
  end.

(** *** Cell 4: the class *)

Record CIFAR10Net : Type := {
  conv1 : Conv2d; conv2 : Conv2d; conv3 : Conv2d;
  pool : MaxPool2d;
  fc1 : Linear; fc2 : Linear;
  dropout : string;
  batch_norm1 : BatchNorm2d; batch_norm2 : BatchNorm2d; batch_norm3 : BatchNorm2d
}.

Definition classes : list string :=
  ["plane"; "car"; "bird"; "cat"; "deer"; "dog"; "frog"; "horse"; "ship"; "truck"].

Section Notebook.
Context `{PyFloat} (w : world).

Definition new_Conv2d (i o k p : Z) : M Conv2d :=
  call w "nn.Conv2d" [Pos (int_ i); Pos (int_ o); Pos (int_ k); Kw "padding" (int_ p)];;
  ret {| in_channels := i; out_channels := o; kernel_size := k; padding := p |}.

Definition new_MaxPool2d (k s : Z) : M MaxPool2d :=
  call w "nn.MaxPool2d" [Pos (int_ k); Pos (int_ s)];;
  ret {| pool_kernel := k; pool_stride := s |}.

Definition new_Linear (i o : Z) : M Linear :=
  call w "nn.Linear" [Pos (int_ i); Pos (int_ o)];;
  ret {| in_features := i; out_features := o |}.

Definition new_BatchNorm2d (n : Z) : M BatchNorm2d :=
  call w "nn.BatchNorm2d" [Pos (int_ n)];;
  ret {| num_features := n |}.

(** [CIFAR10Net.__init__]. *)
Definition __init__ : M CIFAR10Net :=
  call w "super(CIFAR10Net, self).__init__" [];;
  c1 ← new_Conv2d 3 32 3 1;
  c2 ← new_Conv2d 32 64 3 1;
  c3 ← new_Conv2d 64 128 3 1;
  p ← new_MaxPool2d 2 2;
  f1 ← new_Linear (128 * 4 * 4) 512;
  f2 ← new_Linear 512 10;
  call w "nn.Dropout" [Pos (expr_ "0.25")];;
  b1 ← new_BatchNorm2d 32;
  b2 ← new_BatchNorm2d 64;
  b3 ← new_BatchNorm2d 128;
  ret {| conv1 := c1; conv2 := c2; conv3 := c3; pool := p; fc1 := f1; fc2 := f2;
         dropout := "0.25";
         batch_norm1 := b1; batch_norm2 := b2; batch_norm3 := b3 |}.

(** A layer applied to [x]: the call, then the shape of its result; a shape
    the layer refuses is torch's [RuntimeError]. *)
Definition apply_layer (callee : string) (f : shape -> option shape) (x : shape) : M shape :=
  call w callee [Pos (expr_ "x")];;
  match f x with
  | Some y => ret y
  | None => raise (LibraryError "RuntimeError")
  end.

(** One line of [forward]: [self.pool(torch.relu(bn(conv(x))))]. *)
Definition conv_block (conv_name bn_name : string) (conv : Conv2d) (bn : BatchNorm2d)
    (p : MaxPool2d) (training : bool) (x : shape) : M shape :=
  x ← apply_layer conv_name (conv2d_shape conv) x;
  x ← apply_layer bn_name (batch_norm2d_shape training bn) x;
  x ← apply_layer "torch.relu" Some x;
  apply_layer "self.pool" (max_pool2d_shape p) x.

(** [self.dropout(torch.relu(self.fc1(x)))]. *)
Definition hidden (self : CIFAR10Net) (x : shape) : M shape :=
  x ← apply_layer "self.fc1" (linear_shape (fc1 self)) x;
  x ← apply_layer "torch.relu" Some x;
  apply_layer "self.dropout" Some x.

(** [CIFAR10Net.forward], on the shape of [x]; [training] is the mode of the
    module ([model.train()] or [model.eval()]). *)
Definition forward (self : CIFAR10Net) (training : bool) (x : shape) : M shape :=
  x ← conv_block "self.conv1" "self.batch_norm1" (conv1 self) (batch_norm1 self) (pool self) training x;
  x ← conv_block "self.conv2" "self.batch_norm2" (conv2 self) (batch_norm2 self) (pool self) training x;
  x ← conv_block "self.conv3" "self.batch_norm3" (conv3 self) (batch_norm3 self) (pool self) training x;
  x ← apply_layer "x.view" (view_shape (128 * 4 * 4)) x;
  x ← hidden self x;
  x ← apply_layer "self.fc2" (linear_shape (fc2 self)) x;
  ret x.

(** *** Cell 1: imports, seed, device *)

Definition cell1 : M unit :=
  import_ w "torch";;
  import_ w "torch.nn";;
  import_ w "torch.optim";;
  import_ w "torchvision";;
  import_ w "torchvision.transforms";;
  import_ w "matplotlib.pyplot";;
  import_ w "numpy";;
  import_ w "wandb";;
  call w "torch.manual_seed" [Pos (int_ 42)];;
  cuda ← is_available w;
  (if cuda : bool then call w "torch.cuda.manual_seed" [Pos (int_ 42)] else ret tt);;
  cuda' ← is_available w;
  call w "torch.device" [Pos (str_ (if cuda' : bool then "cuda" else "cpu"))];;
  print [Lit "Using device: "; Fmt (VExpr "device") ""].

(** *** Cell 2: the datasets and their loaders *)

Record DataLoader : Type := {
  dataset : string; batch_size : Z; shuffle : bool; num_workers : Z
}.

Definition trainloader : DataLoader :=
  {| dataset := "trainset"; batch_size := 128; shuffle := true; num_workers := 2 |}.

Definition testloader : DataLoader :=
  {| dataset := "testset"; batch_size := 100; shuffle := false; num_workers := 2 |}.

Definition new_DataLoader (l : DataLoader) : M unit :=
  call w "torch.utils.data.DataLoader"
    [Pos (expr_ (dataset l)); Kw "batch_size" (int_ (batch_size l));
     Kw "shuffle" (bool_ (shuffle l)); Kw "num_workers" (int_ (num_workers l))].

Definition new_CIFAR10 (train : bool) (transform : string) : M unit :=
  call w "torchvision.datasets.CIFAR10"
    [Kw "root" (str_ "./data"); Kw "train" (bool_ train); Kw "download" (bool_ true);
     Kw "transform" (expr_ transform)].

Definition new_Normalize : M unit :=
  call w "transforms.Normalize"
    [Pos (expr_ "(0.4914, 0.4822, 0.4465)"); Pos (expr_ "(0.2023, 0.1994, 0.2010)")].

Definition cell2 : M unit :=
  call w "transforms.RandomCrop" [Pos (int_ 32); Kw "padding" (int_ 4)];;
  call w "transforms.RandomHorizontalFlip" [];;
  call w "transforms.ToTensor" [];;
  new_Normalize;;
  call w "transforms.Compose" [Pos (expr_ "[...]")];;
  call w "transforms.ToTensor" [];;
  new_Normalize;;
  call w "transforms.Compose" [Pos (expr_ "[...]")];;
  new_CIFAR10 true "transform_train";;
  new_DataLoader trainloader;;
  new_CIFAR10 false "transform_test";;
  new_DataLoader testloader.

(** *** Cell 3: a look at sixteen training images *)

(** [sep.join(parts)], as pieces of the printed text. *)
Fixpoint intersperse {A} (sep : A) (xs : list A) : list A :=
  match xs with
  | [] => []
  | [x] => [x]
  | x :: xs' => x :: sep :: intersperse sep xs'
  end.

Definition imshow : M unit :=
  call w "img.numpy" [];;
  call w "np.transpose" [Pos (expr_ "npimg"); Pos (expr_ "(1, 2, 0)")];;
  call w "plt.imshow" [Pos (expr_ "np.transpose(npimg, (1, 2, 0))")].

Definition cell3 (g : globals) : M unit :=
  call w "iter" [Pos (expr_ "trainloader")];;
  call w "next" [Pos (expr_ "dataiter")];;
  call w "plt.figure" [Kw "figsize" (expr_ "(10, 10)")];;
  call_global g "imshow"
    (call w "torchvision.utils.make_grid" [Pos (expr_ "images[:16]")];; imshow);;
  call w "plt.axis" [Pos (str_ "off")];;
  names ← for_fold (range 16) [] (fun names j =>
    l ← py_index (first_train_labels w) j;
    name ← py_index classes l;
    ret (names ++ [Fmt (VStr name) "5s"]));
  print (intersperse (Lit " ") names).

(** *** Cell 4: the model, the loss and the optimizer *)

Definition cell4 (g : globals) : M unit :=
  call_global g "CIFAR10Net" __init__;;
  call w "CIFAR10Net().to" [Pos (expr_ "device")];;
  call w "nn.CrossEntropyLoss" [];;
  call w "model.parameters" [];;
  call w "optim.Adam" [Pos (expr_ "model.parameters()"); Kw "lr" (expr_ "0.001")];;
  print [Fmt (VExpr "model") ""].

(** *** Cell 6: [evaluate_model] *)

(** The counters of [evaluate_model].  [class_correct] and [class_total] are
    lists of floats that only ever hold whole numbers, kept here as
    integers. *)
Record tally : Type := {
  correct : Z; total : Z; class_correct : list Z; class_total : list Z
}.

(** [predicted == labels], per sample. *)
Definition hits (b : batch) : list bool := map (fun pl => fst pl =? snd pl) (samples b).

(** [(predicted == labels).sum().item()]. *)
Definition count_hits (b : batch) : Z := Z.of_nat (length (List.filter (fun h : bool => h) (hits b))).

(** [labels.size(0)]. *)
Definition batch_len (b : batch) : Z := Z.of_nat (length (samples b)).

(** [c[i]] for [c = (predicted == labels).squeeze()]: a batch of a single
    sample squeezes to a tensor without dimensions, which cannot be indexed. *)
Definition squeezed_index (c : list bool) (i : Z) : M bool :=
  if Nat.eqb (length c) 1 then raise IndexError else py_index c i.

(** The body of [for i in range(len(labels))]. *)
Definition count_sample (c : list bool) (t : tally) (il : Z * Z) : M tally :=
  let '(i, label) := il in
  cc ← py_index (class_correct t) label;
  ci ← squeezed_index c i;
  call w "c[i].item" [];;
  class_correct' ← py_setitem (class_correct t) label (cc + (if ci : bool then 1 else 0));
  ct ← py_index (class_total t) label;
  class_total' ← py_setitem (class_total t) label (ct + 1);
  ret {| correct := correct t; total := total t;
         class_correct := class_correct'; class_total := class_total' |}.

(** The body of [for data in testloader]. *)
Definition eval_batch (t : tally) (b : batch) : M tally :=
  call w "data[0].to" [Pos (expr_ "device")];;
  call w "data[1].to" [Pos (expr_ "device")];;
  call w "model" [Pos (expr_ "images")];;
  call w "torch.max" [Pos (expr_ "outputs.data"); Pos (int_ 1)];;
  call w "labels.size" [Pos (int_ 0)];;
  call w "(predicted == labels).sum" [];;
  call w "(predicted == labels).sum().item" [];;
  call w "(predicted == labels).squeeze" [];;
  for_fold (enumerate (map snd (samples b)))
    {| correct := correct t + count_hits b; total := total t + batch_len b;
       class_correct := class_correct t; class_total := class_total t |}
    (count_sample (hits b)).

Definition tally0 : tally :=
  {| correct := 0; total := 0;
     class_correct := map (fun _ => 0) (range 10);
     class_total := map (fun _ => 0) (range 10) |}.

(** The body of [for i in range(10)]. *)
Definition print_class_accuracy (t : tally) (i : Z) : M unit :=
  name ← py_index classes i;
  cc ← py_index (class_correct t) i;
  ct ← py_index (class_total t) i;
  acc ← truediv (100 * cc) ct;
  print [Lit "Accuracy of "; Fmt (VStr name) "5s"; Lit ": "; Fmt (VRat acc) ".2f"; Lit "%"].

(** [evaluate_model()], over the batches [obs] the test loader yields. *)
Definition evaluate_model (obs : list batch) : M Q :=
  call w "model.eval" [];;
  call w "torch.no_grad" [];;
  t ← for_fold obs tally0 eval_batch;
  for_each (range 10) (print_class_accuracy t);;
  truediv (100 * correct t) (total t).

Definition cell6 (g : globals) : M unit :=
  acc ← call_global g "evaluate_model" (evaluate_model (final_test_pass w));
  print [Lit "Overall Test Accuracy: "; Fmt (VRat acc) ".2f"; Lit "%"].

(** *** Cell 5: [train_model] *)

(** The running statistics of an epoch. *)
Record running : Type := { running_loss : pyfloat; seen_correct : Z; seen_total : Z }.

Definition running0 : running :=
  {| running_loss := fzero; seen_correct := 0; seen_total := 0 |}.

(** The body of [for i, data in enumerate(trainloader, 0)]. *)
Definition train_batch (epoch : Z) (r : running) (ib : Z * batch) : M running :=
  let '(i, b) := ib in
  call w "data[0].to" [Pos (expr_ "device")];;
  call w "data[1].to" [Pos (expr_ "device")];;
  call w "optimizer.zero_grad" [];;
  call w "model" [Pos (expr_ "inputs")];;
  call w "criterion" [Pos (expr_ "outputs"); Pos (expr_ "labels")];;
  call w "loss.backward" [];;
  call w "optimizer.step" [];;
  call w "loss.item" [];;
  call w "torch.max" [Pos (expr_ "outputs.data"); Pos (int_ 1)];;
  call w "labels.size" [Pos (int_ 0)];;
  call w "(predicted == labels).sum" [];;
  call w "(predicted == labels).sum().item" [];;
  let r := {| running_loss := fadd (running_loss r) (loss b);
              seen_correct := seen_correct r + count_hits b;
              seen_total := seen_total r + batch_len b |} in
  if i mod 100 =? 99 then
    accuracy ← truediv (100 * seen_correct r) (seen_total r);
    call w "wandb.log"
      [Pos (Dict [("epoch", VInt epoch); ("loss", VFloat (fdiv_int (running_loss r) 100));
                  ("accuracy", VRat accuracy)])];;
    print [Lit "["; Fmt (VInt (epoch + 1)) ""; Lit ", "; Fmt (VInt (i + 1)) "5d";
           Lit "] loss: "; Fmt (VFloat (fdiv_int (running_loss r) 100)) ".3f";
           Lit ", accuracy: "; Fmt (VRat accuracy) ".2f"; Lit "%"];;
    ret running0
  else ret r.

(** The body of [for epoch in range(epochs)]. *)
Definition train_epoch (g : globals) (epoch : Z) : M unit :=
  call w "model.train" [];;
  for_fold (enumerate (train_pass w (Z.to_nat epoch))) running0 (train_batch epoch);;
  test_accuracy ← call_global g "evaluate_model" (evaluate_model (test_pass w (Z.to_nat epoch)));
  call w "wandb.log" [Pos (Dict [("test_accuracy", VRat test_accuracy)])];;
  print [Lit "Epoch "; Fmt (VInt (epoch + 1)) ""; Lit " Test Accuracy: ";
         Fmt (VRat test_accuracy) ".2f"; Lit "%"].

Definition train_model (g : globals) (epochs : Z) : M unit :=
  for_each (range epochs) (train_epoch g);;
  print_str "Finished Training";;
  call w "wandb.finish" [].

Definition wandb_init : M unit :=
  call w "wandb.init"
    [Kw "project" (str_ "cifar10-interactive");
     Kw "config" (Dict [("learning_rate", VExpr "0.001"); ("epochs", VInt 10);
                        ("batch_size", VInt 128); ("architecture", VStr "CNN");
                        ("dataset", VStr "CIFAR-10")])].

Definition cell5 (g : globals) : M unit :=
  call_global g "train_model" (train_model g 10).

(** *** Cell 7: [visualize_predictions] *)

(** The body of [for idx in range(num_images)]; [shown] are the predictions
    for [images[:num_images]], [first] the whole first test batch. *)
Definition show_prediction (g : globals) (num_images : Z) (shown first : list (Z * Z))
    (idx : Z) : M unit :=
  call w "fig.add_subplot"
    [Pos (int_ 1); Pos (int_ num_images); Pos (int_ (idx + 1));
     Kw "xticks" (ListOf []); Kw "yticks" (ListOf [])];;
  call_global g "imshow" (py_index first idx;; imshow);;
  p ← py_index (map fst shown) idx;
  name ← py_index classes p;
  call w "ax.set_title" [Pos (expr_ "f'Pred: {classes[predicted[idx]]}'")];;
  p' ← py_index (map fst shown) idx;
  l ← py_index (map snd first) idx;
  if p' =? l then
    call w "ax.spines.values" [];;
    call w "plt.setp" [Pos (expr_ "ax.spines.values()"); Kw "color" (str_ "green");
                       Kw "linewidth" (int_ 2)]
  else
    call w "ax.spines.values" [];;
    call w "plt.setp" [Pos (expr_ "ax.spines.values()"); Kw "color" (str_ "red");
                       Kw "linewidth" (int_ 2)];;
    p'' ← py_index (map fst shown) idx;
    name' ← py_index classes p'';
    l' ← py_index (map snd first) idx;
    true_name ← py_index classes l';
    call w "ax.set_title"
      [Pos (expr_ "f'Pred: {classes[predicted[idx]]}\nTrue: {classes[labels[idx]]}'");
       Kw "color" (str_ "red")].

(** [images[:n]] on a sequence. *)
Definition py_slice_to {A} (xs : list A) (n : Z) : list A :=
  if n <? 0 then take (Z.to_nat (Z.of_nat (length xs) + n)) xs else take (Z.to_nat n) xs.

Definition visualize_predictions (g : globals) (num_images : Z) : M unit :=
  call w "model.eval" [];;
  call w "iter" [Pos (expr_ "testloader")];;
  call w "next" [Pos (expr_ "dataiter")];;
  let first := first_test_batch w in
  let shown := py_slice_to first num_images in
  call w "images[:num_images].to" [Pos (expr_ "device")];;
  call w "model" [Pos (expr_ "images[:num_images].to(device)")];;
  call w "torch.max" [Pos (expr_ "outputs"); Pos (int_ 1)];;
  call w "plt.figure" [Kw "figsize" (expr_ "(15, 3)")];;
  for_each (range num_images) (show_prediction g num_images shown first);;
  call w "plt.tight_layout" [];;
  call w "plt.show" [].

Definition cell7 (g : globals) : M unit :=
  call_global g "visualize_predictions" (visualize_predictions g 5).

Definition notebook : list cell :=
  [ [Run (fun _ => cell1)];
    [Run (fun _ => cell2)];
    [Def "imshow"; Run cell3];
    [Class "CIFAR10Net"; Run cell4];
    [Run (fun _ => wandb_init); Def "train_model"; Run cell5];
    [Def "evaluate_model"; Run cell6];
    [Def "visualize_predictions"; Run cell7] ].

End Notebook.
End Cifar10.

(** ** Concrete floats and worlds, for running the model *)

(** Floats as exact rationals, with [None] for NaN. *)
#[export] Instance ideal_float : PyFloat := {|
  pyfloat := option Q;
  fzero := Some 0%Q;
  fnan := None;
  fadd x y := match x, y with Some a, Some b => Some (a + b)%Q | _, _ => None end;
  fdiv_int x n := match x with Some a => Some (a / inject_Z n)%Q | None => None end;
  fdiv x y := match x, y with Some a, Some b => Some (a / b)%Q | _, _ => None end;
  fpos x := match x with Some a => (0 <? Qnum a) | None => false end
|}.

(** A test batch: [k] samples of every one of the ten classes, every sample
    predicted as class [guess]. *)
Definition uniform_batch (k : nat) (guess : Z) (l : pyfloat) : batch :=
  {| samples := flat_map (fun c => repeat (guess, c) k) (range 10); loss := l |}.

(** A machine without GPU on which every import and every library call
    succeeds; every pass over the training loader yields [n_train] batches
    and every pass over the test loader [n_test] batches. *)
Definition cpu_world (n_train n_test : nat) : world := {|
  environ := [];
  argv := [];
  import_outcome _ := None;
  lib_raises _ _ := None;
  cuda_is_available := false;
  device_count := 0;
  platform_system := "Linux";
  has_linux_distribution := false;
  config_epochs := 100;
  train_pass _ := repeat (uniform_batch 1 3 (Some 1%Q)) n_train;
  test_pass _ := repeat (uniform_batch 1 3 None) n_test;
  final_test_pass := repeat (uniform_batch 1 3 None) n_test;
  first_train_labels := map (fun i => i mod 10) (range 128);
  first_test_batch := map (fun i => (3, i mod 10)) (range 100);
  cpu_time _ := Some 1%Q;
  gpu_time _ := None
|}.

(** The same machine with the [wandb] package missing. *)
Definition without_wandb (w : world) : world := {|
  environ := environ w;
  argv := argv w;
  import_outcome m := if String.eqb m "wandb" then Some ModuleNotFoundError else import_outcome w m;
  lib_raises := lib_raises w;
  cuda_is_available := cuda_is_available w;
  device_count := device_count w;
  platform_system := platform_system w;
  has_linux_distribution := has_linux_distribution w;
  config_epochs := config_epochs w;
  train_pass := train_pass w;
  test_pass := test_pass w;
  final_test_pass := final_test_pass w;
  first_train_labels := first_train_labels w;
  first_test_batch := first_test_batch w;
  cpu_time := cpu_time w;
  gpu_time := gpu_time w
|}.


(** ** The repository as a whole *)

Section Repository.
Context `{PyFloat}.

(** The functions the notebooks define, with their arguments. *)
Inductive function : Type :=
| F_check_wandb_installation
| F_sweep_train_model
| F_check_gpu_availability
| F_demonstrate_gpu_operations
| F_benchmark_operations
| F_demonstrate_memory_management
| F_check_multi_gpu
| F_get_os_info
| F_show_conda_instructions
| F_show_environment_setup
| F_show_package_installation
| F_verify_setup
| F_show_troubleshooting
| F_imshow
| F_CIFAR10Net_init
| F_CIFAR10Net_forward (self : Cifar10.CIFAR10Net) (training : bool) (x : Cifar10.shape)
| F_train_model (epochs : Z)
| F_evaluate_model (obs : list batch)
| F_visualize_predictions (num_images : Z).

(** What a run shows from outside: its interactions and, if it raised, the
    exception. *)
Definition observe {A} (m : M A) : list event * option exn :=
  (trace m, match outcome m with inl e => Some e | inr _ => None end).

(** A call of a function, in world [w] and with the kernel's bindings [g]. *)
Definition run_function (w : world) (g : globals) (f : function) : list event * option exn :=
  match f with
  | F_check_wandb_installation => observe (WandbTutorial.check_wandb_installation w)
  | F_sweep_train_model => observe (WandbTutorial.train_model w)
  | F_check_gpu_availability => observe (PytorchGpu.check_gpu_availability w)
  | F_demonstrate_gpu_operations => observe (PytorchGpu.demonstrate_gpu_operations w)
  | F_benchmark_operations => observe (PytorchGpu.benchmark_operations w)
  | F_demonstrate_memory_management => observe (PytorchGpu.demonstrate_memory_management w)
  | F_check_multi_gpu => observe (PytorchGpu.check_multi_gpu w)
  | F_get_os_info => observe (LocalSetup.get_os_info w)
  | F_show_conda_instructions => observe (LocalSetup.show_conda_instructions w g)
  | F_show_environment_setup => observe LocalSetup.show_environment_setup
  | F_show_package_installation => observe (LocalSetup.show_package_installation w g)
  | F_verify_setup => observe (LocalSetup.verify_setup w)
  | F_show_troubleshooting => observe (LocalSetup.show_troubleshooting w g)
  | F_imshow => observe (Cifar10.imshow w)
  | F_CIFAR10Net_init => observe (Cifar10.__init__ w)
  | F_CIFAR10Net_forward self training x => observe (Cifar10.forward w self training x)
  | F_train_model epochs => observe (Cifar10.train_model w g epochs)
  | F_evaluate_model obs => observe (Cifar10.evaluate_model w obs)
  | F_visualize_predictions num_images => observe (Cifar10.visualize_predictions w g num_images)
  end.

Inductive notebook_id : Type := wandb_tutorial | pytorch_gpu | local_setup | cifar10.

Definition cells_of (w : world) (nb : notebook_id) : list cell :=
  match nb with
  | wandb_tutorial => WandbTutorial.notebook w
  | pytorch_gpu => PytorchGpu.notebook w
  | local_setup => LocalSetup.notebook w
  | cifar10 => Cifar10.notebook w
  end.

(** Running one cell: its interactions and, if it raised, the exception. *)
Definition run_cell (g : globals) (c : cell) : list event * option exn :=
  ((exec_cell g c).1.2, (exec_cell g c).2).


End Repository.

(** * Vocabulary of the properties *)

Section Vocabulary.
Context `{PyFloat}.

(** A world in which no library call raises. *)
Definition lib_ok (w : world) : Prop := forall callee args, lib_raises w callee args = None.

(** Every interaction of [m] satisfies [Q]; the same for the statements of a
    cell, in every kernel. *)
Definition traced (Q : event -> Prop) {A} (m : M A) : Prop := Forall Q (trace m).

Definition traced_stmt (Q : event -> Prop) (s : stmt) : Prop :=
  match s with Run body => forall g, traced Q (body g) | _ => True end.

(** *** Exceptions *)

(** The exception an event of a trace stands for in world [w]: the one the
    import or the library call raises there, or the one the code raised
    itself. *)
Definition raised_by (w : world) (ev : event) : option exn :=
  match ev with
  | EImport m => import_outcome w m
  | ECall callee args => lib_raises w callee args
  | ERaise e => Some e
  | _ => None
  end.

(** A run with trace [t] that ends in [o] swallows no exception outside
    [caught]: an event that raises [e] is the last one and [e] is how the
    run ends, unless [caught e]. *)
Definition propagating (w : world) (caught : exn -> bool) (r : list event * option exn) : Prop :=
  forall i ev e, r.1 !! i = Some ev -> raised_by w ev = Some e ->
    (S i = length r.1 /\ r.2 = Some e) \/ caught e = true.

Definition propagates (w : world) (caught : exn -> bool) {A} (m : M A) : Prop :=
  propagating w caught (observe m).

Definition propagates_stmt (w : world) (caught : exn -> bool) (s : stmt) : Prop :=
  match s with Run body => forall g, propagates w caught (body g) | _ => True end.

Definition uncaught (e : exn) : bool := false.

(** A trace of imports and prints only. *)
Definition only_prints (t : list event) : Prop :=
  Forall (fun ev => match ev with EImport _ | EPrint _ => True | _ => False end) t.

(** The functions and the cells with an [except ImportError] clause. *)
Definition caught_in_function (f : function) : exn -> bool :=
  match f with
  | F_check_wandb_installation | F_verify_setup => is_ImportError
  | _ => uncaught
  end.

Definition caught_in_cell (nb : notebook_id) (i : nat) : exn -> bool :=
  match nb, i with
  | wandb_tutorial, 0%nat | local_setup, 4%nat => is_ImportError
  | _, _ => uncaught
  end.

(** The packages [verify_setup] imports, in order. *)
Definition required_packages : list string :=
  ["torch"; "torchvision"; "matplotlib"; "pandas"; "sklearn"; "wandb"].

(** *** Processes, threads and tasks *)

(** The keyword argument [name] of a call, when it is an int or a string. *)
Fixpoint kwarg (name : string) (args : list arg) : option value :=
  match args with
  | [] => None
  | Kw n (Atom v) :: args' => if String.eqb n name then Some v else kwarg name args'
  | _ :: args' => kwarg name args'
  end.

(** Callees that start a thread, a process or an asynchronous task. *)
Definition concurrency_apis : list string :=
  ["threading."; "multiprocessing."; "concurrent.futures."; "asyncio."; "subprocess.";
   "os.system"; "os.popen"; "os.fork"; "os.spawn"; "os.exec"; "os.posix_spawn"].

Definition calls_any (apis : list string) (callee : string) : bool :=
  existsb (fun api => String.prefix api callee) apis.

(** The subprocesses, threads or tasks an interaction starts, or asks a
    library to start: a shell escape runs one subprocess, a [DataLoader]
    loads with [num_workers] worker processes (0: in the main process). *)
Definition tasks_started (ev : event) : Z :=
  match ev with
  | EShell _ => 1
  | ECall callee args =>
      if String.eqb callee "torch.utils.data.DataLoader" then
        match kwarg "num_workers" args with Some (VInt n) => n | _ => 0 end
      else if calls_any concurrency_apis callee then 1 else 0
  | _ => 0
  end.

(** The interactions that start a task, per function and per cell. *)
Definition pip_install : event := EShell "pip install wandb -q".

Definition loader_call (l : Cifar10.DataLoader) : event :=
  ECall "torch.utils.data.DataLoader"
    [Pos (expr_ (Cifar10.dataset l)); Kw "batch_size" (int_ (Cifar10.batch_size l));
     Kw "shuffle" (bool_ (Cifar10.shuffle l)); Kw "num_workers" (int_ (Cifar10.num_workers l))].

Definition task_starts_in_function (f : function) : list event :=
  match f with
  | F_check_wandb_installation => [pip_install]
  | _ => []
  end.

Definition task_starts_in_cell (nb : notebook_id) (i : nat) : list event :=
  match nb, i with
  | wandb_tutorial, 0%nat => [pip_install]
  | cifar10, 1%nat => [loader_call Cifar10.trainloader; loader_call Cifar10.testloader]
  | _, _ => []
  end.

(** *** State on disk *)

Inductive persisted : Type :=
| DatasetCache (root : option value)   (* the dataset files torchvision keeps under [root] *)
| RunMetadata                          (* what the wandb client records of a run *)
| ByShell (cmd : string)               (* whatever the shell command writes *)
| ByFileApi (callee : string).         (* a file opened or written by repository code *)

(** Callees that open, write or remove files. *)
Definition file_apis : list string :=
  ["open"; "os."; "shutil."; "pathlib."; "io."; "tempfile."; "pickle."; "json."; "csv.";
   "torch.save"; "torch.load"; "np.save"; "np.load"; "plt.savefig"; "fig.savefig"].

(** The state on disk an interaction creates or changes. *)
Definition persists (ev : event) : option persisted :=
  match ev with
  | EShell cmd => Some (ByShell cmd)
  | ECall callee args =>
      if String.prefix "torchvision.datasets." callee then Some (DatasetCache (kwarg "root" args))
      else if String.prefix "wandb." callee then Some RunMetadata
      else if calls_any file_apis callee then Some (ByFileApi callee)
      else None
  | _ => None
  end.

(** The state on disk the specification names, and with the package that
    [check_wandb_installation] installs. *)
Definition named_state : list (option persisted) :=
  [None; Some (DatasetCache (Some (VStr "./data"))); Some RunMetadata].

Definition state_on_disk : list (option persisted) :=
  named_state ++ [Some (ByShell "pip install wandb -q")].

(** *** The network *)

(** The layers [CIFAR10Net.__init__] stores. *)
Definition the_layers : Cifar10.CIFAR10Net :=
  {| Cifar10.conv1 := {| Cifar10.in_channels := 3; Cifar10.out_channels := 32;
                         Cifar10.kernel_size := 3; Cifar10.padding := 1 |};
     Cifar10.conv2 := {| Cifar10.in_channels := 32; Cifar10.out_channels := 64;
                         Cifar10.kernel_size := 3; Cifar10.padding := 1 |};
     Cifar10.conv3 := {| Cifar10.in_channels := 64; Cifar10.out_channels := 128;
                         Cifar10.kernel_size := 3; Cifar10.padding := 1 |};
     Cifar10.pool := {| Cifar10.pool_kernel := 2; Cifar10.pool_stride := 2 |};
     Cifar10.fc1 := {| Cifar10.in_features := 2048; Cifar10.out_features := 512 |};
     Cifar10.fc2 := {| Cifar10.in_features := 512; Cifar10.out_features := 10 |};
     Cifar10.dropout := "0.25";
     Cifar10.batch_norm1 := {| Cifar10.num_features := 32 |};
     Cifar10.batch_norm2 := {| Cifar10.num_features := 64 |};
     Cifar10.batch_norm3 := {| Cifar10.num_features := 128 |} |}.

(** *** Evaluation *)

(** All samples of a pass over a loader, as (predicted class, label). *)
Definition all_samples (obs : list batch) : list (Z * Z) := flat_map samples obs.

Definition is_hit (pl : Z * Z) : bool := fst pl =? snd pl.

(** The samples whose predicted class equals their label, and all samples. *)
Definition n_correct (xs : list (Z * Z)) : Z := Z.of_nat (length (List.filter is_hit xs)).
Definition n_total (xs : list (Z * Z)) : Z := Z.of_nat (length xs).

(** The samples of class [c], and those of them predicted as [c]. *)
Definition class_count (xs : list (Z * Z)) (c : Z) : Z :=
  Z.of_nat (length (List.filter (fun pl => snd pl =? c) xs)).
Definition class_hits (xs : list (Z * Z)) (c : Z) : Z :=
  Z.of_nat (length (List.filter (fun pl => (snd pl =? c) && is_hit pl) xs)).

(** The labels of CIFAR-10 are the indices of its ten classes. *)
Definition labels_are_classes (obs : list batch) : Prop :=
  Forall (fun pl => 0 <= snd pl < 10) (all_samples obs).

Definition every_class_present (obs : list batch) : Prop :=
  forall c, 0 <= c < 10 -> In c (map snd (all_samples obs)).

Definition at_least_two_per_batch (obs : list batch) : Prop :=
  Forall (fun b => (2 <= length (samples b))%nat) obs.

(** The per-class counters: one entry per class index. *)
Definition counts (f : Z -> Z) : list Z := map f (range 10).

(** The class counters of [evaluate_model] hold the counts of the samples
    seen so far; all its counters do, after the batches [seen]. *)
Definition counted (seen : list (Z * Z)) (t : Cifar10.tally) : Prop :=
  Cifar10.class_correct t = counts (class_hits seen) /\
  Cifar10.class_total t = counts (class_count seen).

Definition tallied (seen : list batch) (t : Cifar10.tally) : Prop :=
  counted (all_samples seen) t /\
  Cifar10.correct t = n_correct (all_samples seen) /\
  Cifar10.total t = n_total (all_samples seen).

(** The calls of [evaluate_model] for one batch of the test loader: eight
    for the batch, then [c[i].item()] for each of its samples. *)
Definition eval_batch_calls (b : batch) : list event :=
  [ECall "data[0].to" [Pos (expr_ "device")];
   ECall "data[1].to" [Pos (expr_ "device")];
   ECall "model" [Pos (expr_ "images")];
   ECall "torch.max" [Pos (expr_ "outputs.data"); Pos (int_ 1)];
   ECall "labels.size" [Pos (int_ 0)];
   ECall "(predicted == labels).sum" [];
   ECall "(predicted == labels).sum().item" [];
   ECall "(predicted == labels).squeeze" []]
  ++ map (fun _ => ECall "c[i].item" []) (samples b).

(** The line [evaluate_model] prints for class [i] after the samples [seen]:
    the name of the class and 100 * class_correct[i] / class_total[i]. *)
Definition class_line (seen : list (Z * Z)) (i : Z) : event :=
  EPrint [Lit "Accuracy of "; Fmt (VStr (default "" (Cifar10.classes !! Z.to_nat i))) "5s";
          Lit ": ";
          Fmt (VRat (100 * class_hits seen i # Z.to_pos (class_count seen i))) ".2f";
          Lit "%"].

(** All that [evaluate_model] does over the batches [obs] when nothing
    raises: [model.eval()], [torch.no_grad()], the calls for the batches,
    the ten lines of the classes. *)
Definition eval_events (obs : list batch) : list event :=
  [ECall "model.eval" []; ECall "torch.no_grad" []]
  ++ flat_map eval_batch_calls obs
  ++ map (class_line (all_samples obs)) (range 10).

(** *** Training *)

(** The arguments of the [wandb.log] calls of a trace. *)
Definition logs (t : list event) : list (list arg) :=
  flat_map (fun ev => match ev with
                      | ECall callee args => if String.eqb callee "wandb.log" then [args] else []
                      | _ => []
                      end) t.

(** The interactions of a trace that satisfy [p]. *)
Definition count_events (p : event -> bool) (t : list event) : nat :=
  length (List.filter p t).

(** A call of [callee]. *)
Definition is_call (callee : string) (ev : event) : bool :=
  match ev with ECall c _ => String.eqb c callee | _ => false end.

(** A [wandb.log] call of a dict that has the key [key]. *)
Definition logs_key (key : string) (ev : event) : bool :=
  match ev with
  | ECall c [Pos (Dict items)] =>
      String.eqb c "wandb.log" && existsb (String.eqb key) (map fst items)
  | _ => false
  end.

(** [bs] cut into [k] windows of 100 batches. *)
Fixpoint windows (k : nat) (bs : list batch) : list (list batch) :=
  match k with
  | O => []
  | S k' => take 100 bs :: windows k' (drop 100 bs)
  end.

(** The complete windows of an epoch. *)
Definition complete_windows (bs : list batch) : list (list batch) :=
  windows (length bs / 100) bs.

(** No complete window is without samples (a loader yields no empty
    batch). *)
Definition windows_have_samples (bs : list batch) : Prop :=
  Forall (fun win => 0 < n_total (all_samples win)) (complete_windows bs).

(** The losses of a window, added up from [0.0] in loader order. *)
Definition loss_sum (win : list batch) : pyfloat := fold_left fadd (map loss win) fzero.

(** What is logged for a window of epoch [epoch]. *)
Definition window_log (epoch : Z) (win : list batch) : list arg :=
  [Pos (Dict [("epoch", VInt epoch);
              ("loss", VFloat (fdiv_int (loss_sum win) 100));
              ("accuracy", VRat (100 * n_correct (all_samples win)
                                 # Z.to_pos (n_total (all_samples win))))])].

(** [enumerate(bs, 0)] from index [i0] on. *)
Definition enumerate_from (i0 : nat) {A} (xs : list A) : list (Z * A) :=
  combine (map Z.of_nat (seq i0 (length xs))) xs.

(** The statistics accumulated over the batches [pre] since the last reset. *)
Definition accumulated (pre : list batch) : Cifar10.running :=
  {| Cifar10.running_loss := loss_sum pre;
     Cifar10.seen_correct := n_correct (all_samples pre);
     Cifar10.seen_total := n_total (all_samples pre) |}.

(** The batch loop of an epoch, from index [i0] and statistics [r] on. *)
Definition batch_loop (w : world) (epoch : Z) (i0 : nat) (bs : list batch)
    (r : Cifar10.running) : M Cifar10.running :=
  for_fold (enumerate_from i0 bs) r (Cifar10.train_batch w epoch).

(** What one epoch of [train_model] does when nothing raises. *)
Definition epoch_trace (w : world) (epoch : Z) : list event :=
  ECall "model.train" []
  :: trace (batch_loop w epoch 0 (train_pass w (Z.to_nat epoch)) Cifar10.running0)
  ++ trace (Cifar10.evaluate_model w (test_pass w (Z.to_nat epoch)))
  ++ [ECall "wandb.log"
        [Pos (Dict [("test_accuracy",
                     VRat (100 * n_correct (all_samples (test_pass w (Z.to_nat epoch)))
                           # Z.to_pos (n_total (all_samples (test_pass w (Z.to_nat epoch))))))])];
      EPrint [Lit "Epoch "; Fmt (VInt (epoch + 1)) ""; Lit " Test Accuracy: ";
              Fmt (VRat (100 * n_correct (all_samples (test_pass w (Z.to_nat epoch)))
                         # Z.to_pos (n_total (all_samples (test_pass w (Z.to_nat epoch)))))) ".2f";
              Lit "%"]].

(** The twelve calls of [train_model] for a training batch. *)
Definition train_batch_calls : list event :=
  [ECall "data[0].to" [Pos (expr_ "device")];
   ECall "data[1].to" [Pos (expr_ "device")];
   ECall "optimizer.zero_grad" [];
   ECall "model" [Pos (expr_ "inputs")];
   ECall "criterion" [Pos (expr_ "outputs"); Pos (expr_ "labels")];
   ECall "loss.backward" [];
   ECall "optimizer.step" [];
   ECall "loss.item" [];
   ECall "torch.max" [Pos (expr_ "outputs.data"); Pos (int_ 1)];
   ECall "labels.size" [Pos (int_ 0)];
   ECall "(predicted == labels).sum" [];
   ECall "(predicted == labels).sum().item" []].

(** The batch loop over the [k]-th complete window of an epoch: the calls
    for its batches and then, in the batch of index 100 k + 99, the log and
    the print of the statistics of the window. *)
Definition window_trace (epoch : Z) (k : nat) (win : list batch) : list event :=
  flat_map (fun _ => train_batch_calls) win
  ++ [ECall "wandb.log" (window_log epoch win);
      EPrint [Lit "["; Fmt (VInt (epoch + 1)) ""; Lit ", ";
              Fmt (VInt (Z.of_nat (100 * k + 99) + 1)) "5d";
              Lit "] loss: "; Fmt (VFloat (fdiv_int (loss_sum win) 100)) ".3f";
              Lit ", accuracy: ";
              Fmt (VRat (100 * n_correct (all_samples win)
                         # Z.to_pos (n_total (all_samples win)))) ".2f";
              Lit "%"]].

(** The batch loop from window [k] on, over [n] complete windows and the
    batches left after them, which are only called for. *)
Fixpoint loop_trace (epoch : Z) (k n : nat) (bs : list batch) : list event :=
  match n with
  | O => flat_map (fun _ => train_batch_calls) bs
  | S n' => window_trace epoch k (take 100 bs) ++ loop_trace epoch (S k) n' (drop 100 bs)
  end.

(** What is logged after the evaluation of epoch [epoch]. *)
Definition test_log (w : world) (epoch : Z) : list arg :=
  [Pos (Dict [("test_accuracy",
               VRat (100 * n_correct (all_samples (test_pass w (Z.to_nat epoch)))
                     # Z.to_pos (n_total (all_samples (test_pass w (Z.to_nat epoch))))))])].

(** One epoch of [train_model], interaction by interaction: [model.train()],
    the batch loop from batch 0 and statistics at zero, the evaluation, the
    log and the print of the test accuracy. *)
Definition epoch_events (w : world) (epoch : Z) : list event :=
  ECall "model.train" []
  :: loop_trace epoch 0 (length (train_pass w (Z.to_nat epoch)) / 100)
       (train_pass w (Z.to_nat epoch))
  ++ eval_events (test_pass w (Z.to_nat epoch))
  ++ [ECall "wandb.log" (test_log w epoch);
      EPrint [Lit "Epoch "; Fmt (VInt (epoch + 1)) ""; Lit " Test Accuracy: ";
              Fmt (VRat (100 * n_correct (all_samples (test_pass w (Z.to_nat epoch)))
                         # Z.to_pos (n_total (all_samples (test_pass w (Z.to_nat epoch)))))) ".2f";
              Lit "%"]].

(** The data of epoch [epoch] is as [evaluate_model] and the in-epoch
    accuracy need it: no window of training batches without samples, test
    labels that are class indices, every class in the test pass, at least
    two samples in every test batch. *)
Definition epoch_ok (w : world) (epoch : Z) : Prop :=
  windows_have_samples (train_pass w (Z.to_nat epoch)) /\
  labels_are_classes (test_pass w (Z.to_nat epoch)) /\
  every_class_present (test_pass w (Z.to_nat epoch)) /\
  at_least_two_per_batch (test_pass w (Z.to_nat epoch)).

(** An interaction that belongs to an evaluation of the model or to the end
    of the training: a log of the key "test_accuracy", [wandb.finish()] or
    [model.eval()]. *)
Definition past_first_epoch (ev : event) : bool :=
  logs_key "test_accuracy" ev || is_call "wandb.finish" ev || is_call "model.eval" ev.

(** What follows the training loop in [train_model]. *)
Definition after_training : list event :=
  [EPrint [Lit "Finished Training"]; ECall "wandb.finish" []].

(** *** Termination *)

(** A run that shows [r] came to its end after at most [n] interactions:
    its trace holds [n] events at most, and one more, the exception, if it
    raised. *)
Definition ends_within (n : nat) (r : list event * option exn) : Prop :=
  (length r.1 <= n + match r.2 with Some _ => 1 | None => 0 end)%nat.

Definition bounded (n : nat) {A} (m : M A) : Prop := ends_within n (observe m).

(** The interactions of [evaluate_model] over the batches [obs]: two calls,
    eight calls per batch and one per sample, ten prints. *)
Definition eval_steps (obs : list batch) : nat :=
  12 + sum_list_with (fun b => 8 + length (samples b))%nat obs.

(** The interactions of one epoch of [train_model]: [model.train()], at most
    fourteen per training batch, the evaluation, a log and a print. *)
Definition epoch_steps (w : world) (epoch : Z) : nat :=
  3 + 14 * length (train_pass w (Z.to_nat epoch)) + eval_steps (test_pass w (Z.to_nat epoch)).

(** A bound on the interactions of a call of [f]: every loop of the
    notebooks runs over a list that is fixed when the loop starts. *)
Definition steps (w : world) (f : function) : nat :=
  match f with
  | F_check_wandb_installation => 5
  | F_sweep_train_model => 5 + 7 * length (range (config_epochs w))
  | F_check_gpu_availability => 17
  | F_demonstrate_gpu_operations => 13
  | F_benchmark_operations => 14 * length PytorchGpu.sizes + 3 + length PytorchGpu.sizes
  | F_demonstrate_memory_management => 13 + 6 * length (range 5)
  | F_check_multi_gpu => 7 + 7 * length (range (device_count w))
  | F_get_os_info => 2
  | F_show_conda_instructions => 2
  | F_show_environment_setup => 1
  | F_show_package_installation => 5
  | F_verify_setup => 17
  | F_show_troubleshooting => 4
  | F_imshow => 3
  | F_CIFAR10Net_init => 11
  | F_CIFAR10Net_forward _ _ _ => 17
  | F_train_model epochs => 2 + sum_list_with (epoch_steps w) (range epochs)
  | F_evaluate_model obs => eval_steps obs
  | F_visualize_predictions num_images => 9 + 8 * length (range num_images)
  end.

(** A bound on the interactions of any single cell. *)
Definition cell_steps (w : world) : nat :=
  40 + 9 * length (range (config_epochs w)) + steps w F_benchmark_operations
  + steps w F_demonstrate_memory_management + steps w F_check_multi_gpu
  + steps w (F_train_model 10) + steps w (F_evaluate_model (final_test_pass w))
  + steps w (F_visualize_predictions 5).

End Vocabulary.

(** * Vocabulary of the further properties *)

Section Runs.
Context `{PyFloat}.

(** A world in which every import succeeds. *)
Definition imports_ok (w : world) : Prop := forall m, import_outcome w m = None.

(** [m] comes to its end without an exception. *)
Definition returns {A} (m : M A) : Prop := exists a, outcome m = inr a.

(** [m] returns, and [n] of its interactions satisfy [p]. *)
Definition occurs (p : event -> bool) {A} (m : M A) (n : nat) : Prop :=
  returns m /\ count_events p (trace m) = n.

(** [m] returns, and what [f] reads off its interactions is, in order,
    [xs]. *)
Definition collects {X} (f : event -> list X) {A} (m : M A) (xs : list X) : Prop :=
  returns m /\ flat_map f (trace m) = xs.

(** The arguments of the calls of [callee] in a trace, in order. *)
Definition call_args (callee : string) (ev : event) : list (list arg) :=
  match ev with
  | ECall c args => if String.eqb c callee then [args] else []
  | _ => []
  end.

Definition args_of (callee : string) (t : list event) : list (list arg) :=
  flat_map (call_args callee) t.

(** The bindings a cell leaves behind when it runs to its end. *)
Fixpoint bindings_after (g : globals) (c : cell) : globals :=
  match c with
  | [] => g
  | Def name :: c' => bindings_after ({[name]} ∪ g) c'
  | Class name :: c' => bindings_after ({[name]} ∪ g) c'
  | Run _ :: c' => bindings_after g c'
  end.

(** Every statement of the cell returns, in the bindings it meets. *)
Fixpoint cell_returns (g : globals) (c : cell) : Prop :=
  match c with
  | [] => True
  | Def name :: c' => cell_returns ({[name]} ∪ g) c'
  | Class name :: c' => cell_returns ({[name]} ∪ g) c'
  | Run body :: c' => returns (body g) /\ cell_returns g c'
  end.

(** The same for cells run one after the other. *)
Fixpoint cells_return (g : globals) (cells : list cell) : Prop :=
  match cells with
  | [] => True
  | c :: cells' => cell_returns g c /\ cells_return (bindings_after g c) cells'
  end.

(** *** CUDA *)

(** [s] ends in [suffix]. *)
Definition ends_with (suffix s : string) : bool :=
  String.prefix (String.rev suffix) (String.rev s).

(** The argument is the device name ['cuda']. *)
Definition names_cuda (a : arg) : bool :=
  match a with
  | Pos (Atom (VStr s)) | Kw _ (Atom (VStr s)) => String.eqb s "cuda"
  | _ => false
  end.

(** A call that needs a CUDA device: a function of [torch.cuda] other than
    [is_available], a method [.cuda()], or a call with the device name
    ['cuda'] among its arguments. *)
Definition needs_cuda (ev : event) : bool :=
  match ev with
  | ECall callee args =>
      (String.prefix "torch.cuda." callee && negb (String.eqb callee "torch.cuda.is_available"))
      || ends_with ".cuda" callee
      || existsb names_cuda args
  | _ => false
  end.

(** *** The W&B run *)


(** *** Prints *)

Definition is_print (ev : event) : bool :=
  match ev with EPrint _ => true | _ => false end.

(** *** The prediction figure *)

(** [plt.setp(..., color=color, ...)]: the frame drawn around an image. *)
Definition frames (color : string) (ev : event) : bool :=
  match ev with
  | ECall callee args =>
      String.eqb callee "plt.setp" &&
      match kwarg "color" args with Some (VStr c) => String.eqb c color | _ => false end
  | _ => false
  end.

(** What the figure shows: the position of a subplot, third argument of
    [fig.add_subplot], and the colour of a frame. *)
Inductive mark : Type :=
| Subplot (position : Z)
| Frame (color : string).

Definition marks_of (ev : event) : list mark :=
  match ev with
  | ECall callee args =>
      if String.eqb callee "fig.add_subplot" then
        match args with
        | _ :: _ :: Pos (Atom (VInt position)) :: _ => [Subplot position]
        | _ => []
        end
      else if String.eqb callee "plt.setp" then
        match kwarg "color" args with Some (VStr c) => [Frame c] | _ => [] end
      else []
  | _ => []
  end.

(** The image of index [idx] of the batch [first], of (predicted class,
    label) pairs: the subplot idx + 1, framed in green when the prediction
    is the label and in red when it is not. *)
Definition prediction_marks (first : list (Z * Z)) (idx : Z) : list mark :=
  match first !! Z.to_nat idx with
  | Some pl => [Subplot (idx + 1); Frame (if is_hit pl then "green" else "red")]
  | None => []
  end.

(** A predicted class and a label that are indices of [classes]. *)
Definition both_classes (pl : Z * Z) : Prop := 0 <= fst pl < 10 /\ 0 <= snd pl < 10.

Definition is_miss (pl : Z * Z) : bool := negb (is_hit pl).

(** *** The names of the classes *)

(** [f'{classes[l]:5s}'] for a label [l]. *)
Definition class_field (l : Z) : piece :=
  Fmt (VStr (default "" (Cifar10.classes !! Z.to_nat l))) "5s".

(** The label at index [j]. *)
Definition label_at (labels : list Z) (j : Z) : Z := default 0 (labels !! Z.to_nat j).

(** *** The CIFAR-10 notebook as a whole *)

(** The data the cells of the CIFAR-10 notebook meet is as they need it:
    sixteen training images with class labels to show, test passes as
    [evaluate_model] needs them, ten epochs as [train_model] needs them,
    five test images with class predictions and labels to visualise. *)
Definition cifar_data_ok (w : world) : Prop :=
  (16 <= length (first_train_labels w))%nat /\
  Forall (fun l => 0 <= l < 10) (take 16 (first_train_labels w)) /\
  labels_are_classes (final_test_pass w) /\
  every_class_present (final_test_pass w) /\
  at_least_two_per_batch (final_test_pass w) /\
  (forall e, 0 <= e < 10 -> epoch_ok w e) /\
  (5 <= length (first_test_batch w))%nat /\
  Forall both_classes (take 5 (first_test_batch w)).

(** The cells of a notebook, the sixth run before the fifth. *)
Definition sixth_before_fifth (cells : list cell) : list cell :=
  match cells with
  | c1 :: c2 :: c3 :: c4 :: c5 :: c6 :: rest => c1 :: c2 :: c3 :: c4 :: c6 :: c5 :: rest
  | _ => cells
  end.

(** *** The platform *)

(** A choice by what [platform.system()] reports: Darwin, Windows, Linux
    or anything else. *)
Definition by_platform {A} (system : string) (mac windows linux other : A) : A :=
  if String.eqb system "Darwin" then mac
  else if String.eqb system "Windows" then windows
  else if String.eqb system "Linux" then linux
  else other.

(** The line [verify_setup] prints when every package imports. *)
Definition all_installed : event := EPrint [Lit "✅ All required packages are installed!"].

End Runs.

(** A machine with [n] CUDA devices on which every import and every
    library call succeeds. *)
Definition gpu_world (n : Z) : world := {|
  environ := [];
  argv := [];
  import_outcome _ := None;
  lib_raises _ _ := None;
  cuda_is_available := true;
  device_count := n;
  platform_system := "Linux";
  has_linux_distribution := false;
  config_epochs := 50;
  train_pass _ := [];
  test_pass _ := [];
  final_test_pass := [];
  first_train_labels := [];
  first_test_batch := [];
  cpu_time _ := Some 2%Q;
  gpu_time _ := Some 1%Q
|}.

(** A test batch with samples of the classes 0 to 4 only, and a batch of a
    single sample. *)
Definition five_classes : batch :=
  {| samples := [(0, 0); (1, 1); (3, 2); (3, 3); (4, 4)]; loss := None |}.


(** * Properties *)

(** ** The monad *)

Section MonadLaws.
Context `{PyFloat}.

Lemma trace_bind {A B} (m : M A) (k : A -> M B) :
  trace (bind m k) = trace m ++ match outcome m with inl _ => [] | inr a => trace (k a) end.
Proof.
  destruct m as [t [e|a]]; simpl.
  - by rewrite app_nil_r.
  - by destruct (k a).
Qed.

Lemma outcome_bind {A B} (m : M A) (k : A -> M B) :
  outcome (bind m k) = match outcome m with inl e => inl e | inr a => outcome (k a) end.
Proof. destruct m as [t [e|a]]; simpl; [done|]. by destruct (k a). Qed.

Lemma bind_ret_l {A B} (a : A) (k : A -> M B) : bind (ret a) k = k a.
Proof. unfold bind, ret. by destruct (k a). Qed.

Lemma bind_returns {A B} (m : M A) (k : A -> M B) t a :
  m = (t, inr a) -> bind m k = (t ++ trace (k a), outcome (k a)).
Proof. intros ->. unfold bind. by destruct (k a). Qed.

Lemma bind_raises {A B} (m : M A) (k : A -> M B) t e :
  m = (t, inl e) -> bind m k = (t, inl e).
Proof. by intros ->. Qed.

Lemma call_ok w callee args :
  lib_ok w -> call w callee args = ([ECall callee args], inr tt).
Proof. intros Hw. unfold call. by rewrite Hw. Qed.

Lemma call_outcome w callee args : lib_ok w -> outcome (call w callee args) = inr tt.
Proof. intros Hw. by rewrite (call_ok w). Qed.

Lemma bind_assoc {A B C} (m : M A) (k : A -> M B) (k' : B -> M C) :
  bind (bind m k) k' = bind m (fun a => bind (k a) k').
Proof.
  destruct m as [t [e|a]]; simpl; [done|].
  destruct (k a) as [t1 [e|b]]; simpl; [done|].
  destruct (k' b) as [t2 o]. by rewrite app_assoc.
Qed.

Lemma for_fold_app {A S} (xs ys : list A) (s : S) body :
  for_fold (xs ++ ys) s body = bind (for_fold xs s body) (fun s' => for_fold ys s' body).
Proof.
  revert s. induction xs as [|x xs IH]; intros s.
  - cbn [app for_fold]. by rewrite bind_ret_l.
  - cbn [app for_fold]. rewrite bind_assoc.
    destruct (body s x) as [t [e|s']]; [done|].
    unfold bind at 1 3. by rewrite IH.
Qed.

(** A loop whose body keeps an invariant and never raises returns, with
    the invariant. *)
Lemma for_fold_returns {A S} (P : A -> Prop) (I : list A -> S -> Prop)
    (body : S -> A -> M S) xs :
  Forall P xs ->
  (forall seen s x, P x -> I seen s ->
     exists s', outcome (body s x) = inr s' /\ I (seen ++ [x]) s') ->
  forall seen s, I seen s ->
  exists s', outcome (for_fold xs s body) = inr s' /\ I (seen ++ xs) s'.
Proof.
  intros HP Hbody. induction HP as [|x xs Hx _ IH]; intros seen s Hs.
  - exists s. by rewrite app_nil_r.
  - destruct (Hbody seen s x Hx Hs) as (s' & Hs' & HI).
    destruct (IH (seen ++ [x]) s' HI) as (s'' & Hs'' & HI').
    exists s''. simpl. rewrite outcome_bind, Hs'. split; [done|].
    by rewrite <- app_assoc in HI'.
Qed.

Lemma for_each_returns {A} (P : A -> Prop) (body : A -> M unit) xs :
  Forall P xs -> (forall x, P x -> outcome (body x) = inr tt) ->
  outcome (for_each xs body) = inr tt.
Proof.
  intros HP Hbody. induction HP as [|x xs Hx _ IH]; [done|].
  simpl. by rewrite outcome_bind, (Hbody x Hx).
Qed.

Lemma py_index_ok {A} (xs : list A) (i : Z) x :
  0 <= i -> xs !! Z.to_nat i = Some x -> py_index xs i = ret x.
Proof.
  intros Hi Hx. unfold py_index.
  pose proof (lookup_lt_Some _ _ _ Hx) as Hlt.
  destruct (Z.ltb_spec i 0); [lia|].
  destruct (Z.ltb_spec i 0); [lia|].
  destruct (Z.leb_spec (Z.of_nat (length xs)) i); [lia|]. simpl. by rewrite Hx.
Qed.

Lemma py_setitem_ok {A} (xs : list A) (i : Z) x :
  0 <= i < Z.of_nat (length xs) -> py_setitem xs i x = ret (<[Z.to_nat i := x]> xs).
Proof.
  intros Hi. unfold py_setitem.
  destruct (Z.ltb_spec i 0); [lia|].
  destruct (Z.ltb_spec i 0); [lia|].
  destruct (Z.leb_spec (Z.of_nat (length xs)) i); [lia|]. done.
Qed.

Lemma truediv_ok a b : 0 < b -> truediv a b = ret (a # Z.to_pos b).
Proof.
  intros Hb. unfold truediv. destruct (Z.eqb_spec b 0); [lia|].
  by rewrite Z.sgn_pos, Z.mul_1_l, Z.abs_eq by lia.
Qed.

Lemma range_10 : range 10 = [0; 1; 2; 3; 4; 5; 6; 7; 8; 9].
Proof. reflexivity. Qed.

Lemma bind_run {A B} (m : M A) (k : A -> M B) t a t' o :
  m = (t, inr a) -> k a = (t', o) -> bind m k = (t ++ t', o).
Proof. intros -> Hk. simpl. by rewrite Hk. Qed.

Lemma pair_eq {A} (m : M A) t o : trace m = t -> outcome m = o -> m = (t, o).
Proof. destruct m. simpl. congruence. Qed.

Lemma for_each_trace {A} (f : A -> list event) (body : A -> M unit) xs :
  (forall x, In x xs -> body x = (f x, inr tt)) ->
  for_each xs body = (flat_map f xs, inr tt).
Proof.
  induction xs as [|x xs IH]; intros Hb; [done|].
  cbn [for_each flat_map]. rewrite (Hb x) by (by left).
  rewrite IH; [done|]. intros y Hy. apply Hb. by right.
Qed.

(** A loop whose body keeps an invariant and never raises: what it does is
    what its body does for each element, in order. *)
Lemma for_fold_runs {A S} (P : A -> Prop) (I : list A -> S -> Prop)
    (f : A -> list event) (body : S -> A -> M S) xs :
  Forall P xs ->
  (forall seen s x, P x -> I seen s ->
     exists s', body s x = (f x, inr s') /\ I (seen ++ [x]) s') ->
  forall seen s, I seen s ->
  exists s', for_fold xs s body = (flat_map f xs, inr s') /\ I (seen ++ xs) s'.
Proof.
  intros HP Hbody. induction HP as [|x xs Hx _ IH]; intros seen s Hs.
  - exists s. by rewrite app_nil_r.
  - destruct (Hbody seen s x Hx Hs) as (s' & Hs' & HI).
    destruct (IH (seen ++ [x]) s' HI) as (s'' & Hs'' & HI').
    exists s''. split; [|by rewrite <- app_assoc in HI'].
    cbn [for_fold flat_map]. by apply (bind_run _ _ _ s').
Qed.

Lemma flat_map_singleton {A B} (f : A -> B) xs : flat_map (fun x => [f x]) xs = map f xs.
Proof. induction xs as [|x xs IH]; [done|]. simpl. by rewrite IH. Qed.

End MonadLaws.

(** ** Properties of every interaction of a run *)

Section Traced.
Context `{PyFloat} (Q : event -> Prop).

Lemma traced_ret {A} (a : A) : traced Q (ret a).
Proof. constructor. Qed.

Lemma traced_raise {A} e : Q (ERaise e) -> traced Q (@raise _ A e).
Proof. intros Hev. by repeat constructor. Qed.

Lemma traced_emit ev : Q ev -> traced Q (emit ev).
Proof. intros Hev. by repeat constructor. Qed.

Lemma traced_import w m : Q (EImport m) -> traced Q (import_ w m).
Proof. intros Hev. by repeat constructor. Qed.

Lemma traced_call w callee args : Q (ECall callee args) -> traced Q (call w callee args).
Proof. intros Hev. by repeat constructor. Qed.

Lemma traced_bind {A B} (m : M A) (k : A -> M B) :
  traced Q m -> (forall a, traced Q (k a)) -> traced Q (bind m k).
Proof.
  intros Hm Hk. unfold traced in *. rewrite trace_bind. apply Forall_app. split; [done|].
  destruct (outcome m); [constructor|apply Hk].
Qed.

Lemma traced_for_each {A} (xs : list A) body :
  (forall x, traced Q (body x)) -> traced Q (for_each xs body).
Proof.
  intros Hbody. induction xs as [|x xs IH]; [apply traced_ret|].
  apply traced_bind; [apply Hbody|done].
Qed.

Lemma traced_for_fold {A S} (xs : list A) (s : S) body :
  (forall s x, traced Q (body s x)) -> traced Q (for_fold xs s body).
Proof.
  intros Hbody. revert s. induction xs as [|x xs IH]; intros s; [apply traced_ret|].
  apply traced_bind; [apply Hbody|]. intros s'. apply IH.
Qed.

Lemma traced_try {A} (body : M A) handler :
  traced Q body -> (forall e, traced Q (handler e)) -> traced Q (try_except_ImportError body handler).
Proof.
  intros Hb Hh. unfold traced, try_except_ImportError in *.
  destruct body as [t [e|a]]; [|done].
  destruct (is_ImportError e); [|done].
  specialize (Hh e). destruct (handler e) as [t' o]. apply Forall_app. by split.
Qed.

Lemma traced_call_global {A} g name (body : M A) :
  Q (ERaise (NameError name)) -> traced Q body -> traced Q (call_global g name body).
Proof.
  intros Hev Hb. unfold call_global. destruct (decide _); [done|by apply traced_raise].
Qed.

Lemma traced_truediv a b : Q (ERaise ZeroDivisionError) -> traced Q (truediv a b).
Proof. intros Hev. unfold truediv. destruct (b =? 0); [by apply traced_raise|constructor]. Qed.

Lemma traced_py_index {A} (xs : list A) i : Q (ERaise IndexError) -> traced Q (py_index xs i).
Proof.
  intros Hev. unfold py_index. destruct (_ || _); [by apply traced_raise|].
  destruct (_ !! _); [constructor|by apply traced_raise].
Qed.

Lemma traced_py_setitem {A} (xs : list A) i x :
  Q (ERaise IndexError) -> traced Q (py_setitem xs i x).
Proof.
  intros Hev. unfold py_setitem. destruct (_ || _); [by apply traced_raise|constructor].
Qed.

(** What a cell does is what its top-level statements do. *)
Lemma traced_run_cell c : Forall (traced_stmt Q) c -> forall g, Forall Q (run_cell g c).1.
Proof.
  unfold run_cell. simpl.
  induction 1 as [|s c Hs _ IH]; intros g; [constructor|].
  destruct s as [name|name|body]; simpl; [apply IH..|].
  specialize (Hs g). unfold traced in Hs. destruct (body g) as [t [e|[]]]; [done|].
  specialize (IH g). destruct (exec_cell g c) as [[g' t'] o]. simpl in *.
  apply Forall_app. by split.
Qed.

End Traced.

(** One step through a computation; [solve_event] proves the property of a
    single interaction. *)
Ltac solve_or :=
  lazymatch goal with
  | |- _ \/ _ => first [left; solve_or | right; solve_or]
  | |- _ /\ _ => split; solve_or
  | |- _ = _ => reflexivity
  end.
Ltac solve_event := lazy; solve_or.
Ltac traced_step :=
  lazymatch goal with
  | |- traced _ (bind _ _) => apply traced_bind; [|intros ?]
  | |- traced _ (ret _) => apply traced_ret
  | |- traced _ (raise _) => apply traced_raise; solve_event
  | |- traced _ (truediv _ _) => apply traced_truediv; solve_event
  | |- traced _ (py_index _ _) => apply traced_py_index; solve_event
  | |- traced _ (py_setitem _ _ _) => apply traced_py_setitem; solve_event
  | |- traced _ (emit _) => apply traced_emit; solve_event
  | |- traced _ (import_ _ _) => apply traced_import; solve_event
  | |- traced _ (call _ _ _) => apply traced_call; solve_event
  | |- traced _ (for_each _ _) => apply traced_for_each; intros ?
  | |- traced _ (for_fold _ _ _) => apply traced_for_fold; intros ? ?
  | |- traced _ (try_except_ImportError _ _) => apply traced_try; [|intros ?]
  | |- traced _ (call_global _ _ _) => apply traced_call_global; [solve_event|]
  | |- traced _ (if ?b then _ else _) => destruct b
  | |- traced _ (match ?x with _ => _ end) => destruct x
  end.


Lemma traced_observe `{PyFloat} (Q : event -> Prop) {A} (m : M A) :
  traced Q m -> Forall Q (observe m).1.
Proof. done. Qed.

(** ** Exceptions that reach the caller *)

Section Propagation.
Context `{PyFloat} (w : world) (caught : exn -> bool).

Lemma propagates_ret {A} (a : A) : propagates w caught (ret a).
Proof. intros i ev e Hi. done. Qed.

Lemma propagates_raise {A} e : propagates w caught (@raise _ A e).
Proof. intros [|i] ev e' Hi He; simplify_eq/=. by left. Qed.

Lemma propagates_print text : propagates w caught (emit (EPrint text)).
Proof. intros [|i] ev e Hi He; simplify_eq/=. Qed.

Lemma propagates_shell cmd : propagates w caught (emit (EShell cmd)).
Proof. intros [|i] ev e Hi He; simplify_eq/=. Qed.

Lemma propagates_import m : propagates w caught (import_ w m).
Proof. intros [|i] ev e Hi He; simplify_eq/=. left. by rewrite He. Qed.

Lemma propagates_call callee args : propagates w caught (call w callee args).
Proof. intros [|i] ev e Hi He; simplify_eq/=. left. by rewrite He. Qed.

Lemma propagates_bind {A B} (m : M A) (k : A -> M B) :
  propagates w caught m -> (forall a, propagates w caught (k a)) ->
  propagates w caught (bind m k).
Proof.
  intros Hm Hk i ev e Hi He. unfold propagates, propagating, observe in *. simpl in *.
  rewrite trace_bind in *. rewrite outcome_bind.
  apply lookup_app_Some in Hi as [Hi|[Hlen Hi]].
  - destruct (Hm i ev e Hi He) as [[Hlast Ho]|]; [|by right]. left.
    destruct (outcome m); [|done]. rewrite length_app. simpl. split; [lia|done].
  - destruct (outcome m) as [e'|a]; [done|].
    destruct (Hk a _ ev e Hi He) as [[Hlast Ho]|]; [|by right]. left.
    rewrite length_app. split; [lia|done].
Qed.

Lemma propagates_for_each {A} (xs : list A) body :
  (forall x, propagates w caught (body x)) -> propagates w caught (for_each xs body).
Proof.
  intros Hbody. induction xs as [|x xs IH]; [apply propagates_ret|].
  apply propagates_bind; [apply Hbody|done].
Qed.

Lemma propagates_for_fold {A S} (xs : list A) (s : S) body :
  (forall s x, propagates w caught (body s x)) -> propagates w caught (for_fold xs s body).
Proof.
  intros Hbody. revert s. induction xs as [|x xs IH]; intros s; [apply propagates_ret|].
  apply propagates_bind; [apply Hbody|]. intros s'. apply IH.
Qed.

Lemma propagates_call_global {A} g name (body : M A) :
  propagates w caught body -> propagates w caught (call_global g name body).
Proof. intros Hb. unfold call_global. destruct (decide _); [done|apply propagates_raise]. Qed.

Lemma propagates_truediv a b : propagates w caught (truediv a b).
Proof. unfold truediv. destruct (b =? 0); [apply propagates_raise|apply propagates_ret]. Qed.

Lemma propagates_py_index {A} (xs : list A) i : propagates w caught (py_index xs i).
Proof.
  unfold py_index. destruct (_ || _); [apply propagates_raise|].
  destruct (_ !! _); [apply propagates_ret|apply propagates_raise].
Qed.

Lemma propagates_py_setitem {A} (xs : list A) i x : propagates w caught (py_setitem xs i x).
Proof.
  unfold py_setitem. destruct (_ || _); [apply propagates_raise|apply propagates_ret].
Qed.

(** The one construct that swallows: [except ImportError]. *)
Lemma propagates_try {A} (body : M A) handler :
  (forall e, is_ImportError e = true -> caught e = true) ->
  propagates w caught body -> (forall e, propagates w caught (handler e)) ->
  propagates w caught (try_except_ImportError body handler).
Proof.
  intros Hc Hb Hh i ev e Hi He. unfold propagates, propagating, observe in *.
  unfold try_except_ImportError in *. destruct body as [t [e'|a]]; [|by apply (Hb i ev)].
  destruct (is_ImportError e') eqn:Ee'; [|by apply (Hb i ev)].
  specialize (Hh e'). destruct (handler e') as [t' o']. simpl in *.
  apply lookup_app_Some in Hi as [Hi|[Hlen Hi]].
  - destruct (Hb i ev e Hi He) as [[_ Ho]|]; [|by right]. right. apply Hc. congruence.
  - destruct (Hh _ ev e Hi He) as [[Hlast Ho]|]; [|by right]. left.
    rewrite length_app. split; [lia|done].
Qed.

Lemma propagating_run_cell c :
  Forall (propagates_stmt w caught) c -> forall g, propagating w caught (run_cell g c).
Proof.
  unfold run_cell.
  induction 1 as [|s c Hs _ IH]; intros g; [by intros i ev e Hi|].
  destruct s as [name|name|body]; simpl; [apply IH..|].
  specialize (Hs g). unfold propagates, propagating, observe in Hs.
  destruct (body g) as [t [e|[]]]; simpl in *; [done|].
  specialize (IH g). unfold propagating in IH.
  destruct (exec_cell g c) as [[g' t'] o]. unfold propagating. simpl in *.
  intros i ev e Hi He.
  apply lookup_app_Some in Hi as [Hi|[Hlen Hi]].
  - destruct (Hs i ev e Hi He) as [[_ Ho]|]; [done|by right].
  - destruct (IH _ ev e Hi He) as [[Hlast Ho]|]; [|by right]. left.
    rewrite length_app. split; [lia|done].
Qed.

End Propagation.

Ltac propagates_step :=
  lazymatch goal with
  | |- propagates _ _ (bind _ _) => apply propagates_bind; [|intros ?]
  | |- propagates _ _ (ret _) => apply propagates_ret
  | |- propagates _ _ (raise _) => apply propagates_raise
  | |- propagates _ _ (truediv _ _) => apply propagates_truediv
  | |- propagates _ _ (py_index _ _) => apply propagates_py_index
  | |- propagates _ _ (py_setitem _ _ _) => apply propagates_py_setitem
  | |- propagates _ _ (emit (EPrint _)) => apply propagates_print
  | |- propagates _ _ (emit (EShell _)) => apply propagates_shell
  | |- propagates _ _ (import_ _ _) => apply propagates_import
  | |- propagates _ _ (call _ _ _) => apply propagates_call
  | |- propagates _ _ (for_each _ _) => apply propagates_for_each; intros ?
  | |- propagates _ _ (for_fold _ _ _) => apply propagates_for_fold; intros ? ?
  | |- propagates _ _ (try_except_ImportError _ _) => apply propagates_try; [done| |intros ?]
  | |- propagates _ _ (call_global _ _ _) => apply propagates_call_global
  | |- propagates _ _ (if ?b then _ else _) => destruct b
  | |- propagates _ _ (match ?x with _ => _ end) => destruct x
  end.

(** ** Runs that come to an end *)

Section Bounded.
Context `{PyFloat}.

Lemma bounded_le n n' {A} (m : M A) : bounded n m -> (n <= n')%nat -> bounded n' m.
Proof. unfold bounded, ends_within. lia. Qed.

Lemma bounded_ret {A} (a : A) : bounded 0 (ret a).
Proof. unfold bounded, ends_within; simpl; lia. Qed.

Lemma bounded_raise {A} e : bounded 0 (@raise _ A e).
Proof. unfold bounded, ends_within; simpl; lia. Qed.

Lemma bounded_emit ev : bounded 1 (emit ev).
Proof. unfold bounded, ends_within; simpl; lia. Qed.

Lemma bounded_import w m : bounded 1 (import_ w m).
Proof. unfold bounded, ends_within; simpl; lia. Qed.

Lemma bounded_call w callee args : bounded 1 (call w callee args).
Proof. unfold bounded, ends_within; simpl; lia. Qed.

Lemma bounded_bind_returned n n' {A B} (m : M A) (k : A -> M B) :
  bounded n m -> (forall a, outcome m = inr a -> bounded n' (k a)) ->
  bounded (n + n') (bind m k).
Proof.
  intros Hm Hk. unfold bounded, ends_within, observe in *.
  destruct m as [t [e|a]]; simpl in *; [lia|].
  specialize (Hk a eq_refl). destruct (k a) as [t' o]. simpl in *. rewrite length_app. lia.
Qed.

Lemma bounded_bind n n' {A B} (m : M A) (k : A -> M B) :
  bounded n m -> (forall a, bounded n' (k a)) -> bounded (n + n') (bind m k).
Proof. intros Hm Hk. apply bounded_bind_returned; [done|]. intros a _. apply Hk. Qed.

(** A [for] loop over [xs] runs its body [length xs] times at most. *)
Lemma bounded_for_each_with {A} (f : A -> nat) (xs : list A) body :
  (forall x, bounded (f x) (body x)) -> bounded (sum_list_with f xs) (for_each xs body).
Proof.
  intros Hbody. induction xs as [|x xs IH]; [apply bounded_ret|].
  simpl. apply bounded_bind; [apply Hbody|done].
Qed.

Lemma bounded_for_fold_with {A S} (f : A -> nat) (xs : list A) (s : S) body :
  (forall s x, bounded (f x) (body s x)) -> bounded (sum_list_with f xs) (for_fold xs s body).
Proof.
  intros Hbody. revert s. induction xs as [|x xs IH]; intros s; [apply bounded_ret|].
  simpl. apply bounded_bind; [apply Hbody|]. intros s'. apply IH.
Qed.

Lemma sum_list_with_const {A} (n : nat) (xs : list A) :
  sum_list_with (fun _ => n) xs = (length xs * n)%nat.
Proof. induction xs as [|x xs IH]; simpl; lia. Qed.

Lemma bounded_for_each n {A} (xs : list A) body :
  (forall x, bounded n (body x)) -> bounded (length xs * n) (for_each xs body).
Proof. intros Hb. rewrite <- sum_list_with_const. by apply bounded_for_each_with. Qed.

Lemma bounded_for_fold n {A S} (xs : list A) (s : S) body :
  (forall s x, bounded n (body s x)) -> bounded (length xs * n) (for_fold xs s body).
Proof. intros Hb. rewrite <- sum_list_with_const. by apply bounded_for_fold_with. Qed.

(** The handler starts after the exception of the body. *)
Lemma bounded_try n n' {A} (body : M A) handler :
  bounded n body -> (forall e, bounded n' (handler e)) ->
  bounded (n + 1 + n') (try_except_ImportError body handler).
Proof.
  intros Hb Hh. unfold bounded, ends_within, observe, try_except_ImportError in *.
  destruct body as [t [e|a]]; simpl in *; [|lia].
  destruct (is_ImportError e); simpl; [|lia].
  specialize (Hh e). destruct (handler e) as [t' o]. simpl in *. rewrite length_app. lia.
Qed.

Lemma bounded_call_global n {A} g name (body : M A) :
  bounded n body -> bounded n (call_global g name body).
Proof.
  intros Hb. unfold call_global. destruct (decide _); [done|].
  unfold bounded, ends_within. simpl. lia.
Qed.

Lemma bounded_truediv a b : bounded 0 (truediv a b).
Proof. unfold truediv. destruct (b =? 0); [apply bounded_raise|apply bounded_ret]. Qed.

Lemma bounded_py_index {A} (xs : list A) i : bounded 0 (py_index xs i).
Proof.
  unfold py_index. destruct (_ || _); [apply bounded_raise|].
  destruct (_ !! _); [apply bounded_ret|apply bounded_raise].
Qed.

Lemma bounded_py_setitem {A} (xs : list A) i x : bounded 0 (py_setitem xs i x).
Proof. unfold py_setitem. destruct (_ || _); [apply bounded_raise|apply bounded_ret]. Qed.

Lemma bounded_if n n' {A} (b : bool) (m m' : M A) :
  bounded n m -> bounded n' m' -> bounded (Nat.max n n') (if b then m else m').
Proof. unfold bounded, ends_within. destruct b; lia. Qed.

Lemma bounded_if_dec n n' {A} {P R : Prop} (d : {P} + {R}) (m m' : M A) :
  bounded n m -> bounded n' m' -> bounded (Nat.max n n') (if d then m else m').
Proof. unfold bounded, ends_within. destruct d; lia. Qed.

End Bounded.

Ltac bounded_step :=
  lazymatch goal with
  | |- bounded _ (bind _ _) => eapply bounded_bind; [|intros ?]
  | |- bounded _ (ret _) => apply bounded_ret
  | |- bounded _ (raise _) => apply bounded_raise
  | |- bounded _ (truediv _ _) => apply bounded_truediv
  | |- bounded _ (py_index _ _) => apply bounded_py_index
  | |- bounded _ (py_setitem _ _ _) => apply bounded_py_setitem
  | |- bounded _ (emit _) => apply bounded_emit
  | |- bounded _ (import_ _ _) => apply bounded_import
  | |- bounded _ (call _ _ _) => apply bounded_call
  | |- bounded _ (for_each _ _) => eapply bounded_for_each; intros ?
  | |- bounded _ (for_fold _ _ _) => eapply bounded_for_fold; intros ? ?
  | |- bounded _ (try_except_ImportError _ _) => eapply bounded_try; [|intros ?]
  | |- bounded _ (call_global _ _ _) => eapply bounded_call_global
  | |- bounded _ (if ?b then _ else _) =>
      first [eapply bounded_if | eapply bounded_if_dec]
  | |- bounded _ (match ?x with _ => _ end) => destruct x
  end.


(** The top-level code of the cells, and the functions of the notebooks, for
    unfolding. *)
Create HintDb cells.
#[export] Hint Unfold
  is_available print print_str shell
  WandbTutorial.cell1 WandbTutorial.cell2 WandbTutorial.cell3 WandbTutorial.cell4
  PytorchGpu.imports1 PytorchGpu.cell1 PytorchGpu.cell2 PytorchGpu.imports3 PytorchGpu.cell3
  PytorchGpu.cell4 PytorchGpu.cell5
  LocalSetup.imports1 LocalSetup.cell1 LocalSetup.cell2 LocalSetup.cell3 LocalSetup.cell4
  LocalSetup.cell5 LocalSetup.cell6
  Cifar10.cell1 Cifar10.new_DataLoader Cifar10.new_CIFAR10 Cifar10.new_Normalize Cifar10.cell2
  Cifar10.cell3 Cifar10.cell4 Cifar10.wandb_init Cifar10.cell5 Cifar10.cell6 Cifar10.cell7
  : cells.

Create HintDb repo.
#[export] Hint Unfold
  is_available print print_str shell
  WandbTutorial.check_wandb_installation WandbTutorial.cell1 WandbTutorial.cell2
  WandbTutorial.cell3 WandbTutorial.cell4 WandbTutorial.train_model
  PytorchGpu.check_gpu_availability PytorchGpu.imports1 PytorchGpu.cell1
  PytorchGpu.demonstrate_gpu_operations PytorchGpu.cell2 PytorchGpu.benchmark_operations
  PytorchGpu.imports3 PytorchGpu.cell3 PytorchGpu.print_memory_usage
  PytorchGpu.demonstrate_memory_management PytorchGpu.cell4 PytorchGpu.check_multi_gpu
  PytorchGpu.cell5
  LocalSetup.get_os_info LocalSetup.imports1 LocalSetup.cell1 LocalSetup.show_conda_instructions
  LocalSetup.cell2 LocalSetup.show_environment_setup LocalSetup.cell3
  LocalSetup.show_package_installation LocalSetup.cell4 LocalSetup.verify_setup
  LocalSetup.cell5 LocalSetup.show_troubleshooting LocalSetup.cell6
  Cifar10.new_Conv2d Cifar10.new_MaxPool2d Cifar10.new_Linear Cifar10.new_BatchNorm2d
  Cifar10.__init__ Cifar10.apply_layer Cifar10.conv_block Cifar10.hidden Cifar10.forward
  Cifar10.cell1 Cifar10.new_DataLoader Cifar10.new_CIFAR10 Cifar10.new_Normalize
  Cifar10.cell2 Cifar10.imshow Cifar10.cell3 Cifar10.cell4 Cifar10.squeezed_index
  Cifar10.count_sample Cifar10.eval_batch Cifar10.print_class_accuracy
  Cifar10.evaluate_model Cifar10.cell6 Cifar10.train_batch Cifar10.train_epoch
  Cifar10.train_model Cifar10.wandb_init Cifar10.cell5 Cifar10.show_prediction
  Cifar10.visualize_predictions Cifar10.cell7 : repo.

Ltac each_function f := destruct f; unfold run_function.
Ltac each_cell nb i Hc :=
  destruct nb; simpl in Hc;
  repeat (destruct i as [|i]; simpl in Hc; [injection Hc as <-|]); try discriminate.
Ltac each_stmt :=
  repeat match goal with
         | |- Forall _ (_ :: _) => constructor
         | |- Forall _ [] => constructor
         end;
  simpl; try exact I; intros ?.

(** ** Error handling *)

Section ErrorHandling.
Context `{PyFloat} (w : world).

Lemma check_wandb_installation_cases :
  WandbTutorial.check_wandb_installation w =
  match import_outcome w "wandb" with
  | None =>
      ([EImport "wandb";
        EPrint [Lit "✅ W&B is installed (version "; Fmt (VExpr "wandb.__version__") ""; Lit ")"]],
       inr true)
  | Some e =>
      if is_ImportError e
      then ([EImport "wandb"; EPrint [Lit "❌ W&B is not installed. Installing now..."];
             pip_install], inr false)
      else ([EImport "wandb"], inl e)
  end.
Proof.
  unfold WandbTutorial.check_wandb_installation, import_. 
  destruct (import_outcome w "wandb") as [e|]; [|done]. simpl. by destruct (is_ImportError e).
Qed.

Lemma verify_setup_cases k pkg e :
  required_packages !! k = Some pkg ->
  (forall p, In p (take k required_packages) -> import_outcome w p = None) ->
  import_outcome w pkg = Some e ->
  LocalSetup.verify_setup w =
  if is_ImportError e
  then (map EImport (take (S k) required_packages)
        ++ [EPrint [Lit "❌ Some packages are missing: "; Fmt (VExpr "str(e)") ""];
            EPrint [Lit "Please follow the installation instructions above."]], inr tt)
  else (map EImport (take (S k) required_packages), inl e).
Proof.
  intros Hk Hprev Hfail. unfold LocalSetup.verify_setup, import_.
  do 6 (destruct k as [|k]; [injection Hk as <-;
    repeat match goal with
           | |- context [import_outcome w ?p] =>
               first [rewrite Hfail | rewrite (Hprev p) by (simpl; tauto)]
           end; simpl; by destruct (is_ImportError e)|]).
  done.
Qed.

Lemma functions_propagate g f :
  propagating w (caught_in_function f) (run_function w g f).
Proof.
  each_function f;
    match goal with |- propagating _ ?c (observe ?m) => change (propagates w c m) end;
    autounfold with repo; cbn [caught_in_function]; repeat propagates_step.
Qed.

Lemma cells_propagate g nb i c :
  cells_of w nb !! i = Some c -> propagating w (caught_in_cell nb i) (run_cell g c).
Proof.
  intros Hc. each_cell nb i Hc; apply propagating_run_cell; each_stmt;
    autounfold with repo; repeat propagates_step.
Qed.

(** C1, as the code has it.  Explicit error handling is two [except
    ImportError] clauses.  [check_wandb_installation] prints the installed
    version and returns [True] when [wandb] imports; on an [ImportError] it
    prints that W&B is being installed, runs [pip install wandb -q] in a
    shell and returns [False]; any other exception of the import leaves the
    function.  [verify_setup], when one of its six imports raises an
    [ImportError], prints which packages are missing and points at the
    installation instructions, and returns [None].  Everywhere else, and for
    every other exception in these two, an exception ends the run that
    raised it, whether an import or a library call raised it or an operation
    of the code itself did: a division by zero, an index out of range, a
    name that is not bound, a layer given a tensor of the wrong shape. *)
Theorem import_error_handlers :
  WandbTutorial.check_wandb_installation w =
  match import_outcome w "wandb" with
  | None =>
      ([EImport "wandb";
        EPrint [Lit "✅ W&B is installed (version "; Fmt (VExpr "wandb.__version__") ""; Lit ")"]],
       inr true)
  | Some e =>
      if is_ImportError e
      then ([EImport "wandb"; EPrint [Lit "❌ W&B is not installed. Installing now..."];
             pip_install], inr false)
      else ([EImport "wandb"], inl e)
  end /\
  (forall k pkg e,
     required_packages !! k = Some pkg ->
     (forall p, In p (take k required_packages) -> import_outcome w p = None) ->
     import_outcome w pkg = Some e ->
     LocalSetup.verify_setup w =
     if is_ImportError e
     then (map EImport (take (S k) required_packages)
           ++ [EPrint [Lit "❌ Some packages are missing: "; Fmt (VExpr "str(e)") ""];
               EPrint [Lit "Please follow the installation instructions above."]], inr tt)
     else (map EImport (take (S k) required_packages), inl e)) /\
  (forall g f, propagating w (caught_in_function f) (run_function w g f)) /\
  (forall g nb i c,
     cells_of w nb !! i = Some c -> propagating w (caught_in_cell nb i) (run_cell g c)).
Proof.
  split; [apply check_wandb_installation_cases|].
  split; [apply verify_setup_cases|].
  split; [apply functions_propagate|apply cells_propagate].
Qed.

End ErrorHandling.

(** C1, as stated, fails where [wandb] is missing: the handler of
    [check_wandb_installation] does more than print, it runs [pip install];
    its message announces the installation and points at no instructions;
    and it is not the only handler, [verify_setup] has the one that points
    at the installation instructions. *)
Lemma check_wandb_installation_installs :
  WandbTutorial.check_wandb_installation (without_wandb (cpu_world 0 0)) =
    ([EImport "wandb"; EPrint [Lit "❌ W&B is not installed. Installing now..."];
      EShell "pip install wandb -q"], inr false) /\
  ~ only_prints (trace (WandbTutorial.check_wandb_installation (without_wandb (cpu_world 0 0)))) /\
  LocalSetup.verify_setup (without_wandb (cpu_world 0 0)) =
    (map EImport required_packages
     ++ [EPrint [Lit "❌ Some packages are missing: "; Fmt (VExpr "str(e)") ""];
         EPrint [Lit "Please follow the installation instructions above."]], inr tt).
Proof.
  split; [by vm_compute|]. split; [|by vm_compute].
  intros Hp.
  apply (Forall_lookup_1 _ _ 2%nat (EShell "pip install wandb -q")) in Hp; [done|].
  by vm_compute.
Qed.

(** What [propagating] rules out: a run that goes on after a division by
    zero, and one that ends in another exception than the library call
    raised. *)
Lemma swallowed_exceptions_are_seen `{PyFloat} (w : world) callee args e :
  ~ propagating w uncaught ([ERaise ZeroDivisionError; EPrint []], None) /\
  ~ propagating w uncaught ([ERaise ZeroDivisionError], None) /\
  (lib_raises w callee args = Some e ->
   ~ propagating w uncaught ([ECall callee args], None)).
Proof.
  split; [|split].
  - intros Hp. by destruct (Hp 0%nat _ ZeroDivisionError eq_refl eq_refl) as [[? _]|?].
  - intros Hp. by destruct (Hp 0%nat _ ZeroDivisionError eq_refl eq_refl) as [[_ ?]|?].
  - intros He Hp. by destruct (Hp 0%nat _ e eq_refl He) as [[_ ?]|?].
Qed.

(** ** Processes, threads and tasks *)

Section Tasks.
Context `{PyFloat} (w : world).

Lemma functions_start_no_task g f :
  Forall (fun ev => tasks_started ev = 0 \/ In ev (task_starts_in_function f))
    (run_function w g f).1.
Proof.
  each_function f; apply traced_observe; autounfold with repo;
    cbn [task_starts_in_function]; repeat traced_step.
Qed.

Lemma cells_start_no_task g nb i c :
  cells_of w nb !! i = Some c ->
  Forall (fun ev => tasks_started ev = 0 \/ In ev (task_starts_in_cell nb i)) (run_cell g c).1.
Proof.
  intros Hc. each_cell nb i Hc; apply traced_run_cell; each_stmt;
    autounfold with repo; cbn [task_starts_in_cell]; repeat traced_step.
Qed.

(** C2, as the code has it.  Repository code calls no threading, process or
    asynchronous API.  The interactions that start a task are the shell
    command [pip install wandb -q], which [check_wandb_installation] runs
    exactly when the import of [wandb] raises an [ImportError], and the
    construction of [trainloader] and [testloader], each with
    [num_workers=2]: two worker processes per loader, run by the library. *)
Theorem tasks_of_the_repository :
  (forall g f,
     Forall (fun ev => tasks_started ev = 0 \/ In ev (task_starts_in_function f))
       (run_function w g f).1) /\
  (forall g nb i c,
     cells_of w nb !! i = Some c ->
     Forall (fun ev => tasks_started ev = 0 \/ In ev (task_starts_in_cell nb i))
       (run_cell g c).1) /\
  (In pip_install (trace (WandbTutorial.check_wandb_installation w)) <->
   exists e, import_outcome w "wandb" = Some e /\ is_ImportError e = true) /\
  tasks_started (loader_call Cifar10.trainloader) = 2 /\
  tasks_started (loader_call Cifar10.testloader) = 2.
Proof.
  split; [apply functions_start_no_task|].
  split; [apply cells_start_no_task|].
  split; [|by split].
  rewrite check_wandb_installation_cases.
  destruct (import_outcome w "wandb") as [e|].
  - destruct (is_ImportError e) eqn:Ee; simpl.
    + split; [eauto|]. intros _. right. right. by left.
    + split; [|by intros (e' & [= <-] & ?); congruence].
      intros [[=]|[]].
  - simpl. split; [intros [[=]|[[=]|[]]]|by intros (e & [=] & _)].
Qed.

End Tasks.

(** C2, as stated, fails: the cell that builds the data-loading pipeline
    asks for two worker processes per loader, and the import handler of
    [check_wandb_installation] runs a shell command in a subprocess. *)
Lemma loaders_and_handler_start_processes :
  trace (Cifar10.cell2 (cpu_world 0 0)) !! 9%nat = Some (loader_call Cifar10.trainloader) /\
  trace (Cifar10.cell2 (cpu_world 0 0)) !! 11%nat = Some (loader_call Cifar10.testloader) /\
  tasks_started (loader_call Cifar10.trainloader) = 2 /\
  tasks_started (loader_call Cifar10.testloader) = 2 /\
  trace (WandbTutorial.check_wandb_installation (without_wandb (cpu_world 0 0))) !! 2%nat
  = Some (EShell "pip install wandb -q") /\
  tasks_started (EShell "pip install wandb -q") = 1.
Proof. repeat split; by vm_compute. Qed.

(** ** State on disk *)

Section Disk.
Context `{PyFloat} (w : world).

Lemma functions_persist g f :
  Forall (fun ev => In (persists ev) state_on_disk) (run_function w g f).1.
Proof.
  each_function f; apply traced_observe; autounfold with repo; repeat traced_step.
Qed.

Lemma cells_persist g nb i c :
  cells_of w nb !! i = Some c ->
  Forall (fun ev => In (persists ev) state_on_disk) (run_cell g c).1.
Proof.
  intros Hc. each_cell nb i Hc; apply traced_run_cell; each_stmt;
    autounfold with repo; repeat traced_step.
Qed.

Lemma functions_shell g f :
  Forall (fun ev => In (persists ev) named_state \/ In ev (task_starts_in_function f))
    (run_function w g f).1.
Proof.
  each_function f; apply traced_observe; autounfold with repo;
    cbn [task_starts_in_function]; repeat traced_step.
Qed.

(** C7, as the code has it.  Repository code opens and writes no file
    itself.  What its interactions leave on disk is the dataset cache under
    './data' (the torchvision constructor, given the root), the metadata of
    the runs (the wandb calls, given the values to log), and what the shell
    command [pip install wandb -q] of [check_wandb_installation] installs;
    the shell command is the only interaction outside the first two, and
    only [check_wandb_installation] runs it. *)
Theorem state_of_the_repository :
  (forall g f, Forall (fun ev => In (persists ev) state_on_disk) (run_function w g f).1) /\
  (forall g nb i c,
     cells_of w nb !! i = Some c ->
     Forall (fun ev => In (persists ev) state_on_disk) (run_cell g c).1) /\
  (forall g f,
     Forall (fun ev => In (persists ev) named_state \/ In ev (task_starts_in_function f))
       (run_function w g f).1).
Proof.
  split; [apply functions_persist|]. split; [apply cells_persist|apply functions_shell].
Qed.

End Disk.

(** C7, as stated, fails: where [wandb] is missing,
    [check_wandb_installation] installs a package, which is neither the
    dataset cache nor the metadata of a run. *)
Lemma handler_installs_a_package :
  trace (WandbTutorial.check_wandb_installation (without_wandb (cpu_world 0 0))) !! 2%nat
  = Some (EShell "pip install wandb -q") /\
  persists (EShell "pip install wandb -q") = Some (ByShell "pip install wandb -q") /\
  ~ In (persists (EShell "pip install wandb -q")) named_state.
Proof.
  split; [by vm_compute|]. split; [by vm_compute|].
  intros [Hin|[Hin|[Hin|[]]]]; discriminate Hin.
Qed.

(** ** Environment variables and command-line arguments *)


(** ** The layers of the network *)

Lemma init_layers `{PyFloat} (w : world) self :
  outcome (Cifar10.__init__ w) = inr self -> self = the_layers.
Proof.
  autounfold with repo. unfold call.
  repeat (destruct (lib_raises w _ _); [discriminate|]).
  vm_compute. congruence.
Qed.

(** ** Termination *)

Section Termination.
Context `{PyFloat} (w : world).

Ltac auto_bound := eapply bounded_le; [autounfold with repo; repeat bounded_step|simpl; lia].

Lemma length_enumerate {A} (xs : list A) : length (enumerate xs) = length xs.
Proof. unfold enumerate. rewrite length_combine, length_map, length_seq. lia. Qed.

Lemma benchmark_results_length xs : forall acc r,
  outcome (for_fold xs acc (fun results size =>
     call w "torch.randn" [Pos (int_ size); Pos (int_ size)];;
     call w "torch.randn" [Pos (int_ size); Pos (int_ size)];;
     call w "time.time" [];;
     call w "torch.matmul" [Pos (expr_ "a_cpu"); Pos (expr_ "b_cpu")];;
     call w "time.time" [];;
     let cpu := cpu_time w size in
     cuda ← is_available w;
     gpu ← (if cuda : bool then
              call w "a_cpu.cuda" [];;
              call w "b_cpu.cuda" [];;
              call w "torch.matmul" [Pos (expr_ "a_gpu"); Pos (expr_ "b_gpu")];;
              call w "torch.cuda.synchronize" [];;
              call w "time.time" [];;
              call w "torch.matmul" [Pos (expr_ "a_gpu"); Pos (expr_ "b_gpu")];;
              call w "torch.cuda.synchronize" [];;
              call w "time.time" [];;
              ret (gpu_time w size)
            else ret fnan);
     ret (results ++ [{| PytorchGpu.size := size; PytorchGpu.cpu_time_ := cpu;
                         PytorchGpu.gpu_time_ := gpu;
                         PytorchGpu.speedup := if fpos gpu then fdiv cpu gpu else fnan |}])))
  = inr r -> length r = (length acc + length xs)%nat.
Proof.
  induction xs as [|x xs IH]; intros acc r.
  - simpl. intros [= <-]. lia.
  - cbn [for_fold]. rewrite outcome_bind.
    match goal with |- match outcome ?m with _ => _ end = _ -> _ => destruct m as [t [e|acc']] eqn:Em end;
      [done|]. simpl. intros Hr. apply IH in Hr. rewrite Hr.
    assert (Hacc : length acc' = S (length acc)); [|simpl; lia].
    revert Em. unfold is_available, call.
    repeat (destruct (lib_raises w _ _); [discriminate|]); simpl;
      destruct (cuda_is_available w); simpl;
      repeat (destruct (lib_raises w _ _); [discriminate|]); simpl;
      intros [= _ <-]; rewrite length_app; simpl; lia.
Qed.

Lemma benchmark_operations_bounded :
  bounded (steps w F_benchmark_operations) (PytorchGpu.benchmark_operations w).
Proof.
  unfold PytorchGpu.benchmark_operations, steps.
  eapply bounded_le.
  - eapply bounded_bind_returned.
    + eapply (bounded_for_fold 14). intros results size. auto_bound.
    + intros results Hres. apply benchmark_results_length in Hres. simpl in Hres.
      eapply bounded_bind; [apply bounded_emit|intros _].
      eapply bounded_bind; [apply bounded_emit|intros _].
      eapply bounded_bind; [apply bounded_emit|intros _].
      eapply bounded_le; [eapply (bounded_for_each 1); intros r; apply bounded_emit|].
      rewrite Hres. reflexivity.
  - simpl. lia.
Qed.

Lemma eval_batch_bounded t b :
  bounded (8 + length (samples b)) (Cifar10.eval_batch w t b).
Proof.
  eapply bounded_le; [autounfold with repo; repeat bounded_step|].
  rewrite length_enumerate, length_map. simpl. lia.
Qed.

Lemma evaluate_model_bounded obs :
  bounded (eval_steps obs) (Cifar10.evaluate_model w obs).
Proof.
  unfold Cifar10.evaluate_model, eval_steps.
  eapply bounded_le.
  - eapply bounded_bind; [apply bounded_call|intros _].
    eapply bounded_bind; [apply bounded_call|intros _].
    eapply bounded_bind;
      [apply (bounded_for_fold_with (fun b => 8 + length (samples b))%nat);
       intros; apply eval_batch_bounded|intros t].
    eapply bounded_bind; [|intros _; apply bounded_truediv].
    eapply (bounded_for_each 1). intros i. auto_bound.
  - rewrite range_10. simpl. lia.
Qed.

Lemma train_batch_bounded epoch r ib : bounded 14 (Cifar10.train_batch w epoch r ib).
Proof. auto_bound. Qed.

Lemma train_epoch_bounded g epoch :
  bounded (epoch_steps w epoch) (Cifar10.train_epoch w g epoch).
Proof.
  unfold Cifar10.train_epoch, epoch_steps.
  eapply bounded_le.
  - eapply bounded_bind; [apply bounded_call|intros _].
    eapply bounded_bind; [eapply (bounded_for_fold 14); intros; apply train_batch_bounded|intros _].
    eapply bounded_bind; [apply bounded_call_global, evaluate_model_bounded|intros acc].
    autounfold with repo; repeat bounded_step.
  - rewrite length_enumerate. unfold eval_steps. simpl. lia.
Qed.

Lemma train_model_bounded g epochs :
  bounded (steps w (F_train_model epochs)) (Cifar10.train_model w g epochs).
Proof.
  unfold Cifar10.train_model, steps.
  eapply bounded_le.
  - eapply bounded_bind;
      [apply (bounded_for_each_with (epoch_steps w)); intros; apply train_epoch_bounded|intros _].
    autounfold with repo; repeat bounded_step.
  - simpl. lia.
Qed.

Lemma functions_bounded g f : ends_within (steps w f) (run_function w g f).
Proof.
  destruct f; unfold run_function;
    match goal with |- ends_within ?n (observe ?m) => change (bounded n m) end;
    [..|apply train_model_bounded|apply evaluate_model_bounded|];
    try apply benchmark_operations_bounded; try auto_bound.
Qed.

Lemma ends_within_le n n' r : ends_within n r -> (n <= n')%nat -> ends_within n' r.
Proof. unfold ends_within. lia. Qed.

Lemma run_cell_nil g : ends_within 0 (run_cell g []).
Proof. unfold ends_within. simpl. lia. Qed.

Lemma run_cell_def g name c n :
  ends_within n (run_cell ({[name]} ∪ g) c) -> ends_within n (run_cell g (Def name :: c)).
Proof. done. Qed.

Lemma run_cell_class g name c n :
  ends_within n (run_cell ({[name]} ∪ g) c) ->
  ends_within n (run_cell g (Class name :: c)).
Proof. done. Qed.

Lemma run_cell_run g body c n n' :
  bounded n (body g) -> ends_within n' (run_cell g c) ->
  ends_within (n + n') (run_cell g (Run body :: c)).
Proof.
  unfold bounded, ends_within, observe, run_cell. simpl.
  destruct (body g) as [t [e|[]]]; simpl; [lia|].
  destruct (exec_cell g c) as [[g' t'] o]. simpl. rewrite length_app. lia.
Qed.

Ltac bounded_function :=
  lazymatch goal with
  | |- bounded _ (WandbTutorial.check_wandb_installation _) =>
      exact (functions_bounded ∅ F_check_wandb_installation)
  | |- bounded _ (PytorchGpu.check_gpu_availability _) =>
      exact (functions_bounded ∅ F_check_gpu_availability)
  | |- bounded _ (PytorchGpu.demonstrate_gpu_operations _) =>
      exact (functions_bounded ∅ F_demonstrate_gpu_operations)
  | |- bounded _ (PytorchGpu.benchmark_operations _) =>
      exact (functions_bounded ∅ F_benchmark_operations)
  | |- bounded _ (PytorchGpu.demonstrate_memory_management _) =>
      exact (functions_bounded ∅ F_demonstrate_memory_management)
  | |- bounded _ (PytorchGpu.check_multi_gpu _) =>
      exact (functions_bounded ∅ F_check_multi_gpu)
  | |- bounded _ (LocalSetup.get_os_info _) => exact (functions_bounded ∅ F_get_os_info)
  | |- bounded _ (LocalSetup.show_conda_instructions _ ?g) =>
      exact (functions_bounded g F_show_conda_instructions)
  | |- bounded _ LocalSetup.show_environment_setup =>
      exact (functions_bounded ∅ F_show_environment_setup)
  | |- bounded _ (LocalSetup.show_package_installation _ ?g) =>
      exact (functions_bounded g F_show_package_installation)
  | |- bounded _ (LocalSetup.verify_setup _) => exact (functions_bounded ∅ F_verify_setup)
  | |- bounded _ (LocalSetup.show_troubleshooting _ ?g) =>
      exact (functions_bounded g F_show_troubleshooting)
  | |- bounded _ (Cifar10.imshow _) => exact (functions_bounded ∅ F_imshow)
  | |- bounded _ (Cifar10.__init__ _) => exact (functions_bounded ∅ F_CIFAR10Net_init)
  | |- bounded _ (Cifar10.train_model _ ?g ?n) => exact (functions_bounded g (F_train_model n))
  | |- bounded _ (Cifar10.evaluate_model _ ?obs) =>
      exact (functions_bounded ∅ (F_evaluate_model obs))
  | |- bounded _ (Cifar10.visualize_predictions _ ?g ?n) =>
      exact (functions_bounded g (F_visualize_predictions n))
  end.

Ltac bounded_cell_step :=
  lazymatch goal with
  | |- ends_within _ (run_cell _ []) => apply run_cell_nil
  | |- ends_within _ (run_cell _ (Def _ :: _)) => apply run_cell_def
  | |- ends_within _ (run_cell _ (Class _ :: _)) => apply run_cell_class
  | |- ends_within _ (run_cell _ (Run _ :: _)) =>
      eapply run_cell_run;
      [cbv beta; autounfold with cells; repeat first [bounded_step | bounded_function]|]
  end.

Lemma cells_bounded g nb i c :
  cells_of w nb !! i = Some c -> ends_within (cell_steps w) (run_cell g c).
Proof.
  intros Hc. each_cell nb i Hc;
    (eapply ends_within_le;
     [repeat bounded_cell_step|unfold cell_steps; first [lia | cbn [steps]; lia | simpl; lia]]).
Qed.

(** C3.  A call of any function, with any arguments, in any kernel and
    whatever the libraries answer, comes to its end (it returns or raises)
    after at most [steps] interactions, a number fixed by the lists its
    loops run over: the epochs, the batches the loaders yield, the samples
    of a batch, the GPUs, three matrix sizes, ten classes.  So does every
    cell, after [cell_steps] interactions. *)
Theorem every_run_ends :
  (forall g f, ends_within (steps w f) (run_function w g f)) /\
  (forall g nb i c, cells_of w nb !! i = Some c -> ends_within (cell_steps w) (run_cell g c)).
Proof. split; [apply functions_bounded|apply cells_bounded]. Qed.

End Termination.

(** ** The shapes through [CIFAR10Net.forward] *)

Section Forward.
Context `{PyFloat} (w : world).
Import Cifar10.

Lemma apply_layer_ok callee f x y :
  lib_ok w -> f x = Some y ->
  apply_layer w callee f x = ([ECall callee [Pos (expr_ "x")]], inr y).
Proof.
  intros Hw Hf. unfold apply_layer. rewrite (call_ok w) by done. simpl. by rewrite Hf.
Qed.

Lemma apply_layer_outcome callee f x y :
  lib_ok w -> f x = Some y -> outcome (apply_layer w callee f x) = inr y.
Proof. intros Hw Hf. by rewrite (apply_layer_ok _ _ _ _ Hw Hf). Qed.

(** A 3x3 convolution with padding 1 keeps height and width. *)
Lemma conv2d_same_size c_in c_out n h :
  1 <= h ->
  conv2d_shape {| in_channels := c_in; out_channels := c_out; kernel_size := 3; padding := 1 |}
    [n; c_in; h; h] = Some [n; c_out; h; h].
Proof.
  intros Hh. unfold conv2d_shape, conv_out; simpl.
  rewrite Z.eqb_refl. replace (h + 2 * 1 - 3 + 1) with h by lia.
  destruct (Z.leb_spec 1 h); [done|lia].
Qed.

Lemma batch_norm2d_same_shape training c n h :
  0 <= n -> 2 <= h ->
  batch_norm2d_shape training {| num_features := c |} [n; c; h; h] = Some [n; c; h; h].
Proof.
  intros Hn Hh. unfold batch_norm2d_shape; simpl. rewrite Z.eqb_refl.
  destruct (Z.eqb_spec (n * h * h) 1) as [E|_]; [|by destruct training].
  exfalso. assert (4 <= h * h) by nia.
  destruct (Z.eq_dec n 0) as [->|]; [lia|]. nia.
Qed.

(** The 2x2 pooling with stride 2 halves an even height and width. *)
Lemma max_pool2d_halves n c h :
  1 <= h ->
  max_pool2d_shape {| pool_kernel := 2; pool_stride := 2 |} [n; c; 2 * h; 2 * h]
  = Some [n; c; h; h].
Proof.
  intros Hh. unfold max_pool2d_shape, pool_out; simpl.
  replace ((2 * h - 2) `div` 2 + 1) with h
    by (rewrite <- (Z.div_unique (2 * h - 2) 2 (h - 1) 0); lia).
  destruct (Z.leb_spec 1 h); [done|lia].
Qed.

(** [x.view(-1, 128 * 4 * 4)] is exact on [n] maps of 128 x 4 x 4. *)
Lemma view_flattens n :
  view_shape (128 * 4 * 4) [n; 128; 4; 4] = Some [n; 2048].
Proof.
  unfold view_shape, numel; simpl.
  rewrite Z.mod_mul by done. simpl.
  by rewrite Z.div_mul.
Qed.

Lemma conv_block_shape cn bn c_in c_out training n h :
  lib_ok w -> 0 <= n -> 1 <= h ->
  outcome (conv_block w cn bn
             {| in_channels := c_in; out_channels := c_out; kernel_size := 3; padding := 1 |}
             {| num_features := c_out |} {| pool_kernel := 2; pool_stride := 2 |}
             training [n; c_in; 2 * h; 2 * h])
  = inr [n; c_out; h; h].
Proof.
  intros Hw Hn Hh. unfold conv_block.
  rewrite outcome_bind,
    (apply_layer_outcome _ _ _ _ Hw (conv2d_same_size c_in c_out n (2 * h) ltac:(lia))).
  rewrite outcome_bind,
    (apply_layer_outcome _ _ _ _ Hw
       (batch_norm2d_same_shape training c_out n (2 * h) Hn ltac:(lia))).
  rewrite outcome_bind, (apply_layer_outcome _ _ _ [n; c_out; 2 * h; 2 * h] Hw) by done.
  by apply apply_layer_outcome, max_pool2d_halves.
Qed.

Lemma hidden_shape self n :
  lib_ok w -> outcome (__init__ w) = inr self ->
  outcome (hidden w self [n; 2048]) = inr [n; 512].
Proof.
  intros Hw Hself. rewrite (init_layers w self Hself). unfold the_layers. unfold hidden.
  rewrite outcome_bind, (apply_layer_outcome _ _ _ [n; 512] Hw) by done.
  rewrite outcome_bind, (apply_layer_outcome _ _ _ [n; 512] Hw) by done.
  by apply apply_layer_outcome.
Qed.

(** C10.  For the network [self] that [CIFAR10Net()] builds, in training or
    in evaluation mode, and a batch of shape (n, 3, 32, 32): the three
    convolutions keep the spatial size and the three poolings halve it,
    32 -> 16 -> 8 -> 4; the view to (-1, 128 * 4 * 4) is exact; the hidden
    layer maps 2048 features to 512; [forward] returns shape (n, 10). *)
Theorem forward_shape self training n :
  lib_ok w -> outcome (__init__ w) = inr self -> 0 <= n ->
  conv2d_shape (conv1 self) [n; 3; 32; 32] = Some [n; 32; 32; 32] /\
  conv2d_shape (conv2 self) [n; 32; 16; 16] = Some [n; 64; 16; 16] /\
  conv2d_shape (conv3 self) [n; 64; 8; 8] = Some [n; 128; 8; 8] /\
  max_pool2d_shape (pool self) [n; 32; 32; 32] = Some [n; 32; 16; 16] /\
  max_pool2d_shape (pool self) [n; 64; 16; 16] = Some [n; 64; 8; 8] /\
  max_pool2d_shape (pool self) [n; 128; 8; 8] = Some [n; 128; 4; 4] /\
  view_shape (128 * 4 * 4) [n; 128; 4; 4] = Some [n; 2048] /\
  outcome (hidden w self [n; 2048]) = inr [n; 512] /\
  outcome (forward w self training [n; 3; 32; 32]) = inr [n; 10].
Proof.
  intros Hw Hself Hn.
  pose proof (hidden_shape self n Hw Hself) as Hhidden.
  pose proof (init_layers w self Hself) as Es. subst self. unfold the_layers in *.
  cbn [conv1 conv2 conv3 pool].
  split; [by apply conv2d_same_size|].
  split; [by apply conv2d_same_size|].
  split; [by apply conv2d_same_size|].
  split; [apply (max_pool2d_halves n 32 16); lia|].
  split; [apply (max_pool2d_halves n 64 8); lia|].
  split; [apply (max_pool2d_halves n 128 4); lia|].
  split; [apply view_flattens|].
  split; [done|].
  unfold forward. cbn [conv1 conv2 conv3 pool batch_norm1 batch_norm2 batch_norm3 fc2].
  rewrite outcome_bind, (conv_block_shape _ _ 3 32 training n 16 Hw Hn ltac:(lia)).
  rewrite outcome_bind, (conv_block_shape _ _ 32 64 training n 8 Hw Hn ltac:(lia)).
  rewrite outcome_bind, (conv_block_shape _ _ 64 128 training n 4 Hw Hn ltac:(lia)).
  rewrite outcome_bind, (apply_layer_outcome _ _ _ _ Hw (view_flattens n)).
  rewrite outcome_bind, Hhidden.
  rewrite outcome_bind, (apply_layer_outcome _ _ _ [n; 10] Hw) by done.
  done.
Qed.

End Forward.

(** ** The accuracy [evaluate_model] returns *)

Section Evaluate.
Context `{PyFloat} (w : world).
Import Cifar10.

Lemma counts_lookup f l : 0 <= l < 10 -> counts f !! Z.to_nat l = Some (f l).
Proof.
  intros Hl. assert (Hc : l = 0 \/ l = 1 \/ l = 2 \/ l = 3 \/ l = 4 \/ l = 5 \/ l = 6 \/ l = 7 \/ l = 8 \/ l = 9) by lia.
  destruct Hc as [->|[->|[->|[->|[->|[->|[->|[->|[->| ->]]]]]]]]]; reflexivity.
Qed.

Lemma counts_insert f g l v :
  0 <= l < 10 -> g l = v -> (forall c, c <> l -> g c = f c) ->
  <[Z.to_nat l := v]> (counts f) = counts g.
Proof.
  intros Hl Hv Hg. assert (Hc : l = 0 \/ l = 1 \/ l = 2 \/ l = 3 \/ l = 4 \/ l = 5 \/ l = 6 \/ l = 7 \/ l = 8 \/ l = 9) by lia.
  subst v. unfold counts.
  rewrite range_10.
  destruct Hc as [->|[->|[->|[->|[->|[->|[->|[->|[->| ->]]]]]]]]]; simpl;
    repeat match goal with |- context [g ?c] => rewrite (Hg c) by lia end; reflexivity.
Qed.

Lemma class_count_snoc xs p l c :
  class_count (xs ++ [(p, l)]) c = class_count xs c + (if l =? c then 1 else 0).
Proof.
  unfold class_count. rewrite List.filter_app, length_app. simpl.
  destruct (l =? c); simpl; lia.
Qed.

Lemma class_hits_snoc xs p l c :
  class_hits (xs ++ [(p, l)]) c
  = class_hits xs c + (if (l =? c) && (p =? l) then 1 else 0).
Proof.
  unfold class_hits, is_hit. rewrite List.filter_app, length_app. simpl.
  destruct ((l =? c) && (p =? l)); simpl; lia.
Qed.

Lemma count_sample_run c seen t i p l :
  lib_ok w -> length c <> 1%nat -> 0 <= i -> c !! Z.to_nat i = Some (p =? l) ->
  0 <= l < 10 -> counted seen t ->
  exists t', count_sample w c t (i, l) = ([ECall "c[i].item" []], inr t') /\
             counted (seen ++ [(p, l)]) t' /\
             correct t' = correct t /\ total t' = total t.
Proof.
  intros Hw Hc Hi Hci Hl [Hcc Hct]. unfold count_sample.
  rewrite (py_index_ok _ l (class_hits seen l)), bind_ret_l
    by (lia || (rewrite Hcc; by apply counts_lookup)).
  unfold squeezed_index. destruct (Nat.eqb_spec (length c) 1) as [|_]; [done|].
  rewrite (py_index_ok _ i (p =? l)), bind_ret_l by done.
  rewrite (call_ok w) by done.
  rewrite py_setitem_ok, bind_ret_l
    by (rewrite Hcc; unfold counts; rewrite length_map; rewrite range_10; simpl; lia).
  rewrite (py_index_ok _ l (class_count seen l)), bind_ret_l
    by (lia || (rewrite Hct; by apply counts_lookup)).
  rewrite py_setitem_ok, bind_ret_l
    by (rewrite Hct; unfold counts; rewrite length_map; rewrite range_10; simpl; lia).
  eexists. split; [reflexivity|]. split; [|done]. split; simpl.
  - rewrite Hcc. apply counts_insert; [done| |].
    + rewrite class_hits_snoc, Z.eqb_refl. simpl. by destruct (p =? l).
    + intros c' Hc'. rewrite class_hits_snoc.
      destruct (Z.eqb_spec l c'); [congruence|]. simpl. lia.
  - rewrite Hct. apply counts_insert; [done| |].
    + by rewrite class_count_snoc, Z.eqb_refl.
    + intros c' Hc'. rewrite class_count_snoc.
      destruct (Z.eqb_spec l c'); [congruence|]. lia.
Qed.

Lemma hits_lookup b pre p l suf :
  samples b = pre ++ (p, l) :: suf -> hits b !! length pre = Some (p =? l).
Proof.
  intros Hb. unfold hits. rewrite Hb, list_lookup_fmap, list_lookup_middle; done.
Qed.

Lemma count_samples_run b seen suf : forall pre t,
  lib_ok w -> length (samples b) <> 1%nat -> samples b = pre ++ suf ->
  (forall p l, In (p, l) suf -> 0 <= l < 10) ->
  counted (seen ++ pre) t ->
  exists t',
    for_fold (combine (map Z.of_nat (seq (length pre) (length (map snd suf))))
                      (map snd suf)) t (count_sample w (hits b))
    = (map (fun _ => ECall "c[i].item" []) suf, inr t') /\
    counted (seen ++ samples b) t' /\ correct t' = correct t /\ total t' = total t.
Proof.
  induction suf as [|[p l] suf IH]; intros pre t Hw Hlen Hb Hl Ht.
  - exists t. rewrite Hb, app_nil_r. done.
  - cbn [length map seq combine for_fold snd].
    destruct (count_sample_run (hits b) (seen ++ pre) t (Z.of_nat (length pre)) p l)
      as (t1 & Ht1 & Hc1 & Hcorr & Htot); try done.
    + unfold hits. by rewrite length_map.
    + lia.
    + rewrite Nat2Z.id. by eapply hits_lookup.
    + apply (Hl p). by left.
    + destruct (IH (pre ++ [(p, l)]) t1) as (t2 & Ht2 & Hc2 & Hcorr2 & Htot2); try done.
      * by rewrite <- app_assoc.
      * intros p' l' Hin. apply (Hl p'). by right.
      * by rewrite app_assoc.
      * exists t2. rewrite length_app, Nat.add_1_r in Ht2. rewrite length_map in *.
        split; [|split; [done|split; congruence]].
        by apply (bind_run _ _ [ECall "c[i].item" []] t1).
Qed.

Lemma count_hits_correct b : count_hits b = n_correct (samples b).
Proof.
  unfold count_hits, n_correct, hits. f_equal.
  induction (samples b) as [|pl xs IH]; [done|]. simpl.
  unfold is_hit at 1. destruct (fst pl =? snd pl); simpl; by rewrite IH.
Qed.

Lemma n_correct_app xs ys : n_correct (xs ++ ys) = n_correct xs + n_correct ys.
Proof. unfold n_correct. rewrite List.filter_app, length_app. lia. Qed.

Lemma n_total_app xs ys : n_total (xs ++ ys) = n_total xs + n_total ys.
Proof. unfold n_total. rewrite length_app. lia. Qed.

Lemma all_samples_snoc obs b : all_samples (obs ++ [b]) = all_samples obs ++ samples b.
Proof. unfold all_samples. rewrite flat_map_app. simpl. by rewrite app_nil_r. Qed.

Lemma eval_batch_run seen t b :
  lib_ok w -> (2 <= length (samples b))%nat ->
  (forall p l, In (p, l) (samples b) -> 0 <= l < 10) ->
  tallied seen t ->
  exists t', eval_batch w t b = (eval_batch_calls b, inr t') /\ tallied (seen ++ [b]) t'.
Proof.
  intros Hw Hlen Hl (Hc & Hcorr & Htot). unfold eval_batch.
  rewrite !(call_ok w) by done.
  destruct (count_samples_run b (all_samples seen) (samples b) []
              {| correct := correct t + count_hits b; total := total t + batch_len b;
                 class_correct := class_correct t; class_total := class_total t |})
    as (t' & Ht' & Hc' & Hcorr' & Htot'); try done.
  - lia.
  - by rewrite app_nil_r.
  - exists t'. unfold enumerate. cbn [length] in Ht'. rewrite Ht'. split; [done|].
    unfold tallied. rewrite all_samples_snoc, n_correct_app, n_total_app.
    split; [done|]. rewrite Hcorr', Htot'. simpl.
    rewrite Hcorr, Htot, count_hits_correct. done.
Qed.

Lemma eval_batch_ok seen t b :
  lib_ok w -> (2 <= length (samples b))%nat ->
  (forall p l, In (p, l) (samples b) -> 0 <= l < 10) ->
  tallied seen t ->
  exists t', outcome (eval_batch w t b) = inr t' /\ tallied (seen ++ [b]) t'.
Proof.
  intros Hw Hlen Hl Ht. destruct (eval_batch_run seen t b Hw Hlen Hl Ht) as (t' & Hrun & Ht').
  exists t'. by rewrite Hrun.
Qed.

Lemma class_count_pos xs c : In c (map snd xs) -> 0 < class_count xs c.
Proof.
  intros Hin. apply in_map_iff in Hin as ([p l] & Hl & Hin). simpl in Hl. subst l.
  unfold class_count.
  assert (Hf : In (p, c) (List.filter (fun pl => snd pl =? c) xs)).
  { apply List.filter_In. split; [done|]. simpl. apply Z.eqb_refl. }
  destruct (List.filter _ xs); [done|]. simpl. lia.
Qed.

Lemma print_class_accuracy_ok seen t i :
  counted seen t -> 0 <= i < 10 -> 0 < class_count seen i ->
  outcome (print_class_accuracy t i) = inr tt.
Proof.
  intros [Hcc Hct] Hi Hpos. unfold print_class_accuracy.
  assert (Hname : exists name, classes !! Z.to_nat i = Some name).
  { apply lookup_lt_is_Some. simpl. lia. }
  destruct Hname as [name Hname].
  rewrite (py_index_ok _ i name), bind_ret_l by (done || lia).
  rewrite (py_index_ok _ i (class_hits seen i)), bind_ret_l
    by (lia || (rewrite Hcc; by apply counts_lookup)).
  rewrite (py_index_ok _ i (class_count seen i)), bind_ret_l
    by (lia || (rewrite Hct; by apply counts_lookup)).
  rewrite truediv_ok, bind_ret_l by done. done.
Qed.

Lemma n_correct_le xs : 0 <= n_correct xs <= n_total xs.
Proof.
  unfold n_correct, n_total. pose proof (List.filter_length_le is_hit xs). lia.
Qed.

(** [evaluate_model] returns the share of the samples predicted as their
    label. *)
Lemma evaluate_model_returns obs :
  lib_ok w -> labels_are_classes obs -> every_class_present obs ->
  at_least_two_per_batch obs ->
  0 < n_total (all_samples obs) /\
  outcome (evaluate_model w obs)
  = inr (100 * n_correct (all_samples obs) # Z.to_pos (n_total (all_samples obs))).
Proof.
  intros Hw Hlabels Hclasses Htwo. unfold evaluate_model.
  do 2 (rewrite outcome_bind, call_outcome by done).
  destruct (for_fold_returns
              (fun b => (2 <= length (samples b))%nat /\
                        forall p l, In (p, l) (samples b) -> 0 <= l < 10)
              tallied (eval_batch w) obs) with (seen := @nil batch) (s := tally0)
    as (t & Ht & (Hc & Hcorr & Htot)).
  - apply Forall_forall. intros b Hb. split.
    + unfold at_least_two_per_batch in Htwo. rewrite Forall_forall in Htwo. by apply Htwo.
    + intros p l Hpl. unfold labels_are_classes in Hlabels. rewrite Forall_forall in Hlabels.
      apply (Hlabels (p, l)). apply list_elem_of_In, in_flat_map. exists b.
      split; [by apply list_elem_of_In|done].
  - intros seen s b [Hlen Hl] Hs. by apply eval_batch_ok.
  - done.
  - rewrite app_nil_l in *. rewrite outcome_bind, Ht.
    assert (Hpos : 0 < n_total (all_samples obs)).
    { pose proof (Hclasses 0 ltac:(lia)) as Hin.
      unfold n_total. destruct (all_samples obs); [done|]. simpl. lia. }
    split; [done|].
    rewrite outcome_bind, (for_each_returns (fun i => 0 <= i < 10)).
    + by rewrite Hcorr, Htot, truediv_ok.
    + rewrite range_10. repeat constructor; lia.
    + intros i Hi. apply (print_class_accuracy_ok (all_samples obs)); [done..|].
      apply class_count_pos. by apply Hclasses.
Qed.

(** The line of class [i]. *)
Lemma print_class_accuracy_line seen t i :
  counted seen t -> 0 <= i < 10 -> 0 < class_count seen i ->
  print_class_accuracy t i = ([class_line seen i], inr tt).
Proof.
  intros [Hcc Hct] Hi Hpos. unfold print_class_accuracy, class_line.
  assert (Hname : exists name, classes !! Z.to_nat i = Some name).
  { apply lookup_lt_is_Some. simpl. lia. }
  destruct Hname as [name Hname].
  rewrite (py_index_ok _ i name), bind_ret_l by (done || lia).
  rewrite (py_index_ok _ i (class_hits seen i)), bind_ret_l
    by (lia || (rewrite Hcc; by apply counts_lookup)).
  rewrite (py_index_ok _ i (class_count seen i)), bind_ret_l
    by (lia || (rewrite Hct; by apply counts_lookup)).
  rewrite truediv_ok, bind_ret_l by done. by rewrite Hname.
Qed.

(** All that [evaluate_model] does over a pass that meets its
    precondition. *)
Lemma evaluate_model_runs obs :
  lib_ok w -> labels_are_classes obs -> every_class_present obs ->
  at_least_two_per_batch obs ->
  evaluate_model w obs
  = (eval_events obs,
     inr (100 * n_correct (all_samples obs) # Z.to_pos (n_total (all_samples obs)))).
Proof.
  intros Hw Hlabels Hclasses Htwo.
  destruct (evaluate_model_returns obs Hw Hlabels Hclasses Htwo) as [Hpos _].
  destruct (for_fold_runs
              (fun b => (2 <= length (samples b))%nat /\
                        forall p l, In (p, l) (samples b) -> 0 <= l < 10)
              tallied eval_batch_calls (eval_batch w) obs) with (seen := @nil batch) (s := tally0)
    as (t & Ht & (Hc & Hcorr & Htot)).
  - apply Forall_forall. intros b Hb. split.
    + unfold at_least_two_per_batch in Htwo. rewrite Forall_forall in Htwo. by apply Htwo.
    + intros p l Hpl. unfold labels_are_classes in Hlabels. rewrite Forall_forall in Hlabels.
      apply (Hlabels (p, l)). apply list_elem_of_In, in_flat_map. exists b.
      split; [by apply list_elem_of_In|done].
  - intros seen s b [Hlen Hl] Hs. by apply eval_batch_run.
  - done.
  - rewrite app_nil_l in *. unfold evaluate_model, eval_events.
    apply (bind_run _ _ [ECall "model.eval" []] tt); [by apply call_ok|].
    apply (bind_run _ _ [ECall "torch.no_grad" []] tt); [by apply call_ok|].
    apply (bind_run _ _ _ t _ _ Ht).
    rewrite <- (app_nil_r (map _ _)).
    apply (bind_run _ _ _ tt).
    + rewrite <- flat_map_singleton. apply for_each_trace. intros i Hi.
      apply print_class_accuracy_line; [done| |].
      * rewrite range_10 in Hi. simpl in Hi. lia.
      * apply class_count_pos, Hclasses. rewrite range_10 in Hi. simpl in Hi. lia.
    + rewrite Hcorr, Htot. by apply truediv_ok.
Qed.

(** C8.  Over a pass of the test loader whose labels are class indices,
    with every class present and at least two samples in every batch,
    [evaluate_model] raises nothing: every index and every division, by
    [total] and by each [class_total[i]], is defined.  After the calls for
    the batches and their samples it prints, for the classes 0 to 9 in
    order, 100 * class_correct[i] / class_total[i], each [class_total[i]]
    being the positive number of samples of class [i].  It returns
    100 * correct / total, where correct counts the samples predicted as
    their label and total all samples, a value between 0 and 100. *)
Theorem evaluate_model_accuracy obs :
  lib_ok w -> labels_are_classes obs -> every_class_present obs ->
  at_least_two_per_batch obs ->
  exists q,
    evaluate_model w obs = (eval_events obs, inr q) /\
    eval_events obs
    = [ECall "model.eval" []; ECall "torch.no_grad" []] ++ flat_map eval_batch_calls obs
      ++ map (class_line (all_samples obs)) (range 10) /\
    (forall i, 0 <= i < 10 -> 0 < class_count (all_samples obs) i) /\
    q = (100 * n_correct (all_samples obs) # Z.to_pos (n_total (all_samples obs))) /\
    0 < n_total (all_samples obs) /\
    (0 <= q <= 100)%Q.
Proof.
  intros Hw Hlabels Hclasses Htwo.
  destruct (evaluate_model_returns obs Hw Hlabels Hclasses Htwo) as [Hpos _].
  eexists. split; [by apply evaluate_model_runs|]. split; [done|].
  split; [intros i Hi; by apply class_count_pos, Hclasses|].
  split; [done|]. split; [done|].
  pose proof (n_correct_le (all_samples obs)).
  unfold Qle; simpl. rewrite Z2Pos.id by done. lia.
Qed.

End Evaluate.

(** ** The metrics [train_model] logs during an epoch *)

Section Train.
Context `{PyFloat} (w : world).
Import Cifar10.

Lemma logs_app t1 t2 : logs (t1 ++ t2) = logs t1 ++ logs t2.
Proof. unfold logs. apply flat_map_app. Qed.

Lemma enumerate_from_app i0 {A} (xs ys : list A) :
  enumerate_from i0 (xs ++ ys) = enumerate_from i0 xs ++ enumerate_from (i0 + length xs) ys.
Proof.
  revert i0. induction xs as [|x xs IH]; intros i0.
  - simpl. by rewrite Nat.add_0_r.
  - unfold enumerate_from in *. cbn [app length seq map combine]. f_equal.
    rewrite IH. by rewrite Nat.add_succ_r.
Qed.

Lemma accumulated_snoc pre b :
  {| running_loss := fadd (running_loss (accumulated pre)) (loss b);
     seen_correct := seen_correct (accumulated pre) + count_hits b;
     seen_total := seen_total (accumulated pre) + batch_len b |}
  = accumulated (pre ++ [b]).
Proof.
  unfold accumulated, loss_sum; simpl.
  rewrite map_app, fold_left_app, all_samples_snoc, n_correct_app, n_total_app.
  by rewrite count_hits_correct.
Qed.

(** One batch that does not end a window: nothing is logged. *)
Lemma train_batch_inside epoch pre i b :
  lib_ok w -> i mod 100 <> 99 ->
  logs (trace (train_batch w epoch (accumulated pre) (i, b))) = [] /\
  outcome (train_batch w epoch (accumulated pre) (i, b)) = inr (accumulated (pre ++ [b])).
Proof.
  intros Hw Hi. unfold train_batch. rewrite !(call_ok w) by done.
  destruct (Z.eqb_spec (i mod 100) 99) as [|_]; [done|].
  rewrite accumulated_snoc. done.
Qed.

(** The batch that ends a window: the window's statistics are logged and
    the counters start again from zero. *)
Lemma train_batch_last epoch pre i b :
  lib_ok w -> i mod 100 = 99 -> 0 < n_total (all_samples (pre ++ [b])) ->
  logs (trace (train_batch w epoch (accumulated pre) (i, b))) = [window_log epoch (pre ++ [b])] /\
  outcome (train_batch w epoch (accumulated pre) (i, b)) = inr running0.
Proof.
  intros Hw Hi Hpos. unfold train_batch. rewrite !(call_ok w) by done.
  destruct (Z.eqb_spec (i mod 100) 99) as [_|]; [|done].
  rewrite accumulated_snoc. cbn [accumulated seen_correct seen_total running_loss].
  rewrite truediv_ok, bind_ret_l by done. rewrite !(call_ok w) by done.
  split; reflexivity.
Qed.

Lemma window_index k j : (j < 100)%nat -> Z.of_nat (100 * k + j) mod 100 = Z.of_nat j.
Proof.
  intros Hj. rewrite Nat2Z.inj_add, Nat2Z.inj_mul, Z.add_comm, Z.mul_comm.
  rewrite Z.mod_add by done. apply Z.mod_small. lia.
Qed.

(** Inside a window nothing is logged and the statistics accumulate. *)
Lemma batch_loop_inside epoch k suf : forall pre,
  lib_ok w -> (length pre + length suf < 100)%nat ->
  logs (trace (batch_loop w epoch (100 * k + length pre) suf (accumulated pre))) = [] /\
  outcome (batch_loop w epoch (100 * k + length pre) suf (accumulated pre))
  = inr (accumulated (pre ++ suf)).
Proof.
  unfold batch_loop.
  induction suf as [|b suf IH]; intros pre Hw Hlen.
  - by rewrite app_nil_r.
  - unfold enumerate_from. cbn [length seq map combine for_fold].
    destruct (train_batch_inside epoch pre (Z.of_nat (100 * k + length pre)) b Hw)
      as [Hlogs Hout].
    { rewrite window_index by (simpl in Hlen; lia). simpl in Hlen. lia. }
    destruct (IH (pre ++ [b]) Hw) as [Hlogs' Hout'].
    { rewrite length_app. simpl in *. lia. }
    rewrite length_app, Nat.add_assoc, Nat.add_1_r in Hlogs', Hout'.
    unfold enumerate_from in Hlogs', Hout'.
    rewrite trace_bind, outcome_bind, Hout, logs_app, Hlogs, Hlogs', Hout'.
    by rewrite <- app_assoc.
Qed.

(** A complete window: its statistics are logged once, at its last batch,
    and the counters are back at zero. *)
Lemma batch_loop_window epoch k win :
  lib_ok w -> length win = 100%nat -> 0 < n_total (all_samples win) ->
  logs (trace (batch_loop w epoch (100 * k) win running0)) = [window_log epoch win] /\
  outcome (batch_loop w epoch (100 * k) win running0) = inr running0.
Proof.
  intros Hw Hlen Hne.
  destruct (exists_last (l := win)) as (pre & b & ->); [by destruct win|].
  rewrite length_app in Hlen. simpl in Hlen.
  destruct (batch_loop_inside epoch k pre [] Hw) as [Hlogs Hout]; [simpl; lia|].
  rewrite Nat.add_0_r in Hlogs, Hout. change (accumulated []) with running0 in *.
  rewrite app_nil_l in Hout.
  destruct (train_batch_last epoch pre (Z.of_nat (100 * k + length pre)) b Hw)
    as [Hlogs' Hout'].
  { rewrite window_index by lia. lia. }
  { done. }
  unfold batch_loop in *. rewrite enumerate_from_app, for_fold_app.
  rewrite trace_bind, outcome_bind, Hout, logs_app, Hlogs.
  unfold enumerate_from at 1 2. cbn [length seq map combine for_fold].
  rewrite trace_bind, outcome_bind, Hout', logs_app, Hlogs'. done.
Qed.

Lemma batch_loop_logs epoch n : forall bs k,
  lib_ok w -> Forall (fun win => 0 < n_total (all_samples win)) (windows n bs) ->
  (length bs / 100 = n)%nat ->
  logs (trace (batch_loop w epoch (100 * k) bs running0))
  = map (window_log epoch) (windows n bs) /\
  exists r, outcome (batch_loop w epoch (100 * k) bs running0) = inr r.
Proof.
  induction n as [|n IH]; intros bs k Hw Hne Hn.
  - assert (Hlt : (length bs < 100)%nat).
    { destruct (Nat.lt_ge_cases (length bs) 100) as [|Hge]; [done|].
      apply (Nat.Div0.div_le_mono _ _ 100) in Hge. rewrite Nat.div_same in Hge by done. lia. }
    destruct (batch_loop_inside epoch k bs [] Hw) as [Hlogs Hout]; [simpl; lia|].
    rewrite Nat.add_0_r in Hlogs, Hout. split; [done|]. eauto.
  - assert (Hge : (100 <= length bs)%nat).
    { destruct (Nat.lt_ge_cases (length bs) 100) as [Hlt|]; [|done].
      rewrite Nat.div_small in Hn by done. done. }
    replace (batch_loop w epoch (100 * k) bs running0)
      with (batch_loop w epoch (100 * k) (take 100 bs ++ drop 100 bs) running0)
      by (by rewrite take_drop).
    destruct (batch_loop_window epoch k (take 100 bs) Hw) as [Hlogs Hout].
    { rewrite length_take. lia. }
    { by inversion Hne. }
    destruct (IH (drop 100 bs) (S k) Hw) as [Hlogs' [r Hout']].
    { by inversion Hne. }
    { rewrite length_drop.
      replace (length bs) with ((length bs - 100) + 1 * 100)%nat in Hn by lia.
      rewrite Nat.div_add in Hn by done. lia. }
    unfold batch_loop in *. rewrite enumerate_from_app, for_fold_app.
    rewrite length_take, Nat.min_l by done.
    replace (100 * k + 100)%nat with (100 * S k)%nat by lia.
    rewrite trace_bind, outcome_bind, Hout, logs_app, Hlogs, Hlogs'. split; [done|]. eauto.
Qed.

Lemma logs_nil {A} (m : M A) : traced (fun ev => logs [ev] = []) m -> logs (trace m) = [].
Proof.
  unfold traced. induction 1 as [|ev t Hev _ IH]; [done|].
  change (ev :: t) with ([ev] ++ t). by rewrite logs_app, Hev, IH.
Qed.

(** A batch whose index is not 99 modulo 100 logs nothing, whatever the
    statistics and whatever the libraries do. *)
Lemma train_batch_silent epoch r i b :
  i mod 100 <> 99 -> logs (trace (train_batch w epoch r (i, b))) = [].
Proof.
  intros Hi. apply logs_nil. unfold train_batch.
  destruct (Z.eqb_spec (i mod 100) 99) as [|_]; [done|].
  repeat traced_step.
Qed.

(** *** The batch loop, interaction by interaction *)

Lemma train_batch_inside_run epoch pre i b :
  lib_ok w -> i mod 100 <> 99 ->
  train_batch w epoch (accumulated pre) (i, b)
  = (train_batch_calls, inr (accumulated (pre ++ [b]))).
Proof.
  intros Hw Hi. unfold train_batch. rewrite !(call_ok w) by done.
  destruct (Z.eqb_spec (i mod 100) 99) as [|_]; [done|].
  rewrite accumulated_snoc. done.
Qed.

Lemma train_batch_last_run epoch pre i b :
  lib_ok w -> i mod 100 = 99 -> 0 < n_total (all_samples (pre ++ [b])) ->
  train_batch w epoch (accumulated pre) (i, b)
  = (train_batch_calls
     ++ [ECall "wandb.log" (window_log epoch (pre ++ [b]));
         EPrint [Lit "["; Fmt (VInt (epoch + 1)) ""; Lit ", "; Fmt (VInt (i + 1)) "5d";
                 Lit "] loss: "; Fmt (VFloat (fdiv_int (loss_sum (pre ++ [b])) 100)) ".3f";
                 Lit ", accuracy: ";
                 Fmt (VRat (100 * n_correct (all_samples (pre ++ [b]))
                            # Z.to_pos (n_total (all_samples (pre ++ [b]))))) ".2f";
                 Lit "%"]],
     inr running0).
Proof.
  intros Hw Hi Hpos. unfold train_batch. rewrite !(call_ok w) by done.
  destruct (Z.eqb_spec (i mod 100) 99) as [_|]; [|done].
  rewrite accumulated_snoc. cbn [accumulated seen_correct seen_total running_loss].
  rewrite truediv_ok, bind_ret_l by done. rewrite !(call_ok w) by done.
  reflexivity.
Qed.

Lemma batch_loop_inside_run epoch k suf : forall pre,
  lib_ok w -> (length pre + length suf < 100)%nat ->
  batch_loop w epoch (100 * k + length pre) suf (accumulated pre)
  = (flat_map (fun _ => train_batch_calls) suf, inr (accumulated (pre ++ suf))).
Proof.
  unfold batch_loop.
  induction suf as [|b suf IH]; intros pre Hw Hlen.
  - by rewrite app_nil_r.
  - unfold enumerate_from. cbn [length seq map combine for_fold flat_map].
    apply (bind_run _ _ _ (accumulated (pre ++ [b]))).
    + apply train_batch_inside_run; [done|].
      rewrite window_index by (simpl in Hlen; lia). simpl in Hlen. lia.
    + specialize (IH (pre ++ [b]) Hw). rewrite length_app, <- app_assoc in IH.
      cbn [length] in IH.
      replace (100 * k + (length pre + 1))%nat with (S (100 * k + length pre)) in IH by lia.
      apply IH. simpl in Hlen. lia.
Qed.

Lemma batch_loop_window_run epoch k win :
  lib_ok w -> length win = 100%nat -> 0 < n_total (all_samples win) ->
  batch_loop w epoch (100 * k) win running0 = (window_trace epoch k win, inr running0).
Proof.
  intros Hw Hlen Hne.
  destruct (exists_last (l := win)) as (pre & b & ->); [by destruct win|].
  rewrite length_app in Hlen. simpl in Hlen.
  assert (Hpre : length pre = 99%nat) by lia.
  pose proof (batch_loop_inside_run epoch k pre [] Hw ltac:(simpl; lia)) as Hin.
  rewrite Nat.add_0_r in Hin. change (accumulated []) with running0 in Hin.
  rewrite app_nil_l in Hin.
  unfold batch_loop in *. rewrite enumerate_from_app, for_fold_app.
  unfold window_trace. rewrite flat_map_app, <- app_assoc.
  apply (bind_run _ _ _ (accumulated pre) _ _ Hin).
  unfold enumerate_from. cbn [length seq map combine for_fold flat_map].
  rewrite <- (app_nil_r ((train_batch_calls ++ []) ++ _)).
  apply (bind_run _ _ _ running0); [|done].
  rewrite app_nil_r, Hpre. apply train_batch_last_run; [done| |done].
  rewrite window_index by lia. lia.
Qed.

Lemma batch_loop_run epoch n : forall bs k,
  lib_ok w -> Forall (fun win => 0 < n_total (all_samples win)) (windows n bs) ->
  (length bs / 100 = n)%nat ->
  exists r, batch_loop w epoch (100 * k) bs running0 = (loop_trace epoch k n bs, inr r).
Proof.
  induction n as [|n IH]; intros bs k Hw Hne Hn.
  - assert (Hlt : (length bs < 100)%nat).
    { destruct (Nat.lt_ge_cases (length bs) 100) as [|Hge]; [done|].
      apply (Nat.Div0.div_le_mono _ _ 100) in Hge. rewrite Nat.div_same in Hge by done. lia. }
    pose proof (batch_loop_inside_run epoch k bs [] Hw ltac:(simpl; lia)) as Hin.
    rewrite Nat.add_0_r in Hin. eauto.
  - assert (Hge : (100 <= length bs)%nat).
    { destruct (Nat.lt_ge_cases (length bs) 100) as [Hlt|]; [|done].
      rewrite Nat.div_small in Hn by done. done. }
    replace (batch_loop w epoch (100 * k) bs running0)
      with (batch_loop w epoch (100 * k) (take 100 bs ++ drop 100 bs) running0)
      by (by rewrite take_drop).
    pose proof (batch_loop_window_run epoch k (take 100 bs) Hw) as Hwin.
    destruct (IH (drop 100 bs) (S k) Hw) as [r Hrest].
    { by inversion Hne. }
    { rewrite length_drop.
      replace (length bs) with ((length bs - 100) + 1 * 100)%nat in Hn by lia.
      rewrite Nat.div_add in Hn by done. lia. }
    exists r. unfold batch_loop in *. rewrite enumerate_from_app, for_fold_app.
    rewrite length_take, Nat.min_l by done.
    replace (100 * k + 100)%nat with (100 * S k)%nat by lia.
    cbn [loop_trace]. apply (bind_run _ _ _ running0); [|done].
    apply Hwin; [rewrite length_take; lia|by inversion Hne].
Qed.

End Train.

(** ** The training loop of the CIFAR-10 notebook *)

Section Training.
Context `{PyFloat} (w : world).
Import Cifar10.

Lemma count_events_app p t1 t2 :
  count_events p (t1 ++ t2) = (count_events p t1 + count_events p t2)%nat.
Proof. unfold count_events. by rewrite List.filter_app, length_app. Qed.

Lemma count_events_none p t : Forall (fun ev => p ev = false) t -> count_events p t = 0%nat.
Proof.
  unfold count_events. induction 1 as [|ev t Hev _ IH]; [done|]. simpl. by rewrite Hev.
Qed.

Lemma count_events_flat_map p {A} (f : A -> list event) n xs :
  (forall x, In x xs -> count_events p (f x) = n) ->
  count_events p (flat_map f xs) = (n * length xs)%nat.
Proof.
  induction xs as [|x xs IH]; intros Hf; [unfold count_events; simpl; lia|].
  cbn [flat_map length]. rewrite count_events_app, (Hf x) by (by left).
  rewrite IH; [lia|]. intros y Hy. apply Hf. by right.
Qed.

Lemma past_first_epoch_none t :
  Forall (fun ev => past_first_epoch ev = false) t ->
  count_events (logs_key "test_accuracy") t = 0%nat /\
  count_events (is_call "wandb.finish") t = 0%nat /\
  count_events (is_call "model.eval") t = 0%nat.
Proof.
  intros Ht. repeat split; apply count_events_none; eapply Forall_impl; try exact Ht;
    unfold past_first_epoch; intros ev Hev; simpl in Hev;
    apply orb_false_elim in Hev as [Hev ?]; apply orb_false_elim in Hev as [? ?]; done.
Qed.

Lemma bind_raise_l {A B} e (k : A -> M B) : bind (raise e) k = raise e.
Proof. done. Qed.

(** Without a binding of [evaluate_model], an epoch ends in an exception
    before anything is evaluated. *)
Lemma train_epoch_stops g epoch :
  "evaluate_model" ∉ g ->
  (exists e, outcome (train_epoch w g epoch) = inl e) /\
  traced (fun ev => past_first_epoch ev = false) (train_epoch w g epoch).
Proof.
  intros Hg. unfold train_epoch, call_global. rewrite decide_False by done.
  rewrite bind_raise_l. split.
  - rewrite !outcome_bind.
    destruct (outcome (call w "model.train" [])); [eauto|].
    destruct (outcome (for_fold _ _ _)); eauto.
  - unfold train_batch. autounfold with repo. repeat traced_step.
Qed.

Lemma cell5_stops g :
  "evaluate_model" ∉ g ->
  (exists e, outcome (cell5 w g) = inl e) /\
  traced (fun ev => past_first_epoch ev = false) (cell5 w g).
Proof.
  intros Hg. unfold cell5, call_global.
  destruct (decide ("train_model" ∈ g)) as [_|_]; [|split; [by eexists|by apply traced_raise]].
  unfold train_model. rewrite range_10. cbn [for_each].
  destruct (train_epoch_stops g 0 Hg) as [[e He] Ht]. unfold traced in *.
  destruct (train_epoch w g 0) as [t [e'|[]]]; [|done].
  split; [by exists e'|done].
Qed.

Ltac unbound :=
  rewrite ?not_elem_of_union, ?not_elem_of_singleton;
  repeat split; first [done | apply not_elem_of_empty].
Ltac stopped :=
  cbv beta iota zeta; split; [by eexists|]; split; [unbound|]; split; [unbound|];
  apply past_first_epoch_none; rewrite ?Forall_app;
  repeat split; first [assumption | constructor].

(** C5, as the code has it.  Cell 5 calls [train_model()] before cell 6
    defines [evaluate_model]: in every world, running the cells of the
    CIFAR-10 notebook top to bottom in a fresh kernel ends in an exception
    with neither [evaluate_model] nor [visualize_predictions] bound, and up
    to there nothing logs the key "test_accuracy", nothing calls
    [wandb.finish()] and nothing calls [model.eval()]. *)
Theorem run_all_stops_in_training :
  let '(g, t, o) := run_all ∅ (notebook w) in
  (exists e, o = Some e) /\
  ("evaluate_model" ∉ g) /\ ("visualize_predictions" ∉ g) /\
  count_events (logs_key "test_accuracy") t = 0%nat /\
  count_events (is_call "wandb.finish") t = 0%nat /\
  count_events (is_call "model.eval") t = 0%nat.
Proof.
  assert (H1 : traced (fun ev => past_first_epoch ev = false) (cell1 w))
    by (autounfold with cells; repeat traced_step).
  assert (H2 : traced (fun ev => past_first_epoch ev = false) (cell2 w))
    by (autounfold with cells; repeat traced_step).
  assert (H3 : forall g, traced (fun ev => past_first_epoch ev = false) (cell3 w g))
    by (intros g; autounfold with cells; unfold imshow; repeat traced_step).
  assert (H4 : forall g, traced (fun ev => past_first_epoch ev = false) (cell4 w g)).
  { intros g; autounfold with cells; unfold __init__; autounfold with repo; repeat traced_step. }
  assert (H0 : traced (fun ev => past_first_epoch ev = false) (wandb_init w))
    by (autounfold with cells; repeat traced_step).
  unfold notebook. cbn [run_all exec_cell]. unfold traced in *.
  destruct (cell1 w) as [t1 [e1|[]]]; cbn [trace fst] in H1; [stopped|].
  destruct (cell2 w) as [t2 [e2|[]]]; cbn [trace fst] in H2; [stopped|].
  match goal with |- context [cell3 w ?g] => specialize (H3 g); destruct (cell3 w g) as [t3 [e3|[]]] end;
    cbn [trace fst] in H3; [stopped|].
  match goal with |- context [cell4 w ?g] => specialize (H4 g); destruct (cell4 w g) as [t4 [e4|[]]] end;
    cbn [trace fst] in H4; [stopped|].
  destruct (wandb_init w) as [t0 [e0|[]]]; cbn [trace fst] in H0; [stopped|].
  match goal with
  | |- context [cell5 w ?g] =>
      destruct (cell5_stops g) as [[e5 He5] H5]; [unbound|]; unfold traced in H5;
      destruct (cell5 w g) as [t5 [e|[]]]
  end; cbn [trace fst outcome snd] in H5, He5; [stopped|done].
Qed.

(** *** With [evaluate_model] bound *)

Lemma In_range e n : In e (range n) <-> 0 <= e < n.
Proof.
  unfold range. rewrite in_map_iff. split.
  - intros (k & <- & Hk). apply in_seq in Hk. lia.
  - intros He. exists (Z.to_nat e). split; [lia|]. apply in_seq. lia.
Qed.

Lemma length_range n : length (range n) = Z.to_nat n.
Proof. unfold range. by rewrite length_map, length_seq. Qed.

(** An epoch in which nothing raises. *)
Lemma train_epoch_ok g epoch :
  "evaluate_model" ∈ g -> lib_ok w -> epoch_ok w epoch ->
  train_epoch w g epoch = (epoch_trace w epoch, inr tt).
Proof.
  intros Hg Hw (Hwin & Hlabels & Hclasses & Htwo).
  destruct (batch_loop_logs w epoch _ _ 0%nat Hw Hwin eq_refl) as [_ [r Hr]].
  destruct (evaluate_model_returns w _ Hw Hlabels Hclasses Htwo) as [_ Hq].
  unfold train_epoch, epoch_trace, call_global. rewrite decide_True by done.
  change (for_fold (enumerate ?bs) running0 (train_batch w epoch))
    with (batch_loop w epoch (100 * 0) bs running0).
  apply pair_eq.
  - rewrite trace_bind, call_outcome, trace_bind, Hr, trace_bind, Hq by done.
    by rewrite trace_bind, call_outcome by done.
  - rewrite outcome_bind, call_outcome, outcome_bind, Hr, outcome_bind, Hq by done.
    by rewrite outcome_bind, call_outcome by done.
Qed.

Ltac count_none :=
  apply count_events_none;
  match goal with |- Forall ?Q (trace ?m) => change (traced Q m) end;
  unfold batch_loop; autounfold with repo; repeat traced_step.

(** [model.eval()] is the first call of [evaluate_model], and its only
    one; [evaluate_model] does not call [model.train()], logs nothing and
    does not call [wandb.finish()]. *)
Lemma evaluate_model_calls obs :
  count_events (is_call "model.eval") (trace (evaluate_model w obs)) = 1%nat /\
  count_events (is_call "model.train") (trace (evaluate_model w obs)) = 0%nat /\
  count_events (logs_key "test_accuracy") (trace (evaluate_model w obs)) = 0%nat /\
  count_events (is_call "wandb.finish") (trace (evaluate_model w obs)) = 0%nat.
Proof.
  split; [|repeat split; count_none].
  unfold evaluate_model. rewrite trace_bind, count_events_app.
  change (count_events (is_call "model.eval") (trace (call w "model.eval" []))) with 1%nat.
  destruct (outcome (call w "model.eval" [])); [done|].
  apply f_equal. count_none.
Qed.

(** One epoch: one [model.train()], one [model.eval()], one log of
    "test_accuracy", no [wandb.finish()]. *)
Lemma epoch_trace_counts epoch :
  count_events (is_call "model.train") (epoch_trace w epoch) = 1%nat /\
  count_events (is_call "model.eval") (epoch_trace w epoch) = 1%nat /\
  count_events (logs_key "test_accuracy") (epoch_trace w epoch) = 1%nat /\
  count_events (is_call "wandb.finish") (epoch_trace w epoch) = 0%nat.
Proof.
  destruct (evaluate_model_calls (test_pass w (Z.to_nat epoch))) as (He & Ht & Hl & Hf).
  unfold epoch_trace.
  repeat split;
    match goal with
    | |- count_events ?p (?x :: ?t1 ++ ?t2 ++ ?l) = _ =>
        change (x :: t1 ++ t2 ++ l) with ([x] ++ t1 ++ t2 ++ l);
        rewrite !count_events_app;
        replace (count_events p t1) with 0%nat by (symmetry; count_none)
    end;
    rewrite ?He, ?Ht, ?Hl, ?Hf; reflexivity.
Qed.

Lemma train_model_runs g epochs :
  "evaluate_model" ∈ g -> lib_ok w -> (forall e, 0 <= e < epochs -> epoch_ok w e) ->
  train_model w g epochs
  = (flat_map (epoch_trace w) (range epochs) ++ after_training, inr tt).
Proof.
  intros Hg Hw Hok. unfold train_model. rewrite (for_each_trace (epoch_trace w)).
  - unfold print_str, print, emit, call. by rewrite Hw.
  - intros e He. apply train_epoch_ok; [done..|]. apply Hok. by apply In_range.
Qed.

(** X1.  With [evaluate_model] bound, no library call raising and the data
    of every epoch as [epoch_ok] asks, [train_model(epochs)] returns after
    the interactions of the epochs 0, ..., epochs - 1 in order, each over
    all the batches of its pass over the training loader and followed by
    its evaluation, then the print of "Finished Training" and
    [wandb.finish()]: [model.train()], [model.eval()] and the log of
    "test_accuracy" happen once per epoch, [wandb.finish()] once. *)
Theorem train_model_epochs g epochs :
  "evaluate_model" ∈ g -> lib_ok w -> (forall e, 0 <= e < epochs -> epoch_ok w e) ->
  train_model w g epochs
  = (flat_map (epoch_trace w) (range epochs) ++ after_training, inr tt) /\
  count_events (is_call "model.train") (trace (train_model w g epochs)) = Z.to_nat epochs /\
  count_events (is_call "model.eval") (trace (train_model w g epochs)) = Z.to_nat epochs /\
  count_events (logs_key "test_accuracy") (trace (train_model w g epochs)) = Z.to_nat epochs /\
  count_events (is_call "wandb.finish") (trace (train_model w g epochs)) = 1%nat.
Proof.
  intros Hg Hw Hok.
  pose proof (train_model_runs g epochs Hg Hw Hok) as Hrun.
  split; [done|]. rewrite Hrun. cbn [trace fst].
  repeat split; rewrite count_events_app.
  - rewrite (count_events_flat_map _ _ 1); [|intros e _; apply epoch_trace_counts].
    rewrite length_range. unfold count_events. simpl. lia.
  - rewrite (count_events_flat_map _ _ 1); [|intros e _; apply epoch_trace_counts].
    rewrite length_range. unfold count_events. simpl. lia.
  - rewrite (count_events_flat_map _ _ 1); [|intros e _; apply epoch_trace_counts].
    rewrite length_range. unfold count_events. simpl. lia.
  - rewrite (count_events_flat_map _ _ 0); [|intros e _; apply epoch_trace_counts].
    unfold count_events. simpl. lia.
Qed.

(** *** The logs of the training, in order *)

(** An epoch in which nothing raises, interaction by interaction. *)
Lemma train_epoch_runs g epoch :
  "evaluate_model" ∈ g -> lib_ok w -> epoch_ok w epoch ->
  train_epoch w g epoch = (epoch_events w epoch, inr tt).
Proof.
  intros Hg Hw (Hwin & Hlabels & Hclasses & Htwo).
  destruct (batch_loop_run w epoch _ _ 0%nat Hw Hwin eq_refl) as [r Hr].
  pose proof (evaluate_model_runs w _ Hw Hlabels Hclasses Htwo) as Hq.
  unfold train_epoch, epoch_events, call_global. rewrite decide_True by done.
  change (for_fold (enumerate ?bs) running0 (train_batch w epoch))
    with (batch_loop w epoch (100 * 0) bs running0).
  apply (bind_run _ _ [ECall "model.train" []] tt); [by apply call_ok|].
  apply (bind_run _ _ _ r _ _ Hr).
  apply (bind_run _ _ _ _ _ _ Hq).
  apply (bind_run _ _ [ECall "wandb.log" (test_log w epoch)] tt); [by apply call_ok|].
  reflexivity.
Qed.

Lemma logs_flat_map {A} (f : A -> list event) (g : A -> list (list arg)) xs :
  (forall x, In x xs -> logs (f x) = g x) -> logs (flat_map f xs) = flat_map g xs.
Proof.
  induction xs as [|x xs IH]; intros Hf; [done|].
  cbn [flat_map]. rewrite logs_app, (Hf x) by (by left).
  rewrite IH; [done|]. intros y Hy. apply Hf. by right.
Qed.

(** The logs of an epoch: one for each complete window of its training
    pass, then the test accuracy. *)
Lemma logs_epoch_trace epoch :
  lib_ok w -> epoch_ok w epoch ->
  logs (epoch_trace w epoch)
  = map (window_log epoch) (complete_windows (train_pass w (Z.to_nat epoch)))
    ++ [test_log w epoch].
Proof.
  intros Hw (Hwin & _).
  destruct (batch_loop_logs w epoch _ _ 0%nat Hw Hwin eq_refl) as [Hlogs _].
  change (100 * 0)%nat with 0%nat in Hlogs. unfold epoch_trace.
  match goal with
  | |- logs (?x :: ?t1 ++ ?t2 ++ ?l) = _ => change (x :: t1 ++ t2 ++ l) with ([x] ++ t1 ++ t2 ++ l)
  end.
  rewrite !logs_app, Hlogs.
  replace (logs (trace (evaluate_model w (test_pass w (Z.to_nat epoch))))) with (@nil (list arg)).
  - reflexivity.
  - symmetry. apply logs_nil. autounfold with repo. repeat traced_step.
Qed.

(** C9.  With [evaluate_model] bound, no library call raising and the data
    of every epoch as [epoch_ok] asks, [train_model(epochs)] does, for the
    epochs 0, ..., epochs - 1 in order, what [epoch_events] lists: the batch
    loop calls for the batches from index 0 with the statistics at zero,
    and in the batch that completes a window of 100, the one of index
    100 k + 99, it logs and prints the statistics of that window.  So the
    [wandb.log] calls of [train_model] are, epoch by epoch, one per complete
    window of the epoch's training pass, with the epoch, the sum of the
    losses of the window's hundred batches divided by 100, and
    100 * correct / total over the samples of those batches, followed by
    the log of the test accuracy; the batches after the last complete
    window are called for and log nothing.  A batch whose index is not 99
    modulo 100 logs nothing, whatever the statistics and whatever the
    libraries do.  And in any kernel, with [evaluate_model] bound or not, an
    epoch starts with [model.train()] and this batch loop, and logs nothing
    with the key "epoch" after it. *)
Theorem in_epoch_logs g epochs :
  "evaluate_model" ∈ g -> lib_ok w -> (forall e, 0 <= e < epochs -> epoch_ok w e) ->
  train_model w g epochs
  = (flat_map (epoch_events w) (range epochs) ++ after_training, inr tt) /\
  logs (trace (train_model w g epochs))
  = flat_map (fun e => map (window_log e) (complete_windows (train_pass w (Z.to_nat e)))
                       ++ [test_log w e]) (range epochs) /\
  (forall epoch r i b, i mod 100 <> 99 -> logs (trace (train_batch w epoch r (i, b))) = []) /\
  (forall g' epoch,
     windows_have_samples (train_pass w (Z.to_nat epoch)) ->
     exists rest,
       trace (train_epoch w g' epoch)
       = ECall "model.train" []
         :: loop_trace epoch 0 (length (train_pass w (Z.to_nat epoch)) / 100)
              (train_pass w (Z.to_nat epoch))
         ++ rest /\
       count_events (logs_key "epoch") rest = 0%nat).
Proof.
  intros Hg Hw Hok. split; [|split; [|split]]; cycle 3.
  { intros g' epoch Hwin.
    destruct (batch_loop_run w epoch _ _ 0%nat Hw Hwin eq_refl) as [r Hr].
    unfold train_epoch.
    change (for_fold (enumerate ?bs) running0 (train_batch w epoch))
      with (batch_loop w epoch (100 * 0) bs running0).
    rewrite trace_bind, call_outcome, trace_bind, Hr by done.
    cbn [trace outcome fst snd]. eexists. split; [reflexivity|]. count_none. }
  - unfold train_model. rewrite (for_each_trace (epoch_events w)).
    + unfold print_str, print, emit, call. by rewrite Hw.
    + intros e He. apply train_epoch_runs; [done..|]. apply Hok. by apply In_range.
  - rewrite (train_model_runs g epochs Hg Hw Hok). cbn [trace fst].
    rewrite logs_app, app_nil_r. apply logs_flat_map.
    intros e He. apply logs_epoch_trace; [done|]. apply Hok. by apply In_range.
  - intros epoch r i b. apply train_batch_silent.
Qed.

End Training.

(** On a machine where every import and every library call succeeds and
    the training loader yields two batches, the exception is the
    [NameError] of the unbound [evaluate_model], raised in cell 5 after the
    two batches of the first epoch. *)
Lemma run_all_in_order_raises_NameError :
  (run_all ∅ (Cifar10.notebook (cpu_world 2 1))).2 = Some (NameError "evaluate_model") /\
  count_events (is_call "model.train") (run_all ∅ (Cifar10.notebook (cpu_world 2 1))).1.2 = 1%nat /\
  count_events (is_call "optimizer.step") (run_all ∅ (Cifar10.notebook (cpu_world 2 1))).1.2 = 2%nat.
Proof. by vm_compute. Qed.

(** ** The properties at work

    The theorems above, used on a machine without GPU where every library
    call succeeds ([cpu_world]), with and without the [wandb] package. *)

Lemma cpu_world_lib_ok n_train n_test : lib_ok (cpu_world n_train n_test).
Proof. by intros callee args. Qed.

Lemma uniform_batches_ok k n :
  (2 <= 10 * k)%nat -> (1 <= k)%nat -> (1 <= n)%nat ->
  labels_are_classes (repeat (uniform_batch k 3 None) n) /\
  every_class_present (repeat (uniform_batch k 3 None) n) /\
  at_least_two_per_batch (repeat (uniform_batch k 3 None) n).
Proof.
  intros Hk2 Hk Hn.
  assert (Hlen : length (samples (uniform_batch k 3 None)) = (10 * k)%nat).
  { unfold uniform_batch. rewrite range_10. cbn [samples flat_map].
    rewrite !length_app, !repeat_length. simpl. lia. }
  assert (Hin : forall p l, In (p, l) (samples (uniform_batch k 3 None)) -> 0 <= l < 10).
  { intros p l. unfold uniform_batch. cbn [samples]. rewrite in_flat_map.
    intros (c & Hc & Hpl). apply repeat_spec in Hpl. injection Hpl as _ ->.
    by apply In_range. }
  split; [|split].
  - unfold labels_are_classes. apply Forall_forall. intros [p l] Hpl.
    apply list_elem_of_In, in_flat_map in Hpl as (b & Hb & Hpl).
    apply repeat_spec in Hb as ->. by apply (Hin p).
  - intros c Hc. apply in_map_iff. exists (3, c). split; [done|].
    apply in_flat_map. exists (uniform_batch k 3 None). split.
    + destruct n; [lia|]. by left.
    + unfold uniform_batch. cbn [samples]. apply in_flat_map. exists c.
      split; [by apply In_range|]. destruct k; [lia|]. by left.
  - unfold at_least_two_per_batch. apply Forall_forall. intros b Hb.
    apply list_elem_of_In, repeat_spec in Hb as ->. lia.
Qed.

(** With [wandb] missing, [verify_setup] imports the six packages, catches
    the [ModuleNotFoundError] of the last one and prints the two lines of
    its handler. *)
Lemma import_error_handlers_witness :
  LocalSetup.verify_setup (without_wandb (cpu_world 0 0)) =
  (map EImport required_packages
   ++ [EPrint [Lit "❌ Some packages are missing: "; Fmt (VExpr "str(e)") ""];
       EPrint [Lit "Please follow the installation instructions above."]], inr tt).
Proof.
  apply (proj1 (proj2 (import_error_handlers (without_wandb (cpu_world 0 0))))
           5%nat "wandb" ModuleNotFoundError).
  - reflexivity.
  - intros p Hp. simpl in Hp. decompose [or] Hp; subst; try reflexivity. contradiction.
  - reflexivity.
Defined.

(** The cell of the CIFAR-10 notebook that builds the loaders starts no
    task but theirs. *)
Lemma tasks_of_the_repository_witness :
  Forall (fun ev => tasks_started ev = 0 \/ In ev (task_starts_in_cell cifar10 1))
    (run_cell ∅ [Run (fun _ => Cifar10.cell2 (cpu_world 0 0))]).1.
Proof.
  apply (proj1 (proj2 (tasks_of_the_repository (cpu_world 0 0))) ∅ cifar10 1%nat).
  reflexivity.
Defined.

(** The same cell touches the dataset cache and nothing else on disk. *)
Lemma state_of_the_repository_witness :
  Forall (fun ev => In (persists ev) state_on_disk)
    (run_cell ∅ [Run (fun _ => Cifar10.cell2 (cpu_world 0 0))]).1.
Proof.
  apply (proj1 (proj2 (state_of_the_repository (cpu_world 0 0))) ∅ cifar10 1%nat).
  reflexivity.
Defined.

(** Three epochs of [train_model] over three training batches and one
    test batch, and the training cell, whose ten epochs run in a kernel
    where [evaluate_model] is bound: the loops over the epochs, the batches,
    the samples and the classes all run, 693 interactions in the cell. *)
Lemma every_run_ends_witness :
  ends_within (steps (cpu_world 3 1) (F_train_model 3))
    (run_function (cpu_world 3 1) {["evaluate_model"]} (F_train_model 3)) /\
  cells_of (cpu_world 3 1) cifar10 !! 4%nat
  = Some [Run (fun _ => Cifar10.wandb_init (cpu_world 3 1)); Def "train_model";
          Run (Cifar10.cell5 (cpu_world 3 1))] /\
  ends_within (cell_steps (cpu_world 3 1))
    (run_cell {["evaluate_model"]}
       [Run (fun _ => Cifar10.wandb_init (cpu_world 3 1)); Def "train_model";
        Run (Cifar10.cell5 (cpu_world 3 1))]) /\
  length (run_cell {["evaluate_model"]}
            [Run (fun _ => Cifar10.wandb_init (cpu_world 3 1)); Def "train_model";
             Run (Cifar10.cell5 (cpu_world 3 1))]).1 = 693%nat.
Proof.
  split; [apply (proj1 (every_run_ends (cpu_world 3 1)))|].
  split; [reflexivity|].
  split; [|by vm_compute].
  apply (proj2 (every_run_ends (cpu_world 3 1)) {["evaluate_model"]} cifar10 4%nat).
  reflexivity.
Defined.

(** A batch of 128 images gives 128 rows of 10 logits. *)
Lemma forward_shape_witness :
  lib_ok (cpu_world 0 0) /\
  outcome (Cifar10.__init__ (cpu_world 0 0)) = inr the_layers /\
  outcome (Cifar10.forward (cpu_world 0 0) the_layers true [128; 3; 32; 32]) = inr [128; 10].
Proof.
  assert (Hinit : outcome (Cifar10.__init__ (cpu_world 0 0)) = inr the_layers)
    by (by vm_compute).
  split; [apply cpu_world_lib_ok|]. split; [exact Hinit|].
  apply (forward_shape (cpu_world 0 0) the_layers true 128 (cpu_world_lib_ok 0 0) Hinit).
  lia.
Defined.

(** A test pass of three batches with two images of every class, every
    image predicted as class 3: 6 of 60 are right, and the ten lines of the
    classes end the run. *)
Lemma evaluate_model_accuracy_witness :
  exists q,
    Cifar10.evaluate_model (cpu_world 0 0) (repeat (uniform_batch 2 3 None) 3)
    = (eval_events (repeat (uniform_batch 2 3 None) 3), inr q) /\
    eval_events (repeat (uniform_batch 2 3 None) 3)
    = [ECall "model.eval" []; ECall "torch.no_grad" []]
      ++ flat_map eval_batch_calls (repeat (uniform_batch 2 3 None) 3)
      ++ map (class_line (all_samples (repeat (uniform_batch 2 3 None) 3))) (range 10) /\
    (forall i, 0 <= i < 10 ->
       0 < class_count (all_samples (repeat (uniform_batch 2 3 None) 3)) i) /\
    q = (100 * n_correct (all_samples (repeat (uniform_batch 2 3 None) 3))
         # Z.to_pos (n_total (all_samples (repeat (uniform_batch 2 3 None) 3)))) /\
    0 < n_total (all_samples (repeat (uniform_batch 2 3 None) 3)) /\
    (0 <= q <= 100)%Q.
Proof.
  destruct (uniform_batches_ok 2 3) as (Hlabels & Hclasses & Htwo); [lia..|].
  exact (evaluate_model_accuracy (cpu_world 0 0) _ (cpu_world_lib_ok 0 0) Hlabels Hclasses Htwo).
Defined.

(** Two epochs over 101 training batches: each epoch logs its one complete
    window, of the first hundred batches, and then its test accuracy; the
    batch after the window logs nothing. *)
Lemma in_epoch_logs_witness :
  logs (trace (Cifar10.train_model (cpu_world 101 1) {["evaluate_model"]} 2))
  = [window_log 0 (repeat (uniform_batch 1 3 (Some 1%Q)) 100); test_log (cpu_world 101 1) 0;
     window_log 1 (repeat (uniform_batch 1 3 (Some 1%Q)) 100); test_log (cpu_world 101 1) 1].
Proof.
  destruct (in_epoch_logs (cpu_world 101 1) {["evaluate_model"]} 2) as (_ & Hlogs & _).
  - by apply elem_of_singleton_2.
  - apply cpu_world_lib_ok.
  - intros e _. split; [by (vm_compute; repeat constructor)|].
    apply (uniform_batches_ok 1 1); lia.
  - rewrite Hlogs. reflexivity.
Defined.

(** Two epochs over two training batches and one test batch. *)
Lemma train_model_epochs_witness :
  count_events (is_call "model.eval")
    (trace (Cifar10.train_model (cpu_world 2 1) {["evaluate_model"]} 2)) = 2%nat /\
  count_events (logs_key "test_accuracy")
    (trace (Cifar10.train_model (cpu_world 2 1) {["evaluate_model"]} 2)) = 2%nat /\
  count_events (is_call "wandb.finish")
    (trace (Cifar10.train_model (cpu_world 2 1) {["evaluate_model"]} 2)) = 1%nat.
Proof.
  destruct (train_model_epochs (cpu_world 2 1) {["evaluate_model"]} 2)
    as (_ & _ & Heval & Hlog & Hfinish).
  - by apply elem_of_singleton_2.
  - apply cpu_world_lib_ok.
  - intros e _. split; [by (vm_compute; repeat constructor)|].
    apply (uniform_batches_ok 1 1); lia.
  - split; [exact Heval|]. split; [exact Hlog|exact Hfinish].
Defined.

(** * Further properties *)

(** ** Runs that return *)

Section Returns.
Context `{PyFloat}.

Lemma returns_ret {A} (a : A) : returns (ret a).
Proof. by exists a. Qed.

Lemma returns_emit ev : returns (emit ev).
Proof. by exists tt. Qed.

Lemma returns_call w callee args : lib_ok w -> returns (call w callee args).
Proof. intros Hw. exists tt. by apply call_outcome. Qed.

Lemma returns_import w m : imports_ok w -> returns (import_ w m).
Proof. intros Hw. exists tt. unfold import_. by rewrite Hw. Qed.

Lemma returns_bind {A B} (m : M A) (k : A -> M B) :
  returns m -> (forall a, outcome m = inr a -> returns (k a)) -> returns (bind m k).
Proof.
  intros [a Ha] Hk. destruct (Hk a Ha) as [b Hb]. exists b.
  by rewrite outcome_bind, Ha.
Qed.

Lemma returns_for_each {A} (xs : list A) body :
  (forall x, In x xs -> returns (body x)) -> returns (for_each xs body).
Proof.
  induction xs as [|x xs IH]; intros Hb; [apply returns_ret|].
  cbn [for_each]. apply returns_bind; [apply Hb; by left|].
  intros _ _. apply IH. intros y Hy. apply Hb. by right.
Qed.

Lemma returns_for_fold {A S} (xs : list A) (s : S) body :
  (forall s x, returns (body s x)) -> returns (for_fold xs s body).
Proof.
  intros Hb. revert s. induction xs as [|x xs IH]; intros s; [apply returns_ret|].
  cbn [for_fold]. apply returns_bind; [apply Hb|]. intros s' _. apply IH.
Qed.

Lemma returns_try {A} (body : M A) handler :
  returns body -> returns (try_except_ImportError body handler).
Proof. intros [a Ha]. exists a. destruct body as [t [e|a']]; [done|]. exact Ha. Qed.

Lemma returns_call_global {A} g name (body : M A) :
  name ∈ g -> returns body -> returns (call_global g name body).
Proof. intros Hg Hb. unfold call_global. by rewrite decide_True. Qed.

(** Cells whose statements all return run to the end, one after the
    other. *)
Lemma exec_cell_returns c : forall g,
  cell_returns g c -> exists t, exec_cell g c = (bindings_after g c, t, None).
Proof.
  induction c as [|s c IH]; intros g Hc; [by exists []|].
  destruct s as [name|name|body]; cbn [exec_cell bindings_after cell_returns] in *;
    [by apply IH..|].
  destruct Hc as [[[] Hb] Hc]. destruct (IH g Hc) as [t' Ht'].
  destruct (body g) as [t [e|[]]]; [done|]. rewrite Ht'. by eexists.
Qed.

Lemma run_all_returns cells : forall g,
  cells_return g cells -> (run_all g cells).2 = None.
Proof.
  induction cells as [|c cells IH]; intros g Hc; [done|].
  destruct Hc as [Hc Hcs]. destruct (exec_cell_returns c g Hc) as [t Ht].
  cbn [run_all]. rewrite Ht. specialize (IH _ Hcs).
  by destruct (run_all (bindings_after g c) cells) as [[g' t'] o].
Qed.

End Returns.

Ltac bound :=
  repeat first [ apply elem_of_union_l, elem_of_singleton_2; reflexivity
               | apply elem_of_union_r ].
Ltac returns_step :=
  lazymatch goal with
  | |- returns (bind _ _) => apply returns_bind; [|intros ? _]
  | |- returns (ret _) => apply returns_ret
  | |- returns (emit _) => apply returns_emit
  | |- returns (import_ _ _) => apply returns_import; assumption
  | |- returns (call _ _ _) => apply returns_call; assumption
  | |- returns (for_each _ _) => apply returns_for_each; intros ? _
  | |- returns (for_fold _ _ _) => apply returns_for_fold; intros ? ?
  | |- returns (try_except_ImportError _ _) => apply returns_try
  | |- returns (call_global _ _ _) => apply returns_call_global; [bound|]
  | |- returns (if ?b then _ else _) => destruct b
  | |- returns (match ?x with _ => _ end) => destruct x
  end.

Section RunAll.
Context `{PyFloat} (w : world).

(** X2.  Where every import succeeds and no library call raises, running
    the cells of the W&B tutorial, of the GPU tutorial or of the local-setup
    notebook top to bottom in a fresh kernel ends without an exception:
    every function is defined before the statement that calls it. *)
Theorem run_all_completes nb :
  imports_ok w -> lib_ok w -> nb <> cifar10 ->
  (run_all ∅ (cells_of w nb)).2 = None.
Proof.
  intros Hi Hw Hnb. apply run_all_returns.
  destruct nb; [| | |done];
    unfold cells_of, WandbTutorial.notebook, PytorchGpu.notebook, LocalSetup.notebook;
    cbn [cells_return cell_returns bindings_after]; repeat split;
    autounfold with repo; repeat returns_step.
Qed.

End RunAll.

(** ** Machines without CUDA *)

Section CpuOnly.
Context `{PyFloat} (w : world).

Lemma traced_bind_ret (Q : event -> Prop) {A B C} (m : M A) (v : B) (k : B -> M C) :
  traced Q m -> traced Q (k v) -> traced Q (bind (bind m (fun _ => ret v)) k).
Proof.
  intros Hm Hk. rewrite bind_assoc. apply traced_bind; [done|].
  intros a. by rewrite bind_ret_l.
Qed.

Ltac cpu_step :=
  lazymatch goal with
  | |- traced _ (bind (bind _ (fun _ => ret _)) _) => apply traced_bind_ret; [|cbn [negb]]
  | _ => traced_step
  end.

(** X3.  On a machine where [torch.cuda.is_available()] is false, no
    function and no cell of the four notebooks makes a call that needs a
    CUDA device, whatever else the libraries answer. *)
Theorem cpu_only_needs_no_cuda :
  cuda_is_available w = false ->
  (forall g f, Forall (fun ev => needs_cuda ev = false) (run_function w g f).1) /\
  (forall g nb i c, cells_of w nb !! i = Some c ->
     Forall (fun ev => needs_cuda ev = false) (run_cell g c).1).
Proof.
  intros Hcuda. split.
  - intros g f. each_function f; apply traced_observe; autounfold with repo;
      rewrite ?Hcuda; repeat cpu_step.
  - intros g nb i c Hc. each_cell nb i Hc; apply traced_run_cell; each_stmt;
      autounfold with repo; rewrite ?Hcuda; repeat cpu_step.
Qed.

End CpuOnly.

(** With CUDA, the GPU tutorial does make such calls. *)
Lemma demonstrate_gpu_operations_uses_cuda `{PyFloat} (w : world) :
  cuda_is_available w = true -> lib_ok w ->
  count_events needs_cuda (trace (PytorchGpu.demonstrate_gpu_operations w)) = 2%nat.
Proof.
  intros Hcuda Hw. unfold PytorchGpu.demonstrate_gpu_operations, is_available, print_str, print, emit, call.
  rewrite Hcuda, !Hw. reflexivity.
Qed.

(** ** Counting interactions of runs that return *)

Section Occurs.
Context `{PyFloat}.
Variable p : event -> bool.

Lemma count_events_app' t1 t2 :
  count_events p (t1 ++ t2) = (count_events p t1 + count_events p t2)%nat.
Proof. unfold count_events. by rewrite List.filter_app, length_app. Qed.

Lemma occurs_eq {A} (m : M A) n n' : occurs p m n -> n = n' -> occurs p m n'.
Proof. by intros ? <-. Qed.

Lemma occurs_ret {A} (a : A) : occurs p (ret a) 0.
Proof. split; [by exists a|done]. Qed.

Lemma occurs_emit ev n : count_events p [ev] = n -> occurs p (emit ev) n.
Proof. intros <-. split; [by exists tt|done]. Qed.

Lemma occurs_call w callee args n :
  lib_ok w -> count_events p [ECall callee args] = n -> occurs p (call w callee args) n.
Proof. intros Hw <-. split; [by apply returns_call|done]. Qed.

Lemma occurs_import w m n :
  imports_ok w -> count_events p [EImport m] = n -> occurs p (import_ w m) n.
Proof. intros Hw <-. split; [by apply returns_import|done]. Qed.

Lemma occurs_bind {A B} (m : M A) (k : A -> M B) n n' :
  occurs p m n -> (forall a, outcome m = inr a -> occurs p (k a) n') ->
  occurs p (bind m k) (n + n').
Proof.
  intros [[a Ha] Hn] Hk. destruct (Hk a Ha) as [Hr Hn']. split.
  - apply returns_bind; [by exists a|]. intros a' Ha'. by apply Hk.
  - by rewrite trace_bind, Ha, count_events_app', Hn, Hn'.
Qed.

(** A library answer [v] that the code branches on. *)
Lemma occurs_bind_ret {A B C} (m : M A) (v : B) (k : B -> M C) n n' :
  occurs p m n -> occurs p (k v) n' ->
  occurs p (bind (bind m (fun _ => ret v)) k) (n + n').
Proof.
  intros Hm Hk. rewrite bind_assoc. apply occurs_bind; [done|].
  intros a _. by rewrite bind_ret_l.
Qed.

Lemma occurs_for_each_with {A} (f : A -> nat) (xs : list A) body :
  (forall x, In x xs -> occurs p (body x) (f x)) ->
  occurs p (for_each xs body) (sum_list_with f xs).
Proof.
  induction xs as [|x xs IH]; intros Hb; [apply occurs_ret|].
  cbn [for_each sum_list_with]. apply occurs_bind; [apply Hb; by left|].
  intros _ _. apply IH. intros y Hy. apply Hb. by right.
Qed.

Lemma occurs_for_each {A} n (xs : list A) body :
  (forall x, In x xs -> occurs p (body x) n) ->
  occurs p (for_each xs body) (n * length xs).
Proof.
  intros Hb. eapply occurs_eq; [by apply (occurs_for_each_with (fun _ => n))|].
  rewrite sum_list_with_const. apply Nat.mul_comm.
Qed.

Lemma occurs_call_global {A} g name (body : M A) n :
  name ∈ g -> occurs p body n -> occurs p (call_global g name body) n.
Proof. intros Hg Hb. unfold call_global. by rewrite decide_True. Qed.

End Occurs.

Ltac occurs_step :=
  lazymatch goal with
  | |- occurs _ (bind (bind _ (fun _ => ret _)) _) _ => eapply occurs_bind_ret; [|cbn [negb]]
  | |- occurs _ (bind _ _) _ => eapply occurs_bind; [|intros ? _]
  | |- occurs _ (ret _) _ => apply occurs_ret
  | |- occurs _ (emit _) _ => eapply occurs_emit; lazy; reflexivity
  | |- occurs _ (import_ _ _) _ => eapply occurs_import; [assumption|lazy; reflexivity]
  | |- occurs _ (call _ _ _) _ => eapply occurs_call; [assumption|lazy; reflexivity]
  | |- occurs _ (for_each _ _) _ => eapply occurs_for_each; intros ? _
  | |- occurs _ (call_global _ _ _) _ => eapply occurs_call_global; [bound|]
  end.
Ltac count_occurs_by tac :=
  eapply occurs_eq;
  [autounfold with repo; tac; repeat occurs_step|rewrite ?length_range; lia].

(** ** Reading the interactions of runs that return, in order *)

Section Collects.
Context `{PyFloat} {X : Type}.
Variable f : event -> list X.

Lemma collects_eq {A} (m : M A) xs xs' : collects f m xs -> xs = xs' -> collects f m xs'.
Proof. by intros ? <-. Qed.

Lemma collects_ret {A} (a : A) : collects f (ret a) [].
Proof. split; [by exists a|done]. Qed.

Lemma collects_emit ev : collects f (emit ev) (f ev).
Proof. split; [by exists tt|]. simpl. apply app_nil_r. Qed.

Lemma collects_call w callee args :
  lib_ok w -> collects f (call w callee args) (f (ECall callee args)).
Proof. intros Hw. split; [by apply returns_call|]. simpl. apply app_nil_r. Qed.

Lemma collects_bind {A B} (m : M A) (k : A -> M B) xs ys :
  collects f m xs -> (forall a, outcome m = inr a -> collects f (k a) ys) ->
  collects f (bind m k) (xs ++ ys).
Proof.
  intros [[a Ha] Hxs] Hk. destruct (Hk a Ha) as [Hr Hys]. split.
  - apply returns_bind; [by exists a|]. intros a' Ha'. by apply Hk.
  - by rewrite trace_bind, Ha, flat_map_app, Hxs, Hys.
Qed.

Lemma collects_bind_ret {A B C} (m : M A) (v : B) (k : B -> M C) xs ys :
  collects f m xs -> collects f (k v) ys ->
  collects f (bind (bind m (fun _ => ret v)) k) (xs ++ ys).
Proof.
  intros Hm Hk. rewrite bind_assoc. apply collects_bind; [done|].
  intros a _. by rewrite bind_ret_l.
Qed.

Lemma collects_for_each {A} (h : A -> list X) (xs : list A) body :
  (forall x, In x xs -> collects f (body x) (h x)) ->
  collects f (for_each xs body) (flat_map h xs).
Proof.
  induction xs as [|x xs IH]; intros Hb; [apply collects_ret|].
  cbn [for_each flat_map]. apply collects_bind; [apply Hb; by left|].
  intros _ _. apply IH. intros y Hy. apply Hb. by right.
Qed.

Lemma collects_call_global {A} g name (body : M A) xs :
  name ∈ g -> collects f body xs -> collects f (call_global g name body) xs.
Proof. intros Hg Hb. unfold call_global. by rewrite decide_True. Qed.

End Collects.

Ltac collects_step :=
  lazymatch goal with
  | |- collects _ (bind (bind _ (fun _ => ret _)) _) _ => eapply collects_bind_ret; [|cbn [negb]]
  | |- collects _ (bind _ _) _ => eapply collects_bind; [|intros ? _]
  | |- collects _ (ret _) _ => apply collects_ret
  | |- collects _ (emit _) _ => eapply collects_emit
  | |- collects _ (call _ _ _) _ => eapply collects_call; assumption
  | |- collects _ (call_global _ _ _) _ => eapply collects_call_global; [bound|]
  end.

(** ** More than one GPU *)

Section MultiGpu.
Context `{PyFloat} (w : world).

(** The calls of [callee], one of those [check_multi_gpu] makes for each
    device with the index of the device as their argument: they ask for the
    devices 0, ..., [device_count] - 1 in this order, when there is more
    than one device. *)
Lemma check_multi_gpu_asks callee :
  lib_ok w ->
  (forall i, call_args callee (ECall "torch.cuda.get_device_name" [Pos (int_ i)])
             ++ call_args callee (ECall "torch.cuda.memory_allocated" [Pos (int_ i)])
             ++ call_args callee (ECall "torch.cuda.memory_reserved" [Pos (int_ i)])
             = [[Pos (int_ i)]]) ->
  (forall c args, c <> "torch.cuda.get_device_name" -> c <> "torch.cuda.memory_allocated" ->
     c <> "torch.cuda.memory_reserved" -> call_args callee (ECall c args) = []) ->
  args_of callee (trace (PytorchGpu.check_multi_gpu w))
  = if cuda_is_available w && (1 <? device_count w)
    then map (fun i => [Pos (int_ i)]) (range (device_count w)) else [].
Proof.
  intros Hw Hdev Hother.
  assert (Hcall : forall c args,
            c <> "torch.cuda.get_device_name" -> c <> "torch.cuda.memory_allocated" ->
            c <> "torch.cuda.memory_reserved" ->
            collects (call_args callee) (call w c args) []).
  { intros c args H1 H2 H3. eapply collects_eq; [by apply collects_call|by apply Hother]. }
  assert (Hprint : forall text, collects (call_args callee) (print text) []).
  { intros text. apply (collects_emit (call_args callee) (EPrint text)). }
  unfold args_of.
  apply (proj2 (A := returns (PytorchGpu.check_multi_gpu w))).
  change (collects (call_args callee) (PytorchGpu.check_multi_gpu w)
            (if cuda_is_available w && (1 <? device_count w)
             then map (fun i => [Pos (int_ i)]) (range (device_count w)) else [])).
  unfold PytorchGpu.check_multi_gpu, is_available, print_str.
  destruct (cuda_is_available w); cbn [andb]; [destruct (1 <? device_count w)|].
  - eapply collects_eq.
    + eapply collects_bind_ret; [by apply Hcall|cbn [negb]].
      eapply collects_bind; [by apply Hcall|intros ? _].
      eapply collects_bind; [apply Hprint|intros ? _].
      eapply collects_bind; [apply Hprint|intros ? _].
      eapply collects_bind;
        [apply (collects_for_each _ (fun i => [[Pos (int_ i)]])); intros i _|intros ? _].
      { eapply collects_eq.
        - eapply collects_bind; [apply Hprint|intros ? _].
          eapply collects_bind; [by apply collects_call|intros ? _].
          eapply collects_bind; [apply Hprint|intros ? _].
          eapply collects_bind; [by apply collects_call|intros ? _].
          eapply collects_bind; [apply Hprint|intros ? _].
          eapply collects_bind; [by apply collects_call|intros ? _].
          apply Hprint.
        - cbn [app]. rewrite app_nil_r. apply Hdev. }
      eapply collects_bind; [by apply Hcall|intros ? _].
      eapply collects_bind; [by apply Hcall|intros ? _].
      apply Hprint.
    + cbn [app]. by rewrite !app_nil_r, flat_map_singleton.
  - eapply collects_eq.
    + eapply collects_bind_ret; [by apply Hcall|cbn [negb]].
      eapply collects_bind; [by apply Hcall|intros ? _].
      eapply collects_bind; [apply Hprint|intros ? _].
      apply Hprint.
    + done.
  - eapply collects_eq; [eapply collects_bind_ret; [by apply Hcall|cbn [negb]; apply Hprint]|done].
Qed.

(** X4.  With no library call raising, [check_multi_gpu] returns.  It
    wraps a model in [DataParallel] exactly when CUDA is available and
    [torch.cuda.device_count()] is more than 1, and then it asks for the
    name, the allocated memory and the reserved memory of each device once:
    each of the three calls is made for the devices 0, 1, ...,
    [device_count] - 1 in this order, with the index of the device as its
    argument.  With one device or none it asks for nothing. *)
Theorem check_multi_gpu_devices :
  lib_ok w ->
  returns (PytorchGpu.check_multi_gpu w) /\
  count_events (is_call "torch.nn.DataParallel") (trace (PytorchGpu.check_multi_gpu w))
  = (if cuda_is_available w && (1 <? device_count w) then 1%nat else 0%nat) /\
  count_events (is_call "torch.cuda.get_device_name") (trace (PytorchGpu.check_multi_gpu w))
  = (if cuda_is_available w && (1 <? device_count w) then Z.to_nat (device_count w) else 0%nat) /\
  (forall callee,
     In callee ["torch.cuda.get_device_name"; "torch.cuda.memory_allocated";
                "torch.cuda.memory_reserved"] ->
     args_of callee (trace (PytorchGpu.check_multi_gpu w))
     = if cuda_is_available w && (1 <? device_count w)
       then map (fun i => [Pos (int_ i)]) (range (device_count w)) else []).
Proof.
  intros Hw.
  assert (Hp : forall p n1 n2,
            (cuda_is_available w = true -> (1 <? device_count w) = true ->
             occurs p (PytorchGpu.check_multi_gpu w) n1) ->
            (cuda_is_available w = false -> occurs p (PytorchGpu.check_multi_gpu w) n2) ->
            (cuda_is_available w = true -> (1 <? device_count w) = false ->
             occurs p (PytorchGpu.check_multi_gpu w) n2) ->
            occurs p (PytorchGpu.check_multi_gpu w)
              (if cuda_is_available w && (1 <? device_count w) then n1 else n2)).
  { intros p n1 n2 H1 H2 H3. destruct (cuda_is_available w); [|by apply H2].
    destruct (1 <? device_count w); [by apply H1|by apply H3]. }
  assert (Hdp : occurs (is_call "torch.nn.DataParallel") (PytorchGpu.check_multi_gpu w)
                  (if cuda_is_available w && (1 <? device_count w) then 1%nat else 0%nat)).
  { apply Hp; [intros Hc Hd|intros Hc|intros Hc Hd].
    - count_occurs_by ltac:(rewrite Hc, Hd).
    - count_occurs_by ltac:(rewrite Hc).
    - count_occurs_by ltac:(rewrite Hc, Hd). }
  assert (Hname : occurs (is_call "torch.cuda.get_device_name") (PytorchGpu.check_multi_gpu w)
                    (if cuda_is_available w && (1 <? device_count w)
                     then Z.to_nat (device_count w) else 0%nat)).
  { apply Hp; [intros Hc Hd|intros Hc|intros Hc Hd].
    - count_occurs_by ltac:(rewrite Hc, Hd).
    - count_occurs_by ltac:(rewrite Hc).
    - count_occurs_by ltac:(rewrite Hc, Hd). }
  split; [apply Hdp|]. split; [apply Hdp|]. split; [apply Hname|].
  intros callee Hcallee. apply check_multi_gpu_asks; [done| |].
  - intros i. simpl in Hcallee. by destruct Hcallee as [<-|[<-|[<-|[]]]].
  - intros c args H1 H2 H3. unfold call_args.
    destruct (String.eqb_spec c callee) as [->|]; [|done].
    simpl in Hcallee. by destruct Hcallee as [<-|[<-|[<-|[]]]].
Qed.

End MultiGpu.

(** ** The W&B runs *)

Section WandbRuns.
Context `{PyFloat} (w : world).






End WandbRuns.

(** ** The local-setup guide *)

Section Platform.
Context `{PyFloat} (w : world).
Import LocalSetup.

Lemma get_os_info_name g :
  lib_ok w -> "get_os_info" ∈ g ->
  exists t version,
    call_global g "get_os_info" (get_os_info w)
    = (t, inr (by_platform (platform_system w) "MacOS" "Windows" "Linux" "Unknown", version)).
Proof.
  intros Hw Hg. unfold call_global. rewrite decide_True by done.
  unfold get_os_info, by_platform, call. rewrite !Hw.
  destruct (String.eqb _ "Darwin"); [by eexists _, _|].
  destruct (String.eqb _ "Windows"); [by eexists _, _|].
  destruct (String.eqb _ "Linux"); [|by eexists _, _].
  destruct (has_linux_distribution w); by eexists _, _.
Qed.

Lemma by_platform_cases {A} (P : string -> A -> Prop) system (mac windows linux other : A) :
  P "MacOS" mac -> P "Windows" windows -> P "Linux" linux -> P "Unknown" other ->
  P (by_platform system "MacOS" "Windows" "Linux" "Unknown")
    (by_platform system mac windows linux other).
Proof.
  intros. unfold by_platform.
  destruct (String.eqb _ "Darwin"); [done|].
  destruct (String.eqb _ "Windows"); [done|]. by destruct (String.eqb _ "Linux").
Qed.

(** X7.  With [get_os_info] bound and no library call raising, the guide
    follows the platform [platform.system()] reports.
    [show_conda_instructions] returns the installation steps of MacOS for
    Darwin, of Windows and of Linux, and for any other platform the
    sentence that the operating system was not detected: the dictionary is
    read with a default and no key is ever missing.  [show_troubleshooting]
    prints the issues of the platform, or the pointer to the Conda
    documentation, and then the general part.  [show_package_installation]
    prints the Windows way of looking for a GPU on Windows and the
    Linux/MacOS way on every other platform, an unknown one included. *)
Theorem guide_follows_platform g :
  lib_ok w -> "get_os_info" ∈ g ->
  outcome (show_conda_instructions w g)
  = inr (by_platform (platform_system w)
           "MacOS Installation Steps: [...]" "Windows Installation Steps: [...]"
           "Linux Installation Steps: [...]"
           "Operating system not detected. Please refer to https://docs.conda.io/en/latest/miniconda.html") /\
  (exists t,
     show_troubleshooting w g
     = (t ++ [EPrint [Lit (by_platform (platform_system w)
                             "Common MacOS Issues: [...]" "Common Windows Issues: [...]"
                             "Common Linux Issues: [...]"
                             "Please refer to the Conda documentation for troubleshooting.")];
              EPrint [Lit "General Troubleshooting: [...]"]], inr tt)) /\
  (exists t,
     show_package_installation w g
     = (t ++ [EPrint [Lit "First, let's check if you have a NVIDIA GPU available..."];
              EPrint [Lit (if String.eqb (platform_system w) "Windows"
                           then "To check for NVIDIA GPU on Windows: [...]"
                           else "To check for NVIDIA GPU on Linux/MacOS: [...]")];
              EPrint [Lit "Based on whether you have a GPU or not, use one of these installation commands: [...]"]],
        inr tt)).
Proof.
  intros Hw Hg. destruct (get_os_info_name g Hw Hg) as (t & version & Hos).
  assert (Hsteps :
    default "Operating system not detected. Please refer to https://docs.conda.io/en/latest/miniconda.html"
      (instructions !! by_platform (platform_system w) "MacOS" "Windows" "Linux" "Unknown")
    = by_platform (platform_system w)
        "MacOS Installation Steps: [...]" "Windows Installation Steps: [...]"
        "Linux Installation Steps: [...]"
        "Operating system not detected. Please refer to https://docs.conda.io/en/latest/miniconda.html").
  { apply (by_platform_cases (fun name text => default _ (instructions !! name) = text));
      by vm_compute. }
  assert (Hissues :
    default "Please refer to the Conda documentation for troubleshooting."
      (common_issues !! by_platform (platform_system w) "MacOS" "Windows" "Linux" "Unknown")
    = by_platform (platform_system w)
        "Common MacOS Issues: [...]" "Common Windows Issues: [...]"
        "Common Linux Issues: [...]"
        "Please refer to the Conda documentation for troubleshooting.").
  { apply (by_platform_cases (fun name text => default _ (common_issues !! name) = text));
      by vm_compute. }
  assert (Hwin :
    String.eqb (by_platform (platform_system w) "MacOS" "Windows" "Linux" "Unknown") "Windows"
    = String.eqb (platform_system w) "Windows").
  { unfold by_platform. destruct (String.eqb (platform_system w) "Darwin") eqn:Hmac.
    - apply String.eqb_eq in Hmac. by rewrite Hmac.
    - destruct (String.eqb (platform_system w) "Windows"); [done|].
      by destruct (String.eqb _ "Linux"). }
  split; [|split].
  - unfold show_conda_instructions. rewrite outcome_bind, Hos. cbn [outcome snd fst ret].
    by rewrite Hsteps.
  - exists t. unfold show_troubleshooting. rewrite (bind_returns _ _ _ _ Hos).
    cbn [fst]. by rewrite Hissues.
  - exists t. unfold show_package_installation. rewrite (bind_returns _ _ _ _ Hos).
    cbn [fst]. rewrite Hwin. destruct (String.eqb (platform_system w) "Windows"); reflexivity.
Qed.

End Platform.

(** ** The check of the installation *)

Section VerifySetup.
Context `{PyFloat} (w : world).
Import LocalSetup.

Lemma in_trace_try {A} (body : M A) handler ev :
  In ev (trace body) -> In ev (trace (try_except_ImportError body handler)).
Proof.
  destruct body as [t [e|a]]; [|done]. cbn [try_except_ImportError trace fst].
  destruct (is_ImportError e); [|done]. destruct (handler e) as [t' o].
  intros Hev. apply in_or_app. by left.
Qed.

Lemma import_returns p : import_outcome w p = None -> import_ w p = ([EImport p], inr tt).
Proof. intros Hp. unfold import_. by rewrite Hp. Qed.

Ltac failed_import :=
  cbn [bind try_except_ImportError];
  match goal with |- context [is_ImportError ?e] => destruct (is_ImportError e) eqn:? end.

Ltac handled Herr Hfail :=
  let Hc := fresh "Hcaught" in
  pose proof (fun Hin => Herr _ _ Hin Hfail) as Hc;
  specialize (Hc ltac:(cbn; tauto));
  unfold import_;
  repeat match goal with Hk : import_outcome _ _ = _ |- _ => rewrite Hk; clear Hk end;
  cbn [bind try_except_ImportError]; rewrite Hc; by exists tt.

(** X8.  [verify_setup] prints that all required packages are installed
    exactly when each of the six imports succeeds.  It returns, without an
    exception, whenever no library call raises and a failing import fails
    with an [ImportError]. *)
Theorem verify_setup_reports :
  (In all_installed (trace (verify_setup w)) <->
   forall p, In p required_packages -> import_outcome w p = None) /\
  (lib_ok w ->
   (forall p e, In p required_packages -> import_outcome w p = Some e -> is_ImportError e = true) ->
   returns (verify_setup w)).
Proof.
  split.
  - split.
    + unfold verify_setup, import_.
      destruct (import_outcome w "torch") as [e|] eqn:H1;
        [failed_import; cbn; intros Hin; decompose [or] Hin; done|].
      destruct (import_outcome w "torchvision") as [e|] eqn:H2;
        [failed_import; cbn; intros Hin; decompose [or] Hin; done|].
      destruct (import_outcome w "matplotlib") as [e|] eqn:H3;
        [failed_import; cbn; intros Hin; decompose [or] Hin; done|].
      destruct (import_outcome w "pandas") as [e|] eqn:H4;
        [failed_import; cbn; intros Hin; decompose [or] Hin; done|].
      destruct (import_outcome w "sklearn") as [e|] eqn:H5;
        [failed_import; cbn; intros Hin; decompose [or] Hin; done|].
      destruct (import_outcome w "wandb") as [e|] eqn:H6;
        [failed_import; cbn; intros Hin; decompose [or] Hin; done|].
      intros _ p Hp. cbn in Hp. decompose [or] Hp; by subst.
    + intros Hall. unfold verify_setup. apply in_trace_try.
      rewrite !import_returns by (apply Hall; cbn; tauto).
      do 6 (rewrite trace_bind; cbn [trace outcome fst snd]; apply in_or_app; right).
      rewrite trace_bind. apply in_or_app. left. by left.
  - intros Hw Herr. unfold verify_setup.
    destruct (import_outcome w "torch") as [e|] eqn:H1; [handled Herr H1|].
    destruct (import_outcome w "torchvision") as [e|] eqn:H2; [handled Herr H2|].
    destruct (import_outcome w "matplotlib") as [e|] eqn:H3; [handled Herr H3|].
    destruct (import_outcome w "pandas") as [e|] eqn:H4; [handled Herr H4|].
    destruct (import_outcome w "sklearn") as [e|] eqn:H5; [handled Herr H5|].
    destruct (import_outcome w "wandb") as [e|] eqn:H6; [handled Herr H6|].
    apply returns_try. rewrite !import_returns by assumption.
    do 6 (apply returns_bind; [by exists tt|intros _ _]).
    autounfold with repo. repeat returns_step.
Qed.

End VerifySetup.

(** ** [forward] on images of other sizes *)

Section ForwardSizes.
Context `{PyFloat} (w : world).
Import Cifar10.

Lemma conv2d_keeps c_in c_out n h v :
  1 <= h -> 1 <= v ->
  conv2d_shape {| in_channels := c_in; out_channels := c_out; kernel_size := 3; padding := 1 |}
    [n; c_in; h; v] = Some [n; c_out; h; v].
Proof.
  intros Hh Hv. unfold conv2d_shape, conv_out. cbn [in_channels out_channels kernel_size padding].
  rewrite Z.eqb_refl.
  replace (h + 2 * 1 - 3 + 1) with h by lia. replace (v + 2 * 1 - 3 + 1) with v by lia.
  destruct (Z.leb_spec 1 h); [|lia]. by destruct (Z.leb_spec 1 v); [|lia].
Qed.

Lemma batch_norm2d_keeps training c n h v :
  0 <= n -> 2 <= h -> 1 <= v ->
  batch_norm2d_shape training {| num_features := c |} [n; c; h; v] = Some [n; c; h; v].
Proof.
  intros Hn Hh Hv. unfold batch_norm2d_shape. cbn [num_features]. rewrite Z.eqb_refl.
  destruct (Z.eqb_spec (n * h * v) 1) as [E|_]; [|by destruct training].
  exfalso. destruct (Z.eq_dec n 0) as [->|]; [lia|]. nia.
Qed.

Lemma max_pool2d_halves_any n c h v :
  2 <= h -> 2 <= v ->
  max_pool2d_shape {| pool_kernel := 2; pool_stride := 2 |} [n; c; h; v]
  = Some [n; c; h / 2; v / 2].
Proof.
  intros Hh Hv. unfold max_pool2d_shape, pool_out. cbn [pool_kernel pool_stride].
  replace ((h - 2) / 2 + 1) with (h / 2) by (Z.div_mod_to_equations; lia).
  replace ((v - 2) / 2 + 1) with (v / 2) by (Z.div_mod_to_equations; lia).
  destruct (Z.leb_spec 1 (h / 2)); [|Z.div_mod_to_equations; lia].
  destruct (Z.leb_spec 1 (v / 2)); [done|Z.div_mod_to_equations; lia].
Qed.

Lemma conv_block_any cn bn c_in c_out training n h v :
  lib_ok w -> 0 <= n -> 2 <= h -> 2 <= v ->
  outcome (conv_block w cn bn
             {| in_channels := c_in; out_channels := c_out; kernel_size := 3; padding := 1 |}
             {| num_features := c_out |} {| pool_kernel := 2; pool_stride := 2 |}
             training [n; c_in; h; v])
  = inr [n; c_out; h / 2; v / 2].
Proof.
  intros Hw Hn Hh Hv. unfold conv_block.
  rewrite outcome_bind,
    (apply_layer_outcome _ _ _ _ _ Hw (conv2d_keeps c_in c_out n h v ltac:(lia) ltac:(lia))).
  rewrite outcome_bind,
    (apply_layer_outcome _ _ _ _ _ Hw
       (batch_norm2d_keeps training c_out n h v Hn Hh ltac:(lia))).
  rewrite outcome_bind, (apply_layer_outcome _ _ _ _ [n; c_out; h; v] Hw) by done.
  by apply apply_layer_outcome, max_pool2d_halves_any.
Qed.

(** [x.view(-1, 2048)] on [n] maps of 128 x a x b: exact when 16 divides
    n * a * b, refused otherwise. *)
Lemma view_regroups n a b :
  view_shape (128 * 4 * 4) [n; 128; a; b]
  = if (n * a * b) mod 16 =? 0 then Some [n * a * b / 16; 2048] else None.
Proof.
  unfold view_shape. replace (numel [n; 128; a; b]) with (128 * (n * a * b))
    by (unfold numel; simpl; ring).
  change (128 * 4 * 4) with 2048. cbn [andb Z.ltb Z.compare].
  set (k := n * a * b).
  replace (128 * k / 2048) with (k / 16) by (Z.div_mod_to_equations; lia).
  destruct (Z.eqb_spec (128 * k mod 2048) 0), (Z.eqb_spec (k mod 16) 0);
    try done; exfalso; Z.div_mod_to_equations; lia.
Qed.

(** X9.  [forward] does not look at the image size.  For the network that
    [CIFAR10Net()] builds and a batch of [n] 3-channel images of height [h]
    and width [v], both at least 8, the three blocks leave [n] maps of
    128 x h/8 x v/8, and [x.view(-1, 128 * 4 * 4)] regroups them: when 16
    divides n * (h/8) * (v/8), [forward] returns that number / 16 rows of
    10 logits, which are [n] rows only for h/8 * v/8 = 16, and otherwise the
    view raises torch's RuntimeError.  An input with another number of
    channels is refused by the first convolution, the only layer called. *)
Theorem forward_any_size self training n h v :
  lib_ok w -> outcome (__init__ w) = inr self -> 0 <= n -> 8 <= h -> 8 <= v ->
  outcome (forward w self training [n; 3; h; v])
  = (if (n * (h / 8) * (v / 8)) mod 16 =? 0
     then inr [n * (h / 8) * (v / 8) / 16; 10]
     else inl (LibraryError "RuntimeError")) /\
  (forall c, c <> 3 ->
     forward w self training [n; c; h; v]
     = ([ECall "self.conv1" [Pos (expr_ "x")]; ERaise (LibraryError "RuntimeError")],
        inl (LibraryError "RuntimeError"))).
Proof.
  intros Hw Hself Hn Hh Hv.
  pose proof (fun k => hidden_shape w self k Hw Hself) as Hhidden.
  pose proof (init_layers w self Hself) as Es. subst self. unfold the_layers in *.
  split.
  - unfold forward. cbn [conv1 conv2 conv3 pool batch_norm1 batch_norm2 batch_norm3 fc2].
    rewrite outcome_bind, (conv_block_any _ _ 3 32 training n h v Hw Hn) by lia.
    rewrite outcome_bind, (conv_block_any _ _ 32 64 training n (h / 2) (v / 2) Hw Hn)
      by (Z.div_mod_to_equations; lia).
    rewrite outcome_bind, (conv_block_any _ _ 64 128 training n (h / 2 / 2) (v / 2 / 2) Hw Hn)
      by (Z.div_mod_to_equations; lia).
    replace (h / 2 / 2 / 2) with (h / 8) by (Z.div_mod_to_equations; lia).
    replace (v / 2 / 2 / 2) with (v / 8) by (Z.div_mod_to_equations; lia).
    rewrite outcome_bind. unfold apply_layer at 1.
    rewrite outcome_bind, call_outcome, view_regroups by done.
    destruct (_ =? 0); [|done]. cbn [outcome ret snd].
    rewrite outcome_bind, Hhidden.
    rewrite outcome_bind, (apply_layer_outcome _ _ _ _ [n * (h / 8) * (v / 8) / 16; 10] Hw) by done.
    done.
  - intros c Hc. unfold forward, conv_block. cbn [conv1 batch_norm1 pool].
    unfold apply_layer at 1. rewrite (call_ok w) by done.
    unfold conv2d_shape. cbn [in_channels].
    destruct (Z.eqb_spec c 3); [done|]. reflexivity.
Qed.

End ForwardSizes.

(** ** [evaluate_model] outside its precondition *)

Section EvaluateErrors.
Context `{PyFloat} (w : world).
Import Cifar10.

Lemma range_split c n : 0 <= c < n -> exists suf, range n = range c ++ c :: suf.
Proof.
  intros Hc. unfold range.
  replace (Z.to_nat n) with (Z.to_nat c + S (Z.to_nat (n - c - 1)))%nat by lia.
  rewrite seq_app, map_app. cbn [seq map Nat.add]. rewrite Z2Nat.id by lia. by eexists.
Qed.

Lemma for_each_raises {A} (f : A -> list event) (body : A -> M unit) pre x suf t e :
  (forall y, In y pre -> body y = (f y, inr tt)) -> body x = (t, inl e) ->
  for_each (pre ++ x :: suf) body = (flat_map f pre ++ t, inl e).
Proof.
  intros Hpre Hx. induction pre as [|y pre IH]; cbn [app for_each flat_map].
  - by rewrite Hx.
  - rewrite (Hpre y) by (by left). rewrite IH by (intros; apply Hpre; by right).
    cbn [bind]. by rewrite app_assoc.
Qed.

(** The loop over the test batches returns with the counts of what it has
    seen. *)
Lemma test_loop_returns obs :
  lib_ok w -> labels_are_classes obs -> at_least_two_per_batch obs ->
  exists t, outcome (for_fold obs tally0 (eval_batch w)) = inr t /\ tallied obs t.
Proof.
  intros Hw Hlabels Htwo.
  destruct (for_fold_returns
              (fun b => (2 <= length (samples b))%nat /\
                        forall p l, In (p, l) (samples b) -> 0 <= l < 10)
              tallied (eval_batch w) obs) with (seen := @nil batch) (s := tally0)
    as (t & Ht & Htal).
  - apply Forall_forall. intros b Hb. split.
    + unfold at_least_two_per_batch in Htwo. rewrite Forall_forall in Htwo. by apply Htwo.
    + intros p l Hpl. unfold labels_are_classes in Hlabels. rewrite Forall_forall in Hlabels.
      apply (Hlabels (p, l)). apply list_elem_of_In, in_flat_map. exists b.
      split; [by apply list_elem_of_In|done].
  - intros seen s b [Hlen Hl] Hs. by apply eval_batch_ok.
  - done.
  - exists t. by rewrite app_nil_l in Htal.
Qed.

Lemma test_loop_prints_nothing obs t0 :
  count_events is_print (trace (for_fold obs t0 (eval_batch w))) = 0%nat.
Proof.
  apply count_events_none.
  change (traced (fun ev => is_print ev = false) (for_fold obs t0 (eval_batch w))).
  autounfold with repo. repeat traced_step.
Qed.

Lemma class_count_none xs c : ~ In c (map snd xs) -> class_count xs c = 0.
Proof.
  intros Hc. unfold class_count.
  induction xs as [|[p l] xs IH]; [done|]. cbn [List.filter snd].
  destruct (Z.eqb_spec l c) as [->|_]; [exfalso; apply Hc; by left|].
  apply IH. intros Hin. apply Hc. by right.
Qed.

Lemma print_class_accuracy_prints seen t i :
  counted seen t -> 0 <= i < 10 -> 0 < class_count seen i ->
  exists text, print_class_accuracy t i = ([EPrint text], inr tt).
Proof.
  intros [Hcc Hct] Hi Hpos. unfold print_class_accuracy.
  assert (Hname : exists name, classes !! Z.to_nat i = Some name).
  { apply lookup_lt_is_Some. simpl. lia. }
  destruct Hname as [name Hname].
  rewrite (py_index_ok _ i name), bind_ret_l by (done || lia).
  rewrite (py_index_ok _ i (class_hits seen i)), bind_ret_l
    by (lia || (rewrite Hcc; by apply counts_lookup)).
  rewrite (py_index_ok _ i (class_count seen i)), bind_ret_l
    by (lia || (rewrite Hct; by apply counts_lookup)).
  rewrite truediv_ok, bind_ret_l by done. by eexists.
Qed.

Lemma print_class_accuracy_divides_by_zero seen t i :
  counted seen t -> 0 <= i < 10 -> class_count seen i = 0 ->
  print_class_accuracy t i = ([ERaise ZeroDivisionError], inl ZeroDivisionError).
Proof.
  intros [Hcc Hct] Hi Hzero. unfold print_class_accuracy.
  assert (Hname : exists name, classes !! Z.to_nat i = Some name).
  { apply lookup_lt_is_Some. simpl. lia. }
  destruct Hname as [name Hname].
  rewrite (py_index_ok _ i name), bind_ret_l by (done || lia).
  rewrite (py_index_ok _ i (class_hits seen i)), bind_ret_l
    by (lia || (rewrite Hcc; by apply counts_lookup)).
  rewrite (py_index_ok _ i (class_count seen i)), bind_ret_l
    by (lia || (rewrite Hct; by apply counts_lookup)).
  by rewrite Hzero.
Qed.

(** X10.  When the test pass has no sample of some class, [evaluate_model]
    raises ZeroDivisionError and returns no accuracy: with [c] the first
    class without a sample, it prints the accuracy lines of the [c] classes
    before it and raises at the division by [class_total[c]].  On an empty
    test set it raises before it prints anything. *)
Theorem evaluate_model_missing_class obs c :
  lib_ok w -> labels_are_classes obs -> at_least_two_per_batch obs ->
  0 <= c < 10 -> ~ In c (map snd (all_samples obs)) ->
  (forall c', 0 <= c' < c -> In c' (map snd (all_samples obs))) ->
  outcome (evaluate_model w obs) = inl ZeroDivisionError /\
  count_events is_print (trace (evaluate_model w obs)) = Z.to_nat c.
Proof.
  intros Hw Hlabels Htwo Hc Habsent Hbefore.
  destruct (test_loop_returns obs Hw Hlabels Htwo) as (t & Ht & Hcounted & _).
  destruct (range_split c 10 Hc) as [suf Hrange].
  assert (Hlines : exists lines,
            for_each (range 10) (print_class_accuracy t) = (lines, inl ZeroDivisionError) /\
            count_events is_print lines = Z.to_nat c).
  { assert (Hline : forall i, In i (range c) ->
              exists text, print_class_accuracy t i = ([EPrint text], inr tt)).
    { intros i Hi. apply In_range in Hi.
      apply (print_class_accuracy_prints (all_samples obs)); [done|lia|].
      apply class_count_pos. by apply Hbefore. }
    exists (flat_map (fun i => trace (print_class_accuracy t i)) (range c)
            ++ [ERaise ZeroDivisionError]). split.
    - rewrite Hrange. apply for_each_raises.
      + intros i Hi. destruct (Hline i Hi) as [text ->]. done.
      + apply (print_class_accuracy_divides_by_zero (all_samples obs)); [done..|].
        by apply class_count_none.
    - rewrite count_events_app, (count_events_flat_map _ _ 1), length_range;
        [unfold count_events; simpl; lia|].
      intros i Hi. by destruct (Hline i Hi) as [text ->]. }
  destruct Hlines as (lines & Hlines & Hcount).
  unfold evaluate_model. split.
  - do 2 (rewrite outcome_bind, call_outcome by done).
    by rewrite outcome_bind, Ht, outcome_bind, Hlines.
  - do 2 (rewrite trace_bind, call_outcome, count_events_app by done).
    rewrite trace_bind, Ht, count_events_app, test_loop_prints_nothing.
    rewrite trace_bind, Hlines, count_events_app. cbn [trace outcome fst snd].
    by rewrite Hcount.
Qed.


End EvaluateErrors.

(** ** The figure of [visualize_predictions] *)

Section Visualize.
Context `{PyFloat} (w : world).
Import Cifar10.

Lemma classes_lookup c : 0 <= c < 10 -> exists name, classes !! Z.to_nat c = Some name.
Proof. intros Hc. apply lookup_lt_is_Some. simpl. lia. Qed.

(** One image: a green frame for a prediction that is the label, a red one
    otherwise. *)
Lemma show_prediction_frame q n_q g n shown first idx p l :
  lib_ok w -> "imshow" ∈ g -> 0 <= idx ->
  first !! Z.to_nat idx = Some (p, l) -> shown !! Z.to_nat idx = Some (p, l) ->
  0 <= p < 10 -> 0 <= l < 10 ->
  (forall args, count_events q [ECall "plt.setp" (Pos (expr_ "ax.spines.values()")
                                  :: Kw "color" (str_ (if p =? l then "green" else "red"))
                                  :: args)] = n_q) ->
  (forall callee args, callee <> "plt.setp" -> q (ECall callee args) = false) ->
  occurs q (show_prediction w g n shown first idx) n_q.
Proof.
  intros Hw Hg Hidx Hfirst Hshown Hp Hl Hsetp Hother.
  destruct (classes_lookup p Hp) as [name Hname].
  destruct (classes_lookup l Hl) as [true_name Htrue].
  assert (Hcall : forall callee args, callee <> "plt.setp" -> occurs q (call w callee args) 0).
  { intros callee args Hc. apply occurs_call; [done|].
    unfold count_events. cbn [List.filter]. by rewrite Hother. }
  unfold show_prediction, call_global. rewrite decide_True by done.
  rewrite (py_index_ok first idx (p, l)), bind_ret_l by done.
  rewrite !(py_index_ok (map fst shown) idx p), !bind_ret_l
    by (done || by rewrite list_lookup_fmap, Hshown).
  rewrite !(py_index_ok classes p name), !bind_ret_l by (done || lia).
  rewrite !(py_index_ok (map snd first) idx l), !bind_ret_l
    by (done || by rewrite list_lookup_fmap, Hfirst).
  rewrite ?(py_index_ok classes l true_name), ?bind_ret_l by (done || lia).
  unfold imshow. specialize (Hsetp [Kw "linewidth" (int_ 2)]).
  destruct (p =? l); (eapply occurs_eq; [|shelve]).
  - eapply occurs_bind; [by apply Hcall|intros ? _].
    eapply occurs_bind;
      [eapply occurs_bind; [by apply Hcall|intros ? _];
       eapply occurs_bind; [by apply Hcall|intros ? _]; by apply Hcall|intros ? _].
    eapply occurs_bind; [by apply Hcall|intros ? _].
    eapply occurs_bind; [by apply Hcall|intros ? _].
    apply occurs_call; [done|exact Hsetp].
  - eapply occurs_bind; [by apply Hcall|intros ? _].
    eapply occurs_bind;
      [eapply occurs_bind; [by apply Hcall|intros ? _];
       eapply occurs_bind; [by apply Hcall|intros ? _]; by apply Hcall|intros ? _].
    eapply occurs_bind; [by apply Hcall|intros ? _].
    eapply occurs_bind; [by apply Hcall|intros ? _].
    eapply occurs_bind; [apply occurs_call; [done|exact Hsetp]|intros ? _].
    by apply Hcall.
  Unshelve. all: lia.
Qed.

Lemma sum_range_filter (q : Z * Z -> bool) (first : list (Z * Z)) : forall k,
  (k <= length first)%nat ->
  sum_list_with (fun idx => match first !! Z.to_nat idx with
                            | Some pl => if q pl then 1%nat else 0%nat
                            | None => 0%nat
                            end) (map Z.of_nat (seq 0 k))
  = length (List.filter q (take k first)).
Proof.
  induction k as [|k IH]; intros Hk; [by rewrite take_0|].
  destruct (lookup_lt_is_Some_2 first k ltac:(lia)) as [pl Hpl].
  rewrite seq_S, map_app, sum_list_with_app, IH by lia.
  rewrite (take_S_r _ _ _ Hpl), List.filter_app, length_app.
  cbn [map sum_list_with Nat.add List.filter]. rewrite Nat2Z.id, Hpl.
  destruct (q pl); simpl; lia.
Qed.

Lemma frames_other color callee args :
  callee <> "plt.setp" -> frames color (ECall callee args) = false.
Proof. intros Hc. unfold frames. apply String.eqb_neq in Hc. by rewrite Hc. Qed.

Lemma frames_count (q : Z * Z -> bool) color g n :
  (forall p l args,
     count_events (frames color)
       [ECall "plt.setp" (Pos (expr_ "ax.spines.values()")
          :: Kw "color" (str_ (if p =? l then "green" else "red")) :: args)]
     = if q (p, l) then 1%nat else 0%nat) ->
  lib_ok w -> "imshow" ∈ g ->
  0 <= n <= Z.of_nat (length (first_test_batch w)) ->
  Forall both_classes (take (Z.to_nat n) (first_test_batch w)) ->
  occurs (frames color) (visualize_predictions w g n)
    (length (List.filter q (take (Z.to_nat n) (first_test_batch w)))).
Proof.
  intros Hq Hw Hg Hn Hvalid. unfold visualize_predictions. cbv zeta.
  assert (Hslice : py_slice_to (first_test_batch w) n = take (Z.to_nat n) (first_test_batch w)).
  { unfold py_slice_to. destruct (Z.ltb_spec n 0); [lia|done]. }
  rewrite Hslice. set (first := first_test_batch w) in *.
  eapply occurs_eq.
  - do 7 (eapply occurs_bind; [occurs_step|intros ? _]).
    eapply occurs_bind; [|intros ? _; eapply occurs_bind; [occurs_step|intros ? _]; occurs_step].
    apply (occurs_for_each_with _
             (fun idx => match first !! Z.to_nat idx with
                         | Some pl => if q pl then 1%nat else 0%nat
                         | None => 0%nat
                         end)).
    intros idx Hidx. apply In_range in Hidx.
    destruct (lookup_lt_is_Some_2 first (Z.to_nat idx) ltac:(lia)) as [[p l] Hpl].
    assert (Hshown : take (Z.to_nat n) first !! Z.to_nat idx = Some (p, l))
      by (rewrite lookup_take_lt by lia; done).
    rewrite Forall_forall in Hvalid.
    destruct (Hvalid (p, l)) as [Hp Hl]; [by eapply list_elem_of_lookup_2|].
    rewrite Hpl. eapply show_prediction_frame; try done; [lia|].
    intros. by apply frames_other.
  - unfold range. rewrite sum_range_filter by lia. lia.
Qed.

(** One image, as the figure shows it: its subplot, then its frame. *)
Lemma show_prediction_marks g n shown first idx p l :
  lib_ok w -> "imshow" ∈ g -> 0 <= idx ->
  first !! Z.to_nat idx = Some (p, l) -> shown !! Z.to_nat idx = Some (p, l) ->
  0 <= p < 10 -> 0 <= l < 10 ->
  collects marks_of (show_prediction w g n shown first idx) (prediction_marks first idx).
Proof.
  intros Hw Hg Hidx Hfirst Hshown Hp Hl.
  destruct (classes_lookup p Hp) as [name Hname].
  destruct (classes_lookup l Hl) as [true_name Htrue].
  unfold prediction_marks. rewrite Hfirst. unfold is_hit. cbn [fst snd].
  unfold show_prediction, call_global. rewrite decide_True by done.
  rewrite (py_index_ok first idx (p, l)), bind_ret_l by done.
  rewrite !(py_index_ok (map fst shown) idx p), !bind_ret_l
    by (done || by rewrite list_lookup_fmap, Hshown).
  rewrite !(py_index_ok classes p name), !bind_ret_l by (done || lia).
  rewrite !(py_index_ok (map snd first) idx l), !bind_ret_l
    by (done || by rewrite list_lookup_fmap, Hfirst).
  rewrite ?(py_index_ok classes l true_name), ?bind_ret_l by (done || lia).
  unfold imshow. rewrite !(call_ok w) by done.
  destruct (p =? l); (split; [by eexists|reflexivity]).
Qed.

(** X12.  For [num_images] between 0 and the size of the first test batch,
    with [imshow] bound, no library call raising and predictions and labels
    that are classes, [visualize_predictions] returns; of the images it
    shows it frames in green as many as are predicted as their label and in
    red as many as are not.  It goes through the images in the order of the
    batch: the image of index idx is put at the subplot idx + 1 and then
    framed, in green when its prediction is its label and in red when it is
    not. *)
Theorem visualize_predictions_frames g n :
  lib_ok w -> "imshow" ∈ g ->
  0 <= n <= Z.of_nat (length (first_test_batch w)) ->
  Forall both_classes (take (Z.to_nat n) (first_test_batch w)) ->
  occurs (frames "green") (visualize_predictions w g n)
    (length (List.filter is_hit (take (Z.to_nat n) (first_test_batch w)))) /\
  occurs (frames "red") (visualize_predictions w g n)
    (length (List.filter is_miss (take (Z.to_nat n) (first_test_batch w)))) /\
  flat_map marks_of (trace (visualize_predictions w g n))
  = flat_map (prediction_marks (first_test_batch w)) (range n).
Proof.
  intros Hw Hg Hn Hvalid. split; [|split]; [apply frames_count; try done..|].
  - intros p l args. unfold is_hit. cbn [fst snd]. by destruct (p =? l).
  - intros p l args. unfold is_miss, is_hit. cbn [fst snd]. by destruct (p =? l).
  - apply (proj2 (A := returns (visualize_predictions w g n))).
    change (collects marks_of (visualize_predictions w g n)
              (flat_map (prediction_marks (first_test_batch w)) (range n))).
    unfold visualize_predictions. cbv zeta.
    assert (Hslice : py_slice_to (first_test_batch w) n = take (Z.to_nat n) (first_test_batch w)).
    { unfold py_slice_to. destruct (Z.ltb_spec n 0); [lia|done]. }
    rewrite Hslice. set (first := first_test_batch w) in *.
    eapply collects_eq.
    + do 7 (eapply collects_bind; [collects_step|intros ? _]).
      eapply collects_bind;
        [|intros ? _; eapply collects_bind; [collects_step|intros ? _]; collects_step].
      apply (collects_for_each _ (prediction_marks first)).
      intros idx Hidx. apply In_range in Hidx.
      destruct (lookup_lt_is_Some_2 first (Z.to_nat idx) ltac:(lia)) as [[p l] Hpl].
      assert (Hshown : take (Z.to_nat n) first !! Z.to_nat idx = Some (p, l))
        by (rewrite lookup_take_lt by lia; done).
      rewrite Forall_forall in Hvalid.
      destruct (Hvalid (p, l)) as [Hp Hl]; [by eapply list_elem_of_lookup_2|].
      eapply show_prediction_marks; try done. lia.
    + cbn [marks_of String.eqb Ascii.eqb Bool.eqb app]. by rewrite app_nil_r.
Qed.



End Visualize.

(** ** The sixteen training images of cell 3 *)

Section FirstImages.
Context `{PyFloat} (w : world).
Import Cifar10.

Lemma label_at_range labels : forall k,
  (k <= length labels)%nat -> map (label_at labels) (map Z.of_nat (seq 0 k)) = take k labels.
Proof.
  induction k as [|k IH]; intros Hk; [by rewrite take_0|].
  destruct (lookup_lt_is_Some_2 labels k ltac:(lia)) as [l Hl].
  rewrite seq_S, !map_app, IH, (take_S_r _ _ _ Hl) by lia.
  cbn [map Nat.add]. unfold label_at. rewrite Nat2Z.id, Hl. done.
Qed.

Lemma py_index_past {A} (xs : list A) i :
  Z.of_nat (length xs) <= i -> py_index xs i = raise IndexError.
Proof.
  intros Hi. unfold py_index.
  destruct (Z.ltb_spec i 0); [lia|]. destruct (Z.ltb_spec i 0); [lia|].
  by destruct (Z.leb_spec (Z.of_nat (length xs)) i); [|lia].
Qed.

(** The loop that collects the names of the labels at the indices [js]. *)
Lemma names_loop labels js : forall names,
  Forall (fun j => 0 <= j < Z.of_nat (length labels) /\ 0 <= label_at labels j < 10) js ->
  for_fold js names (fun names j =>
    l ← py_index labels j;
    name ← py_index classes l;
    ret (names ++ [Fmt (VStr name) "5s"]))
  = ([], inr (names ++ map (fun j => class_field (label_at labels j)) js)).
Proof.
  induction js as [|j js IH]; intros names Hjs; [by rewrite app_nil_r|].
  apply Forall_cons in Hjs as [[Hj Hl] Hjs]. cbn [for_fold map].
  destruct (lookup_lt_is_Some_2 labels (Z.to_nat j) ltac:(lia)) as [l Hlab].
  unfold label_at in Hl. rewrite Hlab in Hl. simpl in Hl.
  destruct (lookup_lt_is_Some_2 classes (Z.to_nat l) ltac:(unfold classes; cbn [length]; lia))
    as [name Hname].
  rewrite (py_index_ok labels j l), bind_ret_l by (done || lia).
  rewrite (py_index_ok classes l name), bind_ret_l by (done || lia).
  rewrite bind_ret_l, IH by done.
  unfold class_field, label_at. rewrite Hlab. simpl default. rewrite Hname. simpl default.
  by rewrite <- app_assoc.
Qed.

Lemma label_indices labels k :
  Forall (fun l => 0 <= l < 10) (take 16 labels) ->
  (k <= 16)%nat -> (k <= length labels)%nat ->
  Forall (fun j => 0 <= j < Z.of_nat (length labels) /\ 0 <= label_at labels j < 10)
    (map Z.of_nat (seq 0 k)).
Proof.
  intros Hvalid Hk Hlen. apply Forall_forall. intros j Hj.
  apply list_elem_of_In, in_map_iff in Hj as (i & <- & Hi). apply in_seq in Hi.
  split; [lia|]. unfold label_at. rewrite Nat2Z.id.
  destruct (lookup_lt_is_Some_2 labels i ltac:(lia)) as [l Hl]. rewrite Hl. simpl default.
  rewrite Forall_forall in Hvalid. apply Hvalid.
  apply list_elem_of_lookup. exists i. rewrite lookup_take_lt by lia. done.
Qed.

Lemma cell3_runs g :
  lib_ok w -> "imshow" ∈ g ->
  Forall (fun l => 0 <= l < 10) (take 16 (first_train_labels w)) ->
  (16 <= length (first_train_labels w))%nat ->
  exists t,
    cell3 w g
    = (t ++ [EPrint (intersperse (Lit " ")
                       (map class_field (take 16 (first_train_labels w))))], inr tt) /\
    count_events is_print t = 0%nat.
Proof.
  intros Hw Hg Hvalid Hlen.
  unfold cell3, call_global. rewrite decide_True by done. unfold imshow.
  rewrite !(call_ok w) by done. change (range 16) with (map Z.of_nat (seq 0 16)).
  rewrite (names_loop _ _ [] (label_indices _ 16%nat Hvalid ltac:(lia) Hlen)).
  rewrite app_nil_l, <- map_map, label_at_range by done.
  exists [ECall "iter" [Pos (expr_ "trainloader")]; ECall "next" [Pos (expr_ "dataiter")];
          ECall "plt.figure" [Kw "figsize" (expr_ "(10, 10)")];
          ECall "torchvision.utils.make_grid" [Pos (expr_ "images[:16]")];
          ECall "img.numpy" [];
          ECall "np.transpose" [Pos (expr_ "npimg"); Pos (expr_ "(1, 2, 0)")];
          ECall "plt.imshow" [Pos (expr_ "np.transpose(npimg, (1, 2, 0))")];
          ECall "plt.axis" [Pos (str_ "off")]].
  split; reflexivity.
Qed.

(** X14.  With [imshow] bound and no library call raising, cell 3 shows a
    grid of the first sixteen images of a training batch and then prints,
    in one line, the class names of their sixteen labels in order, each
    padded to five characters and separated by a space; the batch must hold
    sixteen images with labels that are classes.  With fewer images the
    cell raises IndexError and prints nothing. *)
Theorem cell3_prints_the_labels g :
  lib_ok w -> "imshow" ∈ g ->
  Forall (fun l => 0 <= l < 10) (take 16 (first_train_labels w)) ->
  ((16 <= length (first_train_labels w))%nat ->
   exists t,
     cell3 w g
     = (t ++ [EPrint (intersperse (Lit " ")
                        (map class_field (take 16 (first_train_labels w))))], inr tt) /\
     count_events is_print t = 0%nat) /\
  ((length (first_train_labels w) < 16)%nat ->
   outcome (cell3 w g) = inl IndexError /\
   count_events is_print (trace (cell3 w g)) = 0%nat).
Proof.
  intros Hw Hg Hvalid. split; [by apply cell3_runs|].
  intros Hlen. set (labels := first_train_labels w) in *.
  unfold cell3, call_global. rewrite decide_True by done. unfold imshow.
  rewrite !(call_ok w) by done. fold labels.
  destruct (range_split (Z.of_nat (length labels)) 16 ltac:(lia)) as [suf Hsplit].
  rewrite Hsplit. unfold range. rewrite Nat2Z.id, for_fold_app.
  rewrite (names_loop labels _ [] (label_indices _ (length labels) Hvalid ltac:(lia) ltac:(lia))).
  rewrite (bind_returns _ _ [] _ eq_refl). cbn [for_fold].
  rewrite py_index_past, !bind_raise_l by lia.
  split; [reflexivity|reflexivity].
Qed.

End FirstImages.

(** ** The CIFAR-10 notebook with the evaluation cell run first *)

Section RepairedOrder.
Context `{PyFloat} (w : world).
Import Cifar10.

Lemma returns_eq {A} (m : M A) t a : m = (t, inr a) -> returns m.
Proof. intros ->. by exists a. Qed.

Lemma train_model_returns g epochs :
  "evaluate_model" ∈ g -> lib_ok w -> (forall e, 0 <= e < epochs -> epoch_ok w e) ->
  returns (train_model w g epochs).
Proof.
  intros Hg Hw Hok. unfold train_model.
  apply returns_bind; [|intros _ _; autounfold with repo; repeat returns_step].
  eapply returns_eq, (for_each_trace (epoch_trace w)).
  intros e He. apply train_epoch_ok; [done..|]. apply Hok. by apply In_range.
Qed.

(** X15.  Run with the evaluation cell before the training cell, and
    otherwise top to bottom in a fresh kernel, the cells of the CIFAR-10
    notebook all run to their end without an exception, where every import
    succeeds, no library call raises and the data is as the cells need
    it. *)
Theorem evaluation_cell_first :
  imports_ok w -> lib_ok w -> cifar_data_ok w ->
  (run_all ∅ (sixth_before_fifth (notebook w))).2 = None.
Proof.
  intros Hi Hw (Hlen & Hlabels & Htest_labels & Htest_classes & Htest_two & Hepochs
                & Hfirst & Hpairs).
  apply run_all_returns. unfold notebook, sixth_before_fifth.
  cbn [cells_return cell_returns bindings_after].
  repeat match goal with |- _ /\ _ => split end; try exact I.
  - autounfold with cells. repeat returns_step.
  - autounfold with cells. repeat returns_step.
  - match goal with
    | |- returns (cell3 w ?g) =>
        destruct (cell3_runs w g Hw ltac:(bound) Hlabels Hlen) as (t & Ht & _)
    end.
    by eapply returns_eq.
  - unfold cell4, __init__. autounfold with repo. repeat returns_step.
  - unfold cell6. apply returns_bind; [|intros ? _; autounfold with repo; repeat returns_step].
    apply returns_call_global; [bound|].
    destruct (evaluate_model_returns w _ Hw Htest_labels Htest_classes Htest_two) as [_ Hq].
    by eexists.
  - autounfold with cells. repeat returns_step.
  - unfold cell5. apply returns_call_global; [bound|].
    apply train_model_returns; [bound|done..].
  - unfold cell7. apply returns_call_global; [bound|].
    eapply proj1, (frames_count w is_hit "green"); try done.
    + intros p l args. unfold is_hit. cbn [fst snd]. by destruct (p =? l).
    + lia.
Qed.

End RepairedOrder.

(** ** The further properties at work *)

Lemma cpu_world_imports_ok n_train n_test : imports_ok (cpu_world n_train n_test).
Proof. by intros m. Qed.

Lemma gpu_world_lib_ok n : lib_ok (gpu_world n).
Proof. by intros callee. Qed.

Lemma cpu_world_first_test_batch n_train n_test :
  Forall both_classes (first_test_batch (cpu_world n_train n_test)).
Proof.
  apply Forall_forall. intros pl Hpl.
  apply list_elem_of_In, in_map_iff in Hpl as (i & <- & _).
  pose proof (Z.mod_pos_bound i 10). unfold both_classes. simpl. lia.
Qed.

Lemma cpu_world_first_train_labels n_train n_test :
  Forall (fun l => 0 <= l < 10) (first_train_labels (cpu_world n_train n_test)).
Proof.
  apply Forall_forall. intros l Hl.
  apply list_elem_of_In, in_map_iff in Hl as (i & <- & _).
  pose proof (Z.mod_pos_bound i 10). lia.
Qed.

(** The local-setup notebook, run top to bottom. *)
Lemma run_all_completes_witness :
  (run_all ∅ (cells_of (cpu_world 0 0) local_setup)).2 = None.
Proof.
  apply (run_all_completes (cpu_world 0 0) local_setup).
  - apply cpu_world_imports_ok.
  - apply cpu_world_lib_ok.
  - discriminate.
Defined.

(** The benchmark on a machine without CUDA. *)
Lemma cpu_only_needs_no_cuda_witness :
  Forall (fun ev => needs_cuda ev = false)
    (run_function (cpu_world 0 0) ∅ F_benchmark_operations).1.
Proof. exact (proj1 (cpu_only_needs_no_cuda (cpu_world 0 0) eq_refl) ∅ F_benchmark_operations). Defined.

(** Four devices: one [DataParallel], and the names of the devices 0, 1, 2
    and 3 asked for in this order. *)
Lemma check_multi_gpu_devices_witness :
  count_events (is_call "torch.nn.DataParallel") (trace (PytorchGpu.check_multi_gpu (gpu_world 4)))
  = 1%nat /\
  args_of "torch.cuda.get_device_name" (trace (PytorchGpu.check_multi_gpu (gpu_world 4)))
  = [[Pos (int_ 0)]; [Pos (int_ 1)]; [Pos (int_ 2)]; [Pos (int_ 3)]].
Proof.
  destruct (check_multi_gpu_devices (gpu_world 4) (gpu_world_lib_ok 4)) as (_ & Hdp & _ & Hargs).
  split; [exact Hdp|]. exact (Hargs "torch.cuda.get_device_name" (or_introl eq_refl)).
Defined.


(** On Linux the guide gives the steps for Linux. *)
Lemma guide_follows_platform_witness :
  outcome (LocalSetup.show_conda_instructions (cpu_world 0 0) {["get_os_info"]})
  = inr "Linux Installation Steps: [...]".
Proof.
  apply (guide_follows_platform (cpu_world 0 0) {["get_os_info"]}).
  - apply cpu_world_lib_ok.
  - by apply elem_of_singleton_2.
Defined.

(** With [wandb] missing, [verify_setup] still returns. *)
Lemma verify_setup_reports_witness :
  returns (LocalSetup.verify_setup (without_wandb (cpu_world 0 0))).
Proof.
  apply (proj2 (verify_setup_reports (without_wandb (cpu_world 0 0)))).
  - by intros callee.
  - intros p e _ Hout. cbn in Hout.
    destruct (String.eqb p "wandb"); [by injection Hout as <-|discriminate].
Defined.

(** Eight images of 64 x 64 come out as 32 rows. *)
Lemma forward_any_size_witness :
  outcome (Cifar10.forward (cpu_world 0 0) the_layers true [8; 3; 64; 64]) = inr [32; 10].
Proof.
  assert (Hinit : outcome (Cifar10.__init__ (cpu_world 0 0)) = inr the_layers)
    by (by vm_compute).
  apply (forward_any_size (cpu_world 0 0) the_layers true 8 64 64 (cpu_world_lib_ok 0 0) Hinit);
    lia.
Defined.

(** A test pass without the classes 5 to 9: five lines, then the
    exception. *)
Lemma evaluate_model_missing_class_witness :
  outcome (Cifar10.evaluate_model (cpu_world 0 0) [five_classes]) = inl ZeroDivisionError /\
  count_events is_print (trace (Cifar10.evaluate_model (cpu_world 0 0) [five_classes])) = 5%nat.
Proof.
  apply (evaluate_model_missing_class (cpu_world 0 0) [five_classes] 5).
  - apply cpu_world_lib_ok.
  - repeat constructor; simpl; lia.
  - repeat constructor.
  - lia.
  - simpl. intros Hin. decompose [or] Hin; lia.
  - intros c' Hc'. simpl.
    assert (Hcases : c' = 0 \/ c' = 1 \/ c' = 2 \/ c' = 3 \/ c' = 4) by lia.
    destruct Hcases as [->|[->|[->|[->| ->]]]]; tauto.
Defined.


(** Five test images, all predicted as class 3: the fourth, of class 3, is
    framed in green, the four others in red. *)
Lemma visualize_predictions_frames_witness :
  occurs (frames "green") (Cifar10.visualize_predictions (cpu_world 0 0) {["imshow"]} 5) 1 /\
  occurs (frames "red") (Cifar10.visualize_predictions (cpu_world 0 0) {["imshow"]} 5) 4 /\
  flat_map marks_of (trace (Cifar10.visualize_predictions (cpu_world 0 0) {["imshow"]} 5))
  = [Subplot 1; Frame "red"; Subplot 2; Frame "red"; Subplot 3; Frame "red";
     Subplot 4; Frame "green"; Subplot 5; Frame "red"].
Proof.
  apply (visualize_predictions_frames (cpu_world 0 0) {["imshow"]} 5).
  - apply cpu_world_lib_ok.
  - by apply elem_of_singleton_2.
  - simpl. lia.
  - apply Forall_take, cpu_world_first_test_batch.
Defined.


Lemma cell3_prints_the_labels_witness :
  exists t,
    Cifar10.cell3 (cpu_world 0 0) {["imshow"]}
    = (t ++ [EPrint (Cifar10.intersperse (Lit " ")
                       (map class_field (take 16 (first_train_labels (cpu_world 0 0)))))],
       inr tt) /\
    count_events is_print t = 0%nat.
Proof.
  apply (cell3_prints_the_labels (cpu_world 0 0) {["imshow"]}).
  - apply cpu_world_lib_ok.
  - by apply elem_of_singleton_2.
  - apply Forall_take, cpu_world_first_train_labels.
  - simpl. lia.
Defined.

Lemma evaluation_cell_first_witness :
  (run_all ∅ (sixth_before_fifth (Cifar10.notebook (cpu_world 2 1)))).2 = None.
Proof.
  apply (evaluation_cell_first (cpu_world 2 1)).
  - apply cpu_world_imports_ok.
  - apply cpu_world_lib_ok.
  - split; [simpl; lia|]. split; [apply Forall_take, cpu_world_first_train_labels|].
    split; [apply (uniform_batches_ok 1 1); lia|].
    split; [apply (uniform_batches_ok 1 1); lia|].
    split; [apply (uniform_batches_ok 1 1); lia|].
    split; [|split; [simpl; lia|apply Forall_take, cpu_world_first_test_batch]].
    intros e _. split; [by (vm_compute; repeat constructor)|].
    apply (uniform_batches_ok 1 1); lia.
Defined.
